(** * Swarm Conductor: sessions, sprints, checkpoints and confidence

    A shallow embedding of the core of the repository:

    - [State]: the pure reducer of [src/core/state.ts] over the immutable
      [SwarmState] aggregate (phase transitions, tasks, agents);
    - [Confidence]: the factor-based evaluator of [src/types/confidence.ts];
    - [SQLiteStateRepository]: the durable repository of
      [src/state/repository.ts] over the tables of [schema.sql];
    - [MCPHandlers]: the control API of [src/mcp/handlers.ts];
    - [InitialState], [CoreConfidence], [Phases], [Conductor]: the initial
      aggregate, the confidence of an aggregate, the phase criteria and the
      conductor loop of [src/core];
    - [ResultOps], [ConfidenceLevels], [Recommendations], [SessionHandlers],
      [MigrationRunner]: the combinators of [src/types/result.ts], the
      levels of [src/types/confidence.ts], the recommendations of
      [src/core/confidence.ts], the init and status methods, and the
      migrations of [src/state/migrations.ts].

    Conventions of the embedding.

    - A JavaScript [number] is a [number] below: an exact rational, or one
      of the IEEE special values [+Infinity], [-Infinity], [NaN].  Rounding
      is not modelled; division by zero, comparison with [NaN] and
      [Math.min]/[Math.max] follow ECMAScript.
    - A [Date] object is kept apart from a string: [JSON.stringify] turns
      it into its ISO string and [JSON.parse] leaves the string.
    - What the code reads from its environment (generated ids, the clock,
      the outcome of an external process) is an explicit argument.
    - A SQLite table is the list of its rows in insertion order; a failed
      statement throws, the enclosing [try]/[catch] turns it into [err].
      The driver ([bun:sqlite]) binds strings, numbers, booleans and
      [null]; it refuses a [Date] object with a [TypeError], before the
      statement runs.  An exception that escapes a method of the control
      API is caught by [handleRequest]; it is an [err] here.  Failures of
      the storage itself (disk, connection) are not modelled. *)

From Stdlib Require Import QArith Qround Lqa Lia ZArith Ascii.
From stdpp Require Import base list strings pretty.

#[local] Set Warnings "-register-all".

Open Scope string_scope.

(** ** [src/types/result.ts]: success or typed failure *)

Inductive Error : Type := mkError (message : string).

Definition message (e : Error) : string :=
  match e with mkError m => m end.

Inductive Result (A : Type) : Type :=
| ok (value : A)
| err (error : Error).

Arguments ok {A} value.
Arguments err {A} error.

Definition isOk {A} (r : Result A) : bool :=
  match r with ok _ => true | err _ => false end.

Definition isErr {A} (r : Result A) : bool := negb (isOk r).

(** ** JavaScript numbers *)

Inductive number : Type :=
| Fin (q : Q)
| PosInf
| NegInf
| NaN.

Module Num.

Definition zero : number := Fin 0.
Definition one : number := Fin 1.

(** [a + b] *)
Definition add (a b : number) : number :=
  match a, b with
  | NaN, _ | _, NaN => NaN
  | PosInf, NegInf | NegInf, PosInf => NaN
  | PosInf, _ | _, PosInf => PosInf
  | NegInf, _ | _, NegInf => NegInf
  | Fin x, Fin y => Fin (x + y)
  end.

(** The sign of a rational as a comparison with zero. *)
Definition sgn (x : Q) : comparison := (x ?= 0)%Q.

(** [a * b]; zero times an infinity is [NaN]. *)
Definition mul (a b : number) : number :=
  match a, b with
  | NaN, _ | _, NaN => NaN
  | Fin x, Fin y => Fin (x * y)
  | Fin x, PosInf | PosInf, Fin x =>
      match sgn x with Eq => NaN | Gt => PosInf | Lt => NegInf end
  | Fin x, NegInf | NegInf, Fin x =>
      match sgn x with Eq => NaN | Gt => NegInf | Lt => PosInf end
  | PosInf, PosInf | NegInf, NegInf => PosInf
  | PosInf, NegInf | NegInf, PosInf => NegInf
  end.

(** [x / y] for finite operands: [0/0] is [NaN], [x/0] an infinity. *)
Definition divQ (x y : Q) : number :=
  match sgn y with
  | Eq => match sgn x with Eq => NaN | Gt => PosInf | Lt => NegInf end
  | _ => Fin (x / y)
  end.

(** [a < b]; every comparison with [NaN] is false. *)
Definition ltb (a b : number) : bool :=
  match a, b with
  | NaN, _ | _, NaN => false
  | Fin x, Fin y => match (x ?= y)%Q with Lt => true | _ => false end
  | NegInf, NegInf => false
  | NegInf, _ => true
  | _, NegInf => false
  | PosInf, _ => false
  | Fin _, PosInf => true
  end.

Definition gtb (a b : number) : bool := ltb b a.

(** [Math.min(a, b)]; [NaN] if either argument is. *)
Definition min (a b : number) : number :=
  match a, b with
  | NaN, _ | _, NaN => NaN
  | _, _ => if ltb b a then b else a
  end.

(** [Math.max(a, b)]; [NaN] if either argument is. *)
Definition max (a b : number) : number :=
  match a, b with
  | NaN, _ | _, NaN => NaN
  | _, _ => if ltb a b then b else a
  end.

(** [Math.max(0, Math.min(1, v))] *)
Definition clamp01 (v : number) : number := max zero (min one v).

(** The value is a number of the closed interval [0,1]. *)
Definition in_unit (v : number) : Prop :=
  match v with
  | Fin q => (0 <= q /\ q <= 1)%Q
  | _ => False
  end.

(** Numeric equality [===] read as a proposition ([NaN] equals nothing). *)
Definition eqv (a b : number) : Prop :=
  match a, b with
  | Fin x, Fin y => (x == y)%Q
  | PosInf, PosInf | NegInf, NegInf => True
  | _, _ => False
  end.

End Num.

(** ** [src/types/cli.ts]: the aggregate of the phase state machine *)

Inductive SPARCPhase : Type :=
| planning | executing | testing | refactoring | completing.

Inductive TaskStatus : Type :=
| pending | in_progress | task_completed | task_failed.

Inductive AgentType : Type :=
| architect | developer | tester | reviewer | coordinator.

Inductive AgentStatus : Type := idle | busy | agent_error.

Record Task : Type := mkTask {
  task_id : string;
  description : string;
  task_status : TaskStatus;
  assignedTo : option string;
  dependencies : list string
}.

Record Agent : Type := mkAgent {
  agent_id : string;
  name : string;
  agent_type : AgentType;
  agent_status : AgentStatus;
  currentTask : option string
}.

Inductive SwarmState : Type := mkSwarmState {
  id : string;
  phase : SPARCPhase;
  confidence : number;
  context : string;
  previousStates : list SwarmState;
  tasks : list Task;
  agents : list Agent
}.

(** [Partial<Task>]: a field is absent ([None]) or supplied.  The optional
    [assignedTo] can be supplied as [undefined]. *)
Record PartialTask : Type := mkPartialTask {
  p_task_id : option string;
  p_description : option string;
  p_task_status : option TaskStatus;
  p_assignedTo : option (option string);
  p_dependencies : option (list string)
}.

(** [Partial<Agent>] *)
Record PartialAgent : Type := mkPartialAgent {
  p_agent_id : option string;
  p_name : option string;
  p_agent_type : option AgentType;
  p_agent_status : option AgentStatus;
  p_currentTask : option (option string)
}.

#[global] Instance SPARCPhase_eq_dec : EqDecision SPARCPhase.
Proof. solve_decision. Defined.

Module State.

Definition phaseName (p : SPARCPhase) : string :=
  match p with
  | planning => "planning"
  | executing => "executing"
  | testing => "testing"
  | refactoring => "refactoring"
  | completing => "completing"
  end.

(** [StateAction]; [UNKNOWN] stands for an object whose [type] is none of
    the six, which reaches the [default] branch. *)
Inductive StateAction : Type :=
| TRANSITION_PHASE (phase : SPARCPhase)
| UPDATE_CONFIDENCE (confidence : number)
| ADD_TASK (task : Task)
| UPDATE_TASK (taskId : string) (updates : PartialTask)
| ASSIGN_TASK (taskId : string) (agentId : string)
| UPDATE_AGENT (agentId : string) (updates : PartialAgent)
| UNKNOWN.

(** The table [validTransitions] of [transitionPhase]. *)
Definition validTransitions (p : SPARCPhase) : list SPARCPhase :=
  match p with
  | planning => [executing]
  | executing => [testing; planning]
  | testing => [refactoring; executing]
  | refactoring => [testing; completing]
  | completing => []
  end.

(** [Array.prototype.includes] on phases. *)
Definition includes (l : list SPARCPhase) (p : SPARCPhase) : bool :=
  bool_decide (elem_of p l).

Definition transitionPhase (state : SwarmState) (newPhase : SPARCPhase)
  : Result SwarmState :=
  if negb (includes (validTransitions (phase state)) newPhase) then
    err (mkError ("Invalid phase transition from " ++ phaseName (phase state)
                  ++ " to " ++ phaseName newPhase))
  else
    ok (mkSwarmState (id state) newPhase (confidence state) (context state)
          (previousStates state ++ [state]) (tasks state) (agents state)).

Definition updateConfidence (state : SwarmState) (c : number)
  : Result SwarmState :=
  if Num.ltb c Num.zero || Num.gtb c Num.one then
    err (mkError "Confidence must be between 0 and 1")
  else
    ok (mkSwarmState (id state) (phase state) c (context state)
          (previousStates state) (tasks state) (agents state)).

Definition addTask (state : SwarmState) (task : Task) : Result SwarmState :=
  ok (mkSwarmState (id state) (phase state) (confidence state) (context state)
        (previousStates state) (tasks state ++ [task]) (agents state)).

(** [{ ...task, ...updates }] *)
Definition mergeTask (t : Task) (u : PartialTask) : Task :=
  mkTask (default (task_id t) (p_task_id u))
         (default (description t) (p_description u))
         (default (task_status t) (p_task_status u))
         (default (assignedTo t) (p_assignedTo u))
         (default (dependencies t) (p_dependencies u)).

(** [{ ...agent, ...updates }] *)
Definition mergeAgent (a : Agent) (u : PartialAgent) : Agent :=
  mkAgent (default (agent_id a) (p_agent_id u))
          (default (name a) (p_name u))
          (default (agent_type a) (p_agent_type u))
          (default (agent_status a) (p_agent_status u))
          (default (currentTask a) (p_currentTask u)).

Definition updateTask (state : SwarmState) (taskId : string)
  (updates : PartialTask) : Result SwarmState :=
  match list_find (fun t => task_id t = taskId) (tasks state) with
  | None => err (mkError ("Task " ++ taskId ++ " not found"))
  | Some (taskIndex, t) =>
      let updatedTasks := <[taskIndex := mergeTask t updates]> (tasks state) in
      ok (mkSwarmState (id state) (phase state) (confidence state)
            (context state) (previousStates state) updatedTasks (agents state))
  end.

Definition updateAgent (state : SwarmState) (agentId : string)
  (updates : PartialAgent) : Result SwarmState :=
  match list_find (fun a => agent_id a = agentId) (agents state) with
  | None => err (mkError ("Agent " ++ agentId ++ " not found"))
  | Some (agentIndex, a) =>
      let updatedAgents :=
        <[agentIndex := mergeAgent a updates]> (agents state) in
      ok (mkSwarmState (id state) (phase state) (confidence state)
            (context state) (previousStates state) (tasks state) updatedAgents)
  end.

Definition assignTask (state : SwarmState) (taskId agentId : string)
  : Result SwarmState :=
  match updateTask state taskId
          (mkPartialTask None None None (Some (Some agentId)) None) with
  | err e => err e
  | ok s1 =>
      updateAgent s1 agentId
        (mkPartialAgent None None None (Some busy) (Some (Some taskId)))
  end.

Definition reduceState (state : SwarmState) (action : StateAction)
  : Result SwarmState :=
  match action with
  | TRANSITION_PHASE p => transitionPhase state p
  | UPDATE_CONFIDENCE c => updateConfidence state c
  | ADD_TASK t => addTask state t
  | UPDATE_TASK taskId u => updateTask state taskId u
  | ASSIGN_TASK taskId agentId => assignTask state taskId agentId
  | UPDATE_AGENT agentId u => updateAgent state agentId u
  | UNKNOWN => err (mkError "Unknown action type")
  end.

(** The transition table as the specification words it (section 4.2). *)
Definition specTransitions (p : SPARCPhase) : list SPARCPhase :=
  match p with
  | planning => [executing]
  | executing => [testing; planning]
  | testing => [refactoring; executing]
  | refactoring => [testing]
  | completing => []
  end.

End State.

(** ** [src/types/confidence.ts]: the factor-based evaluator *)

Module Confidence.

(** The keys of [ConfidenceFactors], in declaration order. *)
Inductive FactorKey : Type :=
| k_successRate | k_consensusLevel | k_resourceUtilization | k_progressRate
| k_errorRate | k_complexity | k_experience.

#[global] Instance FactorKey_eq_dec : EqDecision FactorKey.
Proof. solve_decision. Defined.

(** [Record<keyof ConfidenceFactors, A>] *)
Record PerFactor (A : Type) : Type := mkPerFactor {
  successRate : A;
  consensusLevel : A;
  resourceUtilization : A;
  progressRate : A;
  errorRate : A;
  complexity : A;
  experience : A
}.

Arguments mkPerFactor {A}.
Arguments successRate {A}.
Arguments consensusLevel {A}.
Arguments resourceUtilization {A}.
Arguments progressRate {A}.
Arguments errorRate {A}.
Arguments complexity {A}.
Arguments experience {A}.

(** Factors and weights are finite numbers. *)
Definition ConfidenceFactors : Type := PerFactor Q.
Definition Weights : Type := PerFactor Q.

(** [obj[key]] *)
Definition get {A} (o : PerFactor A) (k : FactorKey) : A :=
  match k with
  | k_successRate => successRate o
  | k_consensusLevel => consensusLevel o
  | k_resourceUtilization => resourceUtilization o
  | k_progressRate => progressRate o
  | k_errorRate => errorRate o
  | k_complexity => complexity o
  | k_experience => experience o
  end.

Definition keys : list FactorKey :=
  [k_successRate; k_consensusLevel; k_resourceUtilization; k_progressRate;
   k_errorRate; k_complexity; k_experience].

(** [Object.values(o)] *)
Definition values {A} (o : PerFactor A) : list A := map (get o) keys.

(** [Object.entries(o)] *)
Definition entries {A} (o : PerFactor A) : list (FactorKey * A) :=
  map (fun k => (k, get o k)) keys.

(** [Object.fromEntries(Object.entries(o).map(([key, value]) => [key, g value]))] *)
Definition mapValues {A B} (g : A -> B) (o : PerFactor A) : PerFactor B :=
  mkPerFactor (g (successRate o)) (g (consensusLevel o))
    (g (resourceUtilization o)) (g (progressRate o)) (g (errorRate o))
    (g (complexity o)) (g (experience o)).

Record ConfidenceScore : Type := mkConfidenceScore {
  value : number;
  factors : ConfidenceFactors;
  timestamp : Z;
  calculation : string;
  weights : PerFactor number
}.

Definition DEFAULT_CONFIDENCE_WEIGHTS : Weights :=
  mkPerFactor (25 # 100) (20 # 100) (10 # 100) (15 # 100) (15 # 100)
    (10 # 100) (5 # 100).

(** [Object.values(weights).reduce((sum, w) => sum + w, 0)] *)
Definition totalWeight (w : Weights) : Q :=
  fold_left (fun sum x => (sum + x)%Q) (values w) 0%Q.

Definition normalizedWeights (w : Weights) : PerFactor number :=
  mapValues (fun x => Num.divQ x (totalWeight w)) w.

(** The weighted sum, before clamping. *)
Definition weightedSum (f : ConfidenceFactors) (nw : PerFactor number)
  : number :=
  fold_left (fun sum kv => Num.add sum (Num.mul (Fin (snd kv)) (get nw (fst kv))))
    (entries f) Num.zero.

(** [calculateConfidence(factors, weights)]; [now] is [Date.now()].  A call
    without weights is a call with [DEFAULT_CONFIDENCE_WEIGHTS]. *)
Definition calculateConfidence (now : Z) (f : ConfidenceFactors) (w : Weights)
  : ConfidenceScore :=
  let nw := normalizedWeights w in
  let v := weightedSum f nw in
  mkConfidenceScore (Num.clamp01 v) f now "weighted_average" nw.

(** Each factor lies in [0,1]. *)
Definition validFactors (f : ConfidenceFactors) : Prop :=
  forall k, (0 <= get f k /\ get f k <= 1)%Q.

(** Exactly the factor [k] has a nonzero weight. *)
Definition onlyWeight (w : Weights) (k : FactorKey) : Prop :=
  ~ (get w k == 0)%Q /\ forall j, j <> k -> (get w j == 0)%Q.

(** The weighted sum of [calculateConfidence] written out for finite
    normalised weights. *)
Definition finiteSum (f w : PerFactor Q) : Q :=
  let T := totalWeight w in
  (0 + successRate f * (successRate w / T)
     + consensusLevel f * (consensusLevel w / T)
     + resourceUtilization f * (resourceUtilization w / T)
     + progressRate f * (progressRate w / T)
     + errorRate f * (errorRate w / T)
     + complexity f * (complexity w / T)
     + experience f * (experience w / T))%Q.

(** The weight vector with every weight zero. *)
Definition zeroWeights : Weights := mkPerFactor 0%Q 0%Q 0%Q 0%Q 0%Q 0%Q 0%Q.

(** The factors of the unit tests. *)
Definition testFactors : ConfidenceFactors :=
  mkPerFactor (8 # 10)%Q (9 # 10)%Q (7 # 10)%Q (75 # 100)%Q (85 # 100)%Q
    (6 # 10)%Q (5 # 10)%Q.

(** All weight on [consensusLevel]. *)
Definition consensusOnly : Weights :=
  mkPerFactor 0%Q 1%Q 0%Q 0%Q 0%Q 0%Q 0%Q.

End Confidence.

(** ** Dates and JavaScript values *)

(** A [Date] object: its time value, milliseconds since the epoch. *)
Record Date : Type := mkDate { time : Z }.

Module DateFormat.

(** Decimal digits of a natural number, left-padded with zeros. *)
Definition pad (width : nat) (n : Z) : string :=
  let s := pretty (Z.to_N n) in
  String.concat "" (replicate (width - String.length s) "0") ++ s.

(** Year, month and day of a day count since 1970-01-01 (proleptic
    Gregorian calendar). *)
Definition civil (days : Z) : Z * Z * Z :=
  let z := (days + 719468)%Z in
  let era := (z / 146097)%Z in
  let doe := (z - era * 146097)%Z in
  let yoe := ((doe - doe / 1460 + doe / 36524 - doe / 146096) / 365)%Z in
  let doy := (doe - (365 * yoe + yoe / 4 - yoe / 100))%Z in
  let mp := ((5 * doy + 2) / 153)%Z in
  let d := (doy - (153 * mp + 2) / 5 + 1)%Z in
  let m := (if (mp <? 10)%Z then mp + 3 else mp - 9)%Z in
  let y := (yoe + era * 400 + (if (m <=? 2)%Z then 1 else 0))%Z in
  (y, m, d).

Definition year (y : Z) : string :=
  if ((0 <=? y) && (y <=? 9999))%Z then pad 4 y
  else if (y <? 0)%Z then "-" ++ pad 6 (- y)
  else "+" ++ pad 6 y.

(** [Date.prototype.toISOString] *)
Definition toISOString (d : Date) : string :=
  let ms := time d in
  let days := (ms / 86400000)%Z in
  let r := (ms mod 86400000)%Z in
  let '(y, m, dd) := civil days in
  year y ++ "-" ++ pad 2 m ++ "-" ++ pad 2 dd ++ "T"
    ++ pad 2 (r / 3600000) ++ ":" ++ pad 2 (r / 60000 mod 60) ++ ":"
    ++ pad 2 (r / 1000 mod 60) ++ "." ++ pad 3 (r mod 1000) ++ "Z".

End DateFormat.

(** A JavaScript value as the handlers pass them around. *)
Inductive value : Type :=
| VUndefined
| VNull
| VBool (b : bool)
| VNum (n : number)
| VStr (s : string)
| VDate (d : Date)
| VArr (items : list value)
| VObj (fields : list (string * value)).

Module JSON.

(** [JSON.parse(JSON.stringify(v))]: a [Date] becomes its ISO string, a
    number that is not finite becomes [null], a property whose value is
    [undefined] is dropped, an [undefined] array item becomes [null]. *)
Fixpoint roundTrip (v : value) : value :=
  match v with
  | VUndefined => VUndefined
  | VNull => VNull
  | VBool b => VBool b
  | VNum (Fin q) => VNum (Fin q)
  | VNum _ => VNull
  | VStr s => VStr s
  | VDate d => VStr (DateFormat.toISOString d)
  | VArr items =>
      VArr ((fix go (l : list value) : list value :=
               match l with
               | [] => []
               | x :: l' =>
                   match roundTrip x with
                   | VUndefined => VNull
                   | y => y
                   end :: go l'
               end) items)
  | VObj fields =>
      VObj ((fix go (l : list (string * value)) : list (string * value) :=
               match l with
               | [] => []
               | (k, x) :: l' =>
                   match roundTrip x with
                   | VUndefined => go l'
                   | y => (k, y) :: go l'
                   end
               end) fields)
  end.

(** [o[key]] on an object; [undefined] when absent or not an object. *)
Fixpoint lookup (key : string) (fields : list (string * value)) : value :=
  match fields with
  | [] => VUndefined
  | (k, x) :: rest => if bool_decide (k = key) then x else lookup key rest
  end.

Definition get (v : value) (key : string) : value :=
  match v with
  | VObj fields => lookup key fields
  | _ => VUndefined
  end.

(** Whether [v[key]] can be evaluated: reading a property of [null] or
    [undefined] throws a [TypeError]. *)
Definition indexable (v : value) : bool :=
  match v with
  | VUndefined | VNull => false
  | _ => true
  end.

(** Truthiness, as [if (v)] and [v || d] test it. *)
Definition truthy (v : value) : bool :=
  match v with
  | VUndefined | VNull => false
  | VBool b => b
  | VNum (Fin q) => negb (Qeq_bool q 0)
  | VNum NaN => false
  | VNum _ => true
  | VStr s => negb (bool_decide (s = ""))
  | VDate _ | VArr _ | VObj _ => true
  end.

(** [v || d] *)
Definition orElse (v d : value) : value := if truthy v then v else d.

End JSON.

(** ** [src/types/state.ts]: sessions, sprints, artifacts, checkpoints *)

Inductive SessionStatus : Type := active | completed | failed | cancelled.

Inductive SprintStatus : Type :=
| sprint_planning | sprint_executing | sprint_completed | sprint_failed.

Inductive ArtifactType : Type := file | directory | command | memory.

#[global] Instance SessionStatus_eq_dec : EqDecision SessionStatus.
Proof. solve_decision. Defined.

Definition sessionStatusName (s : SessionStatus) : string :=
  match s with
  | active => "active"
  | completed => "completed"
  | failed => "failed"
  | cancelled => "cancelled"
  end.

Definition sprintStatusName (s : SprintStatus) : string :=
  match s with
  | sprint_planning => "planning"
  | sprint_executing => "executing"
  | sprint_completed => "completed"
  | sprint_failed => "failed"
  end.

Definition artifactTypeName (t : ArtifactType) : string :=
  match t with
  | file => "file"
  | directory => "directory"
  | command => "command"
  | memory => "memory"
  end.

(** A property that holds a [Date] or is [undefined]. *)
Definition optDate (d : option Date) : value :=
  match d with Some x => VDate x | None => VUndefined end.

(** A nullable text column read back from a row. *)
Definition nullableStr (s : option string) : value :=
  match s with Some x => VStr x | None => VNull end.

Definition numZ (n : Z) : value := VNum (Fin (inject_Z n)).

Module Session.

Record t : Type := mk {
  id : string;
  taskId : string;
  sprintCount : Z;
  confidenceLevel : Q;
  status : SessionStatus;
  startedAt : Date;
  updatedAt : Date;
  completedAt : option Date;
  metadata : value
}.

(** The session as the JavaScript object that [getSession] builds. *)
Definition toValue (s : t) : value :=
  VObj [("id", VStr (id s)); ("taskId", VStr (taskId s));
        ("sprintCount", numZ (sprintCount s));
        ("confidenceLevel", VNum (Fin (confidenceLevel s)));
        ("status", VStr (sessionStatusName (status s)));
        ("startedAt", VDate (startedAt s));
        ("updatedAt", VDate (updatedAt s));
        ("completedAt", optDate (completedAt s));
        ("metadata", metadata s)].

End Session.

(** [Partial<Session>] *)
Module PartialSession.

Record t : Type := mk {
  id : option string;
  taskId : option string;
  sprintCount : option Z;
  confidenceLevel : option Q;
  status : option SessionStatus;
  startedAt : option Date;
  updatedAt : option Date;
  completedAt : option Date;
  metadata : option value
}.

Definition empty : t := mk None None None None None None None None None.

End PartialSession.

Module Sprint.

Record t : Type := mk {
  id : string;
  sessionId : string;
  sprintNumber : Z;
  objective : string;
  confidence : Q;
  status : SprintStatus;
  startedAt : Date;
  completedAt : option Date;
  result : option value
}.

(** The sprint as the JavaScript object built from a row. *)
Definition toValue (s : t) : value :=
  VObj [("id", VStr (id s)); ("sessionId", VStr (sessionId s));
        ("sprintNumber", numZ (sprintNumber s));
        ("objective", VStr (objective s));
        ("confidence", VNum (Fin (confidence s)));
        ("status", VStr (sprintStatusName (status s)));
        ("startedAt", VDate (startedAt s));
        ("completedAt", optDate (completedAt s));
        ("result", default VUndefined (result s))].

End Sprint.

(** [Partial<Sprint>] *)
Module PartialSprint.

Record t : Type := mk {
  id : option string;
  sessionId : option string;
  sprintNumber : option Z;
  objective : option string;
  confidence : option Q;
  status : option SprintStatus;
  startedAt : option Date;
  completedAt : option Date;
  result : option value
}.

Definition empty : t := mk None None None None None None None None None.

End PartialSprint.

Module Artifact.

Record t : Type := mk {
  id : string;
  sprintId : string;
  type : ArtifactType;
  path : string;
  content : option string;
  checksum : option string;
  createdAt : Date
}.

(** The artifact as the JavaScript object built from a row. *)
Definition toValue (a : t) : value :=
  VObj [("id", VStr (id a)); ("sprintId", VStr (sprintId a));
        ("type", VStr (artifactTypeName (type a)));
        ("path", VStr (path a));
        ("content", nullableStr (content a));
        ("checksum", nullableStr (checksum a));
        ("createdAt", VDate (createdAt a))].

End Artifact.

(** [Omit<Artifact, 'id' | 'createdAt'>] *)
Module ArtifactInput.

Record t : Type := mk {
  sprintId : string;
  type : ArtifactType;
  path : string;
  content : option string;
  checksum : option string
}.

End ArtifactInput.

Module Checkpoint.

Record t : Type := mk {
  id : string;
  sessionId : string;
  sprintId : string;
  name : string;
  description : option string;
  state : value;
  createdAt : Date
}.

End Checkpoint.

(** [Omit<Checkpoint, 'id' | 'createdAt'>] *)
Module CheckpointInput.

Record t : Type := mk {
  sessionId : string;
  sprintId : string;
  name : string;
  description : option string;
  state : value
}.

End CheckpointInput.

(** [CheckpointState] as the object literal that is serialised. *)
Definition checkpointState (session : Session.t) (sprints : list Sprint.t)
  (artifacts : list Artifact.t) (mem : value) : value :=
  VObj [("session", Session.toValue session);
        ("sprints", VArr (map Sprint.toValue sprints));
        ("artifacts", VArr (map Artifact.toValue artifacts));
        ("memory", mem)].

(** ** [schema.sql]: the rows of the four tables

    A [DATETIME] column is modelled by the instant its text denotes, a JSON
    text column by the value it parses to, a [REAL] column by a finite
    number. *)

Module SessionRow.

Record t : Type := mk {
  id : string;
  task_id : string;
  sprint_count : Z;
  confidence_level : Q;
  status : SessionStatus;
  started_at : Date;
  updated_at : Date;
  completed_at : option Date;
  metadata : value
}.

End SessionRow.

Module SprintRow.

Record t : Type := mk {
  id : string;
  session_id : string;
  sprint_number : Z;
  objective : string;
  confidence : Q;
  status : SprintStatus;
  started_at : Date;
  completed_at : option Date;
  result : option value
}.

End SprintRow.

Module ArtifactRow.

Record t : Type := mk {
  id : string;
  sprint_id : string;
  type : ArtifactType;
  path : string;
  content : option string;
  checksum : option string;
  created_at : Date
}.

End ArtifactRow.

Module CheckpointRow.

Record t : Type := mk {
  id : string;
  session_id : string;
  sprint_id : string;
  name : string;
  description : option string;
  state : value;
  created_at : Date
}.

End CheckpointRow.

(** [ORDER BY key]: a stable sort, ascending. *)
Fixpoint insertBy {A} (key : A -> Z) (x : A) (l : list A) : list A :=
  match l with
  | [] => [x]
  | y :: l' => if (key x <? key y)%Z then x :: y :: l'
               else y :: insertBy key x l'
  end.

Definition orderBy {A} (key : A -> Z) (l : list A) : list A :=
  fold_left (fun acc x => insertBy key x acc) l [].

(** The keys of a list ascend: each is at most the later ones. *)
Fixpoint ascending {A} (key : A -> Z) (l : list A) : Prop :=
  match l with
  | [] => True
  | x :: rest =>
      Forall (fun y => (key x <= key y)%Z) rest /\ ascending key rest
  end.

(** ** [src/state/repository.ts] *)

Module SQLiteStateRepository.

Record DB : Type := mkDB {
  sessions : list SessionRow.t;
  sprints : list SprintRow.t;
  artifacts : list ArtifactRow.t;
  checkpoints : list CheckpointRow.t
}.

Definition emptyDB : DB := mkDB [] [] [] [].

(** [SELECT * FROM table WHERE id = ?] with [.get]: the first match. *)
Fixpoint selectById {R} (rowId : R -> string) (i : string) (rows : list R)
  : option R :=
  match rows with
  | [] => None
  | r :: rest => if bool_decide (rowId r = i) then Some r
                 else selectById rowId i rest
  end.

Definition hasId {R} (rowId : R -> string) (i : string) (rows : list R)
  : bool :=
  match selectById rowId i rows with Some _ => true | None => false end.

(** [UPDATE table SET ... WHERE id = ?]: [set] applied to each match. *)
Definition updateById {R} (rowId : R -> string) (i : string) (set : R -> R)
  (rows : list R) : list R :=
  map (fun r => if bool_decide (rowId r = i) then set r else r) rows.

(** A property of a [Partial] that is present but [undefined] fails the
    test [!== undefined], like an absent one. *)
Definition supplied (o : option value) : option value :=
  match o with
  | Some VUndefined => None
  | other => other
  end.

(** [.run(...values)]: every value is bound before the statement runs.  A
    pushed pair [field = ?]/value is the assignment it makes to the row,
    or [None] when its value is a [Date] object, which the driver refuses
    to bind; the result is [None] when some value is refused. *)
Fixpoint bindAll {R} (fields : list (option (R -> R)))
  : option (list (R -> R)) :=
  match fields with
  | [] => Some []
  | None :: _ => None
  | Some set :: rest =>
      match bindAll rest with
      | Some sets => Some (set :: sets)
      | None => None
      end
  end.

Definition sessionOfRow (row : SessionRow.t) : Session.t :=
  Session.mk (SessionRow.id row) (SessionRow.task_id row)
    (SessionRow.sprint_count row) (SessionRow.confidence_level row)
    (SessionRow.status row) (SessionRow.started_at row)
    (SessionRow.updated_at row) (SessionRow.completed_at row)
    (SessionRow.metadata row).

Definition sprintOfRow (row : SprintRow.t) : Sprint.t :=
  Sprint.mk (SprintRow.id row) (SprintRow.session_id row)
    (SprintRow.sprint_number row) (SprintRow.objective row)
    (SprintRow.confidence row) (SprintRow.status row)
    (SprintRow.started_at row) (SprintRow.completed_at row)
    (SprintRow.result row).

Definition artifactOfRow (row : ArtifactRow.t) : Artifact.t :=
  Artifact.mk (ArtifactRow.id row) (ArtifactRow.sprint_id row)
    (ArtifactRow.type row) (ArtifactRow.path row) (ArtifactRow.content row)
    (ArtifactRow.checksum row) (ArtifactRow.created_at row).

Definition checkpointOfRow (row : CheckpointRow.t) : Checkpoint.t :=
  Checkpoint.mk (CheckpointRow.id row) (CheckpointRow.session_id row)
    (CheckpointRow.sprint_id row) (CheckpointRow.name row)
    (CheckpointRow.description row) (CheckpointRow.state row)
    (CheckpointRow.created_at row).

(** *** Session operations *)

(** [createSession(taskId, metadata)]; [newId] is [generateId('session')],
    [now] is [new Date()]. *)
Definition createSession (db : DB) (newId : string) (now : Date)
  (taskId : string) (metadata : value) : Result Session.t * DB :=
  let metadata := match metadata with VUndefined => VObj [] | m => m end in
  if hasId SessionRow.id newId (sessions db) then
    (err (mkError "Failed to create session: SQLiteError: UNIQUE constraint failed: sessions.id"),
     db)
  else
    let row := SessionRow.mk newId taskId 0 0 active now now None
                 (JSON.roundTrip metadata) in
    (ok (Session.mk newId taskId 0 0 active now now None metadata),
     mkDB (sessions db ++ [row]) (sprints db) (artifacts db) (checkpoints db)).

Definition getSession (db : DB) (i : string) : Result (option Session.t) :=
  match selectById SessionRow.id i (sessions db) with
  | None => ok None
  | Some row => ok (Some (sessionOfRow row))
  end.

(** The [fields]/[values] that [updateSession] collects, in the order
    they are pushed.  The count, the confidence and the status are bound
    as they are and the metadata as its JSON text; [updates.completedAt]
    is pushed as it is, a [Date] object. *)
Definition sessionAssignments (u : PartialSession.t)
  : list (option (SessionRow.t -> SessionRow.t)) :=
  match PartialSession.sprintCount u with
  | Some n => [Some (fun r =>
                 SessionRow.mk (SessionRow.id r) (SessionRow.task_id r)
                   n (SessionRow.confidence_level r) (SessionRow.status r)
                   (SessionRow.started_at r) (SessionRow.updated_at r)
                   (SessionRow.completed_at r) (SessionRow.metadata r))]
  | None => []
  end ++
  match PartialSession.confidenceLevel u with
  | Some c => [Some (fun r =>
                 SessionRow.mk (SessionRow.id r) (SessionRow.task_id r)
                   (SessionRow.sprint_count r) c (SessionRow.status r)
                   (SessionRow.started_at r) (SessionRow.updated_at r)
                   (SessionRow.completed_at r) (SessionRow.metadata r))]
  | None => []
  end ++
  match PartialSession.status u with
  | Some s => [Some (fun r =>
                 SessionRow.mk (SessionRow.id r) (SessionRow.task_id r)
                   (SessionRow.sprint_count r) (SessionRow.confidence_level r)
                   s (SessionRow.started_at r) (SessionRow.updated_at r)
                   (SessionRow.completed_at r) (SessionRow.metadata r))]
  | None => []
  end ++
  match PartialSession.completedAt u with
  | Some _ => [None]
  | None => []
  end ++
  match supplied (PartialSession.metadata u) with
  | Some m => [Some (fun r =>
                 SessionRow.mk (SessionRow.id r) (SessionRow.task_id r)
                   (SessionRow.sprint_count r) (SessionRow.confidence_level r)
                   (SessionRow.status r) (SessionRow.started_at r)
                   (SessionRow.updated_at r) (SessionRow.completed_at r)
                   (JSON.roundTrip m))]
  | None => []
  end.

(** The trigger [update_sessions_timestamp]: after an update of a row of
    [sessions], its [updated_at] is set to [CURRENT_TIMESTAMP]. *)
Definition touch (ts : Date) (r : SessionRow.t) : SessionRow.t :=
  SessionRow.mk (SessionRow.id r) (SessionRow.task_id r)
    (SessionRow.sprint_count r) (SessionRow.confidence_level r)
    (SessionRow.status r) (SessionRow.started_at r) ts
    (SessionRow.completed_at r) (SessionRow.metadata r).

(** [updateSession(id, updates)]; [ts] is [CURRENT_TIMESTAMP].  With no
    assignment the statement is [UPDATE sessions SET WHERE id = ?], which
    SQLite refuses when it is prepared.  With a [Date] among the values
    the driver throws when it binds them, and no row is touched.  The
    result is otherwise that of [getSession], cast. *)
Definition updateSession (db : DB) (ts : Date) (i : string)
  (updates : PartialSession.t) : Result (option Session.t) * DB :=
  match sessionAssignments updates with
  | [] =>
      (err (mkError "Failed to update session: SQLiteError: near WHERE: syntax error"),
       db)
  | fields =>
      match bindAll fields with
      | None =>
          (err (mkError "Failed to update session: TypeError: Binding expected string, TypedArray, boolean, number, bigint or null"),
           db)
      | Some sets =>
          let set r := touch ts (fold_left (fun row f => f row) sets r) in
          let db' := mkDB (updateById SessionRow.id i set (sessions db))
                       (sprints db) (artifacts db) (checkpoints db) in
          (getSession db' i, db')
      end
  end.

(** *** Sprint operations *)

(** [SELECT COUNT( * ) FROM sprints WHERE session_id = ?] *)
Definition countSprints (db : DB) (sessionId : string) : Z :=
  Z.of_nat (length (filter (fun r => SprintRow.session_id r = sessionId)
                      (sprints db))).

(** The constraints of [sprints] that an insert can violate: the primary
    key, [UNIQUE(session_id, sprint_number)], and the foreign key to
    [sessions]. *)
Definition sprintInsertError (db : DB) (row : SprintRow.t) : option string :=
  if hasId SprintRow.id (SprintRow.id row) (sprints db) then
    Some "UNIQUE constraint failed: sprints.id"
  else if existsb (fun r =>
            bool_decide (SprintRow.session_id r = SprintRow.session_id row)
            && (SprintRow.sprint_number r =? SprintRow.sprint_number row)%Z)
            (sprints db) then
    Some "UNIQUE constraint failed: sprints.session_id, sprints.sprint_number"
  else if negb (hasId SessionRow.id (SprintRow.session_id row) (sessions db))
  then Some "FOREIGN KEY constraint failed"
  else None.

(** [createSprint(sessionId, objective)]; [newId] is
    [generateId('sprint')], [ts] is [CURRENT_TIMESTAMP], [now] is
    [new Date()]. *)
Definition createSprint (db : DB) (newId : string) (ts now : Date)
  (sessionId objective : string) : Result Sprint.t * DB :=
  let sprintNumber := (countSprints db sessionId + 1)%Z in
  let row := SprintRow.mk newId sessionId sprintNumber objective 0
               sprint_planning ts None None in
  match sprintInsertError db row with
  | Some msg =>
      (err (mkError ("Failed to create sprint: SQLiteError: " ++ msg)), db)
  | None =>
      (ok (Sprint.mk newId sessionId sprintNumber objective 0 sprint_planning
             now None None),
       mkDB (sessions db) (sprints db ++ [row]) (artifacts db)
         (checkpoints db))
  end.

(** The [fields]/[values] that [updateSprint] collects, in the order they
    are pushed; [updates.completedAt] is pushed as it is, a [Date]
    object. *)
Definition sprintAssignments (u : PartialSprint.t)
  : list (option (SprintRow.t -> SprintRow.t)) :=
  match PartialSprint.confidence u with
  | Some c => [Some (fun r =>
                 SprintRow.mk (SprintRow.id r) (SprintRow.session_id r)
                   (SprintRow.sprint_number r) (SprintRow.objective r) c
                   (SprintRow.status r) (SprintRow.started_at r)
                   (SprintRow.completed_at r) (SprintRow.result r))]
  | None => []
  end ++
  match PartialSprint.status u with
  | Some s => [Some (fun r =>
                 SprintRow.mk (SprintRow.id r) (SprintRow.session_id r)
                   (SprintRow.sprint_number r) (SprintRow.objective r)
                   (SprintRow.confidence r) s (SprintRow.started_at r)
                   (SprintRow.completed_at r) (SprintRow.result r))]
  | None => []
  end ++
  match PartialSprint.completedAt u with
  | Some _ => [None]
  | None => []
  end ++
  match supplied (PartialSprint.result u) with
  | Some v => [Some (fun r =>
                 SprintRow.mk (SprintRow.id r) (SprintRow.session_id r)
                   (SprintRow.sprint_number r) (SprintRow.objective r)
                   (SprintRow.confidence r) (SprintRow.status r)
                   (SprintRow.started_at r) (SprintRow.completed_at r)
                   (Some (JSON.roundTrip v)))]
  | None => []
  end.

(** [updateSprint(id, updates)]; with a [Date] among the values the
    driver throws when it binds them, and no row is touched; reading
    [row.id] of a missing row throws. *)
Definition updateSprint (db : DB) (i : string) (updates : PartialSprint.t)
  : Result Sprint.t * DB :=
  match sprintAssignments updates with
  | [] =>
      (err (mkError "Failed to update sprint: SQLiteError: near WHERE: syntax error"),
       db)
  | fields =>
      match bindAll fields with
      | None =>
          (err (mkError "Failed to update sprint: TypeError: Binding expected string, TypedArray, boolean, number, bigint or null"),
           db)
      | Some sets =>
          let set r := fold_left (fun row f => f row) sets r in
          let db' := mkDB (sessions db)
                       (updateById SprintRow.id i set (sprints db))
                       (artifacts db) (checkpoints db) in
          match selectById SprintRow.id i (sprints db') with
          | None =>
              (err (mkError "Failed to update sprint: TypeError: null is not an object"),
               db')
          | Some row => (ok (sprintOfRow row), db')
          end
      end
  end.

Definition sprintRowsOf (db : DB) (sessionId : string) : list SprintRow.t :=
  orderBy SprintRow.sprint_number
    (filter (fun r => SprintRow.session_id r = sessionId) (sprints db)).

Definition getSprintsBySession (db : DB) (sessionId : string)
  : Result (list Sprint.t) :=
  ok (map sprintOfRow (sprintRowsOf db sessionId)).

(** *** Artifact operations *)

(** [text || null] *)
Definition orNull (s : option string) : option string :=
  match s with
  | Some x => if bool_decide (x = "") then None else Some x
  | None => None
  end.

(** [saveArtifact(sprintId, artifact)]; [ts] is [CURRENT_TIMESTAMP]. *)
Definition saveArtifact (db : DB) (newId : string) (ts now : Date)
  (sprintId : string) (artifact : ArtifactInput.t) : Result Artifact.t * DB :=
  if hasId ArtifactRow.id newId (artifacts db) then
    (err (mkError "Failed to save artifact: SQLiteError: UNIQUE constraint failed: artifacts.id"),
     db)
  else if negb (hasId SprintRow.id sprintId (sprints db)) then
    (err (mkError "Failed to save artifact: SQLiteError: FOREIGN KEY constraint failed"),
     db)
  else
    let row := ArtifactRow.mk newId sprintId (ArtifactInput.type artifact)
                 (ArtifactInput.path artifact)
                 (orNull (ArtifactInput.content artifact))
                 (orNull (ArtifactInput.checksum artifact)) ts in
    (ok (Artifact.mk newId sprintId (ArtifactInput.type artifact)
           (ArtifactInput.path artifact) (ArtifactInput.content artifact)
           (ArtifactInput.checksum artifact) now),
     mkDB (sessions db) (sprints db) (artifacts db ++ [row]) (checkpoints db)).

Definition getArtifactsBySprint (db : DB) (sprintId : string)
  : Result (list Artifact.t) :=
  ok (map artifactOfRow
        (orderBy (fun r => time (ArtifactRow.created_at r))
           (filter (fun r => ArtifactRow.sprint_id r = sprintId)
              (artifacts db)))).

(** *** Checkpoint operations *)

(** [createCheckpoint(checkpoint)]; the state is stored as JSON text. *)
Definition createCheckpoint (db : DB) (newId : string) (ts now : Date)
  (checkpoint : CheckpointInput.t) : Result Checkpoint.t * DB :=
  if hasId CheckpointRow.id newId (checkpoints db) then
    (err (mkError "Failed to create checkpoint: SQLiteError: UNIQUE constraint failed: checkpoints.id"),
     db)
  else if negb (hasId SessionRow.id (CheckpointInput.sessionId checkpoint)
                  (sessions db))
          || negb (hasId SprintRow.id (CheckpointInput.sprintId checkpoint)
                     (sprints db)) then
    (err (mkError "Failed to create checkpoint: SQLiteError: FOREIGN KEY constraint failed"),
     db)
  else
    let row := CheckpointRow.mk newId (CheckpointInput.sessionId checkpoint)
                 (CheckpointInput.sprintId checkpoint)
                 (CheckpointInput.name checkpoint)
                 (orNull (CheckpointInput.description checkpoint))
                 (JSON.roundTrip (CheckpointInput.state checkpoint)) ts in
    (ok (Checkpoint.mk newId (CheckpointInput.sessionId checkpoint)
           (CheckpointInput.sprintId checkpoint)
           (CheckpointInput.name checkpoint)
           (CheckpointInput.description checkpoint)
           (CheckpointInput.state checkpoint) now),
     mkDB (sessions db) (sprints db) (artifacts db) (checkpoints db ++ [row])).

Definition loadCheckpoint (db : DB) (i : string)
  : Result (option Checkpoint.t) :=
  match selectById CheckpointRow.id i (checkpoints db) with
  | None => ok None
  | Some row => ok (Some (checkpointOfRow row))
  end.

End SQLiteStateRepository.

(** ** [src/integration/claude-flow.ts]: what the handlers see of it *)

Record SwarmResult : Type := mkSwarmResult {
  success : bool;
  output : string;
  exitCode : Z;
  duration : Z
}.

Record ClaudeFlowOptions : Type := mkClaudeFlowOptions {
  swarmId : option string;
  agentsOption : value
}.

(** ** Strings *)

Module Str.

(** [toLowerCase] on the letters A-Z; other characters are kept. *)
Definition lowerChar (c : ascii) : ascii :=
  let n := nat_of_ascii c in
  if (65 <=? n)%nat && (n <=? 90)%nat then ascii_of_nat (n + 32) else c.

Fixpoint toLowerCase (s : string) : string :=
  match s with
  | EmptyString => EmptyString
  | String c rest => String (lowerChar c) (toLowerCase rest)
  end.

(** [s.includes(sub)] *)
Fixpoint includes (s sub : string) : bool :=
  if String.prefix sub s then true
  else match s with
       | EmptyString => false
       | String _ rest => includes rest sub
       end.

(** [!s] for an optional string parameter: absent or empty. *)
Definition present (s : option string) : option string :=
  match s with
  | Some x => if bool_decide (x = "") then None else Some x
  | None => None
  end.

End Str.

(** ** [src/mcp/handlers.ts] *)

Module MCPHandlers.

Import SQLiteStateRepository.

(** [Math.min] and [Math.max] on finite numbers. *)
Definition Math_min (a b : Q) : Q :=
  match (b ?= a)%Q with Lt => b | _ => a end.

Definition Math_max (a b : Q) : Q :=
  match (a ?= b)%Q with Lt => b | _ => a end.

(** The outcome-based score of a finished swarm. *)
Definition calculateConfidence (result : SwarmResult) : Q :=
  if negb (success result) then 0
  else
    let output := Str.toLowerCase (output result) in
    let confidence := (5 # 10)%Q in
    let confidence :=
      if Str.includes output "completed" then (confidence + (2 # 10))%Q
      else confidence in
    let confidence :=
      if Str.includes output "success" then (confidence + (2 # 10))%Q
      else confidence in
    let confidence :=
      if Str.includes output "error" || Str.includes output "failed"
      then (confidence - (3 # 10))%Q
      else confidence in
    Math_max 0 (Math_min 1 confidence).

(** [ToNumber] of a value compared with [<].  Strings, arrays and objects
    are read as [NaN]: numeric strings are not parsed. *)
Definition toNumber (v : value) : number :=
  match v with
  | VNum n => n
  | VBool true => Fin 1
  | VBool false | VNull => Fin 0
  | VDate d => Fin (inject_Z (time d))
  | _ => NaN
  end.

(** *** [swarm_conductor_sprint] *)

Record SprintParams : Type := mkSprintParams {
  sp_session_id : option string;
  sp_objective : option string
}.

(** What [handleSprint] reads from its environment, in the order read. *)
Record SprintEnv : Type := mkSprintEnv {
  newSprintId : string;        (* generateId('sprint') *)
  insertedAt : Date;           (* CURRENT_TIMESTAMP of the insert *)
  createdAt : Date;            (* new Date() in createSprint *)
  runSwarm : string -> ClaudeFlowOptions -> Result SwarmResult;
  finishedAt : Date;           (* new Date() when the swarm has ended *)
  heapUsed : Z;                (* process.memoryUsage().heapUsed *)
  sessionUpdatedAt : Date      (* CURRENT_TIMESTAMP of the session update *)
}.

Record SprintResponse : Type := mkSprintResponse {
  sprint_id : string;
  sprint_number : Z;
  response_status : string;
  response_confidence : Q;
  response_duration : Z;
  should_continue : bool
}.

(** The [result] object written on completion. *)
Definition sprintResult (r : SwarmResult) (agentCount : value) (heap : Z)
  : value :=
  VObj [("success", VBool (success r)); ("output", VStr (output r));
        ("artifacts", VArr []);
        ("metrics",
         VObj [("duration", numZ (duration r)); ("tokenCount", numZ 0);
               ("agentCount", agentCount); ("memoryUsage", numZ heap);
               ("errorCount", numZ 0)])].

(** [handleSprint].  The results of [updateSprint] and [updateSession] are
    not looked at.  The update of the sprint made when the swarm has
    ended, on either path, supplies [completedAt: new Date()], so it fails
    on the binding and leaves the sprint as it was.  The options of
    [runSwarm] are evaluated before the call: reading
    [session.metadata['parallel_swarms']] throws when the metadata is
    [null]. *)
Definition handleSprint (db : DB) (params : SprintParams) (env : SprintEnv)
  : Result SprintResponse * DB :=
  match Str.present (sp_session_id params) with
  | None => (err (mkError "Session ID is required"), db)
  | Some session_id =>
  match getSession db session_id with
  | err e => (err e, db)
  | ok None => (err (mkError ("Session " ++ session_id ++ " not found")), db)
  | ok (Some session) =>
  if negb (bool_decide (Session.status session = active)) then
    (err (mkError ("Session is not active (status: "
                   ++ sessionStatusName (Session.status session) ++ ")")), db)
  else
  let sprintObjective :=
    match Str.present (sp_objective params) with
    | Some o => o
    | None => "Sprint " ++ pretty (Session.sprintCount session + 1)%Z
              ++ " for " ++ Session.taskId session
    end in
  match createSprint db (newSprintId env) (insertedAt env) (createdAt env)
          session_id sprintObjective with
  | (err e, db1) => (err e, db1)
  | (ok sprint, db1) =>
  let db2 := snd (updateSprint db1 (Sprint.id sprint)
                    (PartialSprint.mk None None None None None
                       (Some sprint_executing) None None None)) in
  if negb (JSON.indexable (Session.metadata session)) then
    (err (mkError "TypeError: null is not an object"), db2)
  else
  let agents := JSON.orElse (JSON.get (Session.metadata session)
                               "parallel_swarms") (numZ 3) in
  let swarmResult :=
    runSwarm env sprintObjective
      (mkClaudeFlowOptions
         (Some (session_id ++ "-sprint-" ++ pretty (Sprint.sprintNumber sprint)))
         agents) in
  match swarmResult with
  | err e =>
      let db3 := snd (updateSprint db2 (Sprint.id sprint)
                        (PartialSprint.mk None None None None None
                           (Some sprint_failed) None (Some (finishedAt env))
                           None)) in
      (err e, db3)
  | ok r =>
      let confidence := calculateConfidence r in
      let db3 := snd (updateSprint db2 (Sprint.id sprint)
                        (PartialSprint.mk None None None None (Some confidence)
                           (Some sprint_completed) None
                           (Some (finishedAt env))
                           (Some (sprintResult r agents (heapUsed env))))) in
      let db4 := snd (updateSession db3 (sessionUpdatedAt env) session_id
                        (PartialSession.mk None None
                           (Some (Session.sprintCount session + 1)%Z)
                           (Some confidence) None None None None None)) in
      (ok (mkSprintResponse (Sprint.id sprint) (Sprint.sprintNumber sprint)
             "completed" confidence (duration r)
             (Num.ltb (Fin confidence)
                (toNumber (JSON.orElse
                             (JSON.get (Session.metadata session)
                                "confidence_threshold")
                             (VNum (Fin (8 # 10))))))),
       db4)
  end
  end
  end
  end.

(** *** [swarm_conductor_checkpoint] *)

Record CheckpointParams : Type := mkCheckpointParams {
  cp_session_id : option string;
  cp_name : option string;
  cp_description : option string
}.

Record CheckpointEnv : Type := mkCheckpointEnv {
  memoryState : Result value;  (* memory.getSwarmState(session_id) *)
  newCheckpointId : string;    (* generateId('checkpoint') *)
  checkpointInsertedAt : Date; (* CURRENT_TIMESTAMP of the insert *)
  checkpointCreatedAt : Date   (* new Date() in createCheckpoint *)
}.

Record CheckpointResponse : Type := mkCheckpointResponse {
  checkpoint_id : string;
  checkpoint_message : string
}.

(** The [state] that [handleCheckpoint] hands to the repository. *)
Definition capturedState (session : Session.t) (sprints : list Sprint.t)
  (memoryState : Result value) : value :=
  checkpointState session sprints []
    (match memoryState with ok v => v | err _ => VObj [] end).

Definition handleCheckpoint (db : DB) (params : CheckpointParams)
  (env : CheckpointEnv) : Result CheckpointResponse * DB :=
  match Str.present (cp_session_id params), Str.present (cp_name params) with
  | Some session_id, Some name =>
      match getSession db session_id with
      | err e => (err e, db)
      | ok None =>
          (err (mkError ("Session " ++ session_id ++ " not found")), db)
      | ok (Some session) =>
          match getSprintsBySession db session_id with
          | err e => (err e, db)
          | ok sprints =>
              match last sprints with
              | None => (err (mkError "No sprints found in session"), db)
              | Some currentSprint =>
                  match createCheckpoint db (newCheckpointId env)
                          (checkpointInsertedAt env) (checkpointCreatedAt env)
                          (CheckpointInput.mk session_id
                             (Sprint.id currentSprint) name
                             (cp_description params)
                             (capturedState session sprints
                                (memoryState env))) with
                  | (err e, db1) => (err e, db1)
                  | (ok checkpoint, db1) =>
                      (ok (mkCheckpointResponse (Checkpoint.id checkpoint)
                             ("Checkpoint '" ++ name
                              ++ "' created successfully")),
                       db1)
                  end
              end
          end
      end
  | _, _ => (err (mkError "Session ID and name are required"), db)
  end.

(** *** [swarm_conductor_restore] *)

Record RestoreResponse : Type := mkRestoreResponse {
  restored_session_id : string;
  restore_message : string;
  restored_state : value
}.

(** [handleRestore]: the response, and the calls
    [memory.storeSwarmState(sessionId, state)] it makes.  The repository is
    only read. *)
Definition handleRestore (db : DB) (checkpoint_id : option string)
  : Result RestoreResponse * list (string * value) :=
  match Str.present checkpoint_id with
  | None => (err (mkError "Checkpoint ID is required"), [])
  | Some cid =>
      match loadCheckpoint db cid with
      | err e => (err e, [])
      | ok None => (err (mkError ("Checkpoint " ++ cid ++ " not found")), [])
      | ok (Some checkpoint) =>
          let mem := JSON.get (Checkpoint.state checkpoint) "memory" in
          (ok (mkRestoreResponse (Checkpoint.sessionId checkpoint)
                 ("Restored from checkpoint '" ++ Checkpoint.name checkpoint
                  ++ "'")
                 (Checkpoint.state checkpoint)),
           if JSON.truthy mem then [(Checkpoint.sessionId checkpoint, mem)]
           else [])
      end
  end.

(** *** [swarm_conductor_cancel] *)

Record CancelResponse : Type := mkCancelResponse {
  cancelled_session_id : string;
  cancel_message : string
}.

(** [handleCancel]; [now] is [new Date()], [ts] is [CURRENT_TIMESTAMP].
    The update supplies [completedAt: new Date()], so it fails on the
    binding.  The test [!updateResult] is on the result object, which is
    never falsy, so the outcome of the update is not looked at. *)
Definition handleCancel (db : DB) (session_id : option string) (now ts : Date)
  : Result CancelResponse * DB :=
  match Str.present session_id with
  | None => (err (mkError "Session ID is required"), db)
  | Some sid =>
      let '(updateResult, db1) :=
        updateSession db ts sid
          (PartialSession.mk None None None None (Some cancelled) None None
             (Some now) None) in
      (ok (mkCancelResponse sid "Session cancelled successfully"), db1)
  end.

End MCPHandlers.

(** ** Runs and sample data used by the statements below *)

Module Scenario.

Import SQLiteStateRepository MCPHandlers.

(** The pairs that [State.validTransitions] allows. *)
Definition allowedPairs : list (SPARCPhase * SPARCPhase) :=
  [(planning, executing); (executing, testing); (executing, planning);
   (testing, refactoring); (testing, executing); (refactoring, testing);
   (refactoring, completing)].

(** The state a successful transition to [p] returns. *)
Definition transitioned (s : SwarmState) (p : SPARCPhase) : SwarmState :=
  mkSwarmState (id s) p (confidence s) (context s) (previousStates s ++ [s])
    (tasks s) (agents s).

(** An aggregate in the refactoring phase. *)
Definition refactoringState : SwarmState :=
  mkSwarmState "swarm-1" refactoring (Fin (9 # 10)) "Build authentication system"
    [] [mkTask "task-1" "Sample task" task_completed None []]
    [mkAgent "agent-1" "architect-1" architect idle None].

(** One call of [createSprint] with what it reads from its environment. *)
Record CreateSprintCall : Type := mkCreateSprintCall {
  call_id : string;
  call_ts : Date;
  call_now : Date;
  call_session : string;
  call_objective : string
}.

(** Calls of [createSprint] in the order the event loop runs them.  The
    method has no [await] and the driver is synchronous, so each call reads
    the count and inserts in one step. *)
Fixpoint createSprints (db : DB) (calls : list CreateSprintCall)
  : list (Result Sprint.t) * DB :=
  match calls with
  | [] => ([], db)
  | c :: rest =>
      let '(r, db1) := createSprint db (call_id c) (call_ts c) (call_now c)
                         (call_session c) (call_objective c) in
      let '(rs, db2) := createSprints db1 rest in
      (r :: rs, db2)
  end.

(** The numbers [first], [first+1], ... ([n] of them). *)
Fixpoint countFrom (first : Z) (n : nat) : list Z :=
  match n with
  | O => []
  | S n' => first :: countFrom (first + 1) n'
  end.

(** The sprint numbers of a session, in insertion order. *)
Definition sprintNumbers (db : DB) (sessionId : string) : list Z :=
  map SprintRow.sprint_number
    (filter (fun r => SprintRow.session_id r = sessionId) (sprints db)).

(** The sprints of the session were numbered in sequence from 1. *)
Definition numbered (db : DB) (sessionId : string) : Prop :=
  sprintNumbers db sessionId
  = countFrom 1 (length (sprintNumbers db sessionId)).

(** The sprint number of a successful creation. *)
Definition createdNumber (r : Result Sprint.t) : option Z :=
  match r with ok s => Some (Sprint.sprintNumber s) | err _ => None end.

(** The results of the calls made for one session. *)
Fixpoint resultsFor (sessionId : string) (calls : list CreateSprintCall)
  (results : list (Result Sprint.t)) : list (Result Sprint.t) :=
  match calls, results with
  | c :: cs, r :: rs =>
      if bool_decide (call_session c = sessionId)
      then r :: resultsFor sessionId cs rs
      else resultsFor sessionId cs rs
  | _, _ => []
  end.

(** A write to the repository made through the repository or a handler,
    with what it reads from its environment.  Retention cleanup, which
    deletes, is not one of them. *)
Inductive Mutation : Type :=
| MCreateSession (newId : string) (now : Date) (taskId : string)
    (metadata : value)
| MUpdateSession (ts : Date) (i : string) (updates : PartialSession.t)
| MCreateSprint (call : CreateSprintCall)
| MUpdateSprint (i : string) (updates : PartialSprint.t)
| MSaveArtifact (newId : string) (ts now : Date) (sprintId : string)
    (artifact : ArtifactInput.t)
| MCreateCheckpoint (newId : string) (ts now : Date)
    (checkpoint : CheckpointInput.t)
| MHandleSprint (params : SprintParams) (env : SprintEnv)
| MHandleCheckpoint (params : CheckpointParams) (env : CheckpointEnv)
| MHandleCancel (session_id : option string) (now ts : Date).

Definition applyMutation (db : DB) (m : Mutation) : DB :=
  match m with
  | MCreateSession newId now taskId metadata =>
      snd (createSession db newId now taskId metadata)
  | MUpdateSession ts i updates => snd (updateSession db ts i updates)
  | MCreateSprint c =>
      snd (createSprint db (call_id c) (call_ts c) (call_now c)
             (call_session c) (call_objective c))
  | MUpdateSprint i updates => snd (updateSprint db i updates)
  | MSaveArtifact newId ts now sprintId artifact =>
      snd (saveArtifact db newId ts now sprintId artifact)
  | MCreateCheckpoint newId ts now checkpoint =>
      snd (createCheckpoint db newId ts now checkpoint)
  | MHandleSprint params env => snd (handleSprint db params env)
  | MHandleCheckpoint params env => snd (handleCheckpoint db params env)
  | MHandleCancel session_id now ts => snd (handleCancel db session_id now ts)
  end.

Definition applyMutations (db : DB) (ms : list Mutation) : DB :=
  fold_left applyMutation ms db.

(** The values a checkpoint is specified to hold (section 4.4): the
    session, all its sprints, all artifacts of the referenced sprint (the
    last one), and the external memory. *)
Definition liveState (db : DB) (sessionId : string) (mem : value)
  : option value :=
  match getSession db sessionId, getSprintsBySession db sessionId with
  | ok (Some session), ok sprints =>
      match last sprints with
      | Some currentSprint =>
          match getArtifactsBySprint db (Sprint.id currentSprint) with
          | ok artifacts =>
              Some (checkpointState session sprints artifacts mem)
          | err _ => None
          end
      | None => None
      end
  | _, _ => None
  end.

(** *** A small repository: one session, one sprint, one artifact *)

Definition t0 : Date := mkDate 1700000000000.
Definition t1 : Date := mkDate 1700000060000.
Definition t2 : Date := mkDate 1700000120000.
Definition t3 : Date := mkDate 1700000180000.

Definition initMetadata : value :=
  VObj [("confidence_threshold", VNum (Fin (8 # 10)));
        ("max_sprints", numZ 10); ("parallel_swarms", numZ 3)].

Definition db1 : DB :=
  snd (createSession emptyDB "session-1" t0 "build-api" initMetadata).

Definition db2 : DB :=
  snd (createSprint db1 "sprint-1" t1 t1 "session-1" "design").

Definition db3 : DB :=
  snd (saveArtifact db2 "artifact-1" t2 t2 "sprint-1"
         (ArtifactInput.mk "sprint-1" file "src/api.ts" (Some "export {}")
            None)).

Definition checkpointParams : CheckpointParams :=
  mkCheckpointParams (Some "session-1") (Some "before-refactor") None.

Definition checkpointEnv : CheckpointEnv :=
  mkCheckpointEnv (ok (VObj [("status", VStr "initialized")]))
    "checkpoint-1" t3 t3.

Definition db4 : DB := snd (handleCheckpoint db3 checkpointParams checkpointEnv).

(** The same session once an update has stored it as completed. *)
Definition dbCompleted : DB :=
  snd (updateSession db2 t2 "session-1"
         (PartialSession.mk None None (Some 1%Z) (Some (85 # 100)%Q)
            (Some completed) None None None None)).

(** An environment in which the swarm cannot be started. *)
Definition failingEnv : SprintEnv :=
  mkSprintEnv "sprint-2" t2 t2
    (fun _ _ => err (mkError "Failed to run swarm: ENOENT"))
    t3 1048576 t3.

(** The session that [updateSession] reads back after applying an update
    [u] without completedAt at the storage time [ts]: the supplied fields
    among sprintCount, confidenceLevel, status and metadata are replaced,
    and the trigger has refreshed updatedAt. *)
Definition patched (ts : Date) (u : PartialSession.t) (s : Session.t)
  : Session.t :=
  Session.mk (Session.id s) (Session.taskId s)
    (default (Session.sprintCount s) (PartialSession.sprintCount u))
    (default (Session.confidenceLevel s) (PartialSession.confidenceLevel u))
    (default (Session.status s) (PartialSession.status u))
    (Session.startedAt s) ts (Session.completedAt s)
    (match supplied (PartialSession.metadata u) with
     | Some m => JSON.roundTrip m
     | None => Session.metadata s
     end).

(** An update that supplies only a status. *)
Definition statusOnly (st : SessionStatus) : PartialSession.t :=
  PartialSession.mk None None None None (Some st) None None None None.

(** The sprint row that [updateSprint] leaves after applying an update
    [u] without completedAt. *)
Definition patchedSprintRow (u : PartialSprint.t) (r : SprintRow.t)
  : SprintRow.t :=
  SprintRow.mk (SprintRow.id r) (SprintRow.session_id r)
    (SprintRow.sprint_number r) (SprintRow.objective r)
    (default (SprintRow.confidence r) (PartialSprint.confidence u))
    (default (SprintRow.status r) (PartialSprint.status u))
    (SprintRow.started_at r) (SprintRow.completed_at r)
    (match supplied (PartialSprint.result u) with
     | Some v => Some (JSON.roundTrip v)
     | None => SprintRow.result r
     end).

(** Three concurrent creations: two for the session, one for a session
    that does not exist. *)
Definition sampleCalls : list CreateSprintCall :=
  [mkCreateSprintCall "sprint-a" t1 t1 "session-1" "design";
   mkCreateSprintCall "sprint-b" t1 t1 "session-2" "elsewhere";
   mkCreateSprintCall "sprint-c" t2 t2 "session-1" "build"].

(** The memory value of the sample checkpoint. *)
Definition sampleMemory : value := VObj [("status", VStr "initialized")].

(** What restoring the sample checkpoint returns as state. *)
Definition restoredState : value :=
  match fst (handleRestore db4 (Some "checkpoint-1")) with
  | ok r => restored_state r
  | err _ => VUndefined
  end.

(** The live values when the sample checkpoint was taken. *)
Definition liveAtCheckpoint : value :=
  default VUndefined (liveState db3 "session-1" sampleMemory).

(** The artifact of the sample sprint. *)
Definition sampleArtifact : Artifact.t :=
  Artifact.mk "artifact-1" "sprint-1" file "src/api.ts" (Some "export {}")
    None t2.

End Scenario.

(** ** [src/core/state.ts]: the initial aggregate *)

Module InitialState.

Definition agentTypes : list AgentType :=
  [architect; developer; tester; reviewer; coordinator].

Definition agentTypeName (t : AgentType) : string :=
  match t with
  | architect => "architect"
  | developer => "developer"
  | tester => "tester"
  | reviewer => "reviewer"
  | coordinator => "coordinator"
  end.

(** The number of turns of [for (let i = 0; i < count; i++)] for a finite
    [count]: the naturals below it. *)
Definition turns (count : Q) : nat := Z.to_nat (Qceiling count).

(** The agent pushed at turn [i]; [newId] is the result of [generateId()]. *)
Definition initialAgent (newId : string) (i : nat) : Agent :=
  let type := nth (i mod length agentTypes) agentTypes architect in
  mkAgent newId (agentTypeName type ++ "-" ++ pretty (i + 1)%nat) type idle None.

(** [createInitialAgents(count)]; [genId i] is the id generated at turn
    [i]. *)
Definition createInitialAgents (genId : nat -> string) (count : Q)
  : list Agent :=
  map (fun i => initialAgent (genId i) i) (seq 0 (turns count)).

(** [createInitialState({ context, agentCount })]; [stateId] is the first
    generated id, [genId] gives those of the agents. *)
Definition createInitialState (stateId : string) (genId : nat -> string)
  (context : string) (agentCount : Q) : SwarmState :=
  mkSwarmState stateId planning (Fin (5 # 10)) context [] []
    (createInitialAgents genId agentCount).

End InitialState.

(** ** [src/core/confidence.ts]: the confidence of an aggregate *)

Module CoreConfidence.

(** The length, in bytes, of the white-space character (the class [\s])
    that starts the UTF-8 text [s]; [0] when it starts with none. *)
Definition spaceLen (s : string) : nat :=
  match s with
  | String c1 rest1 =>
      let b1 := nat_of_ascii c1 in
      if ((9 <=? b1) && (b1 <=? 13)) || (b1 =? 32) then 1
      else
        match rest1 with
        | String c2 rest2 =>
            let b2 := nat_of_ascii c2 in
            if (b1 =? 194) && (b2 =? 160) then 2            (* U+00A0 *)
            else
              match rest2 with
              | String c3 _ =>
                  let b3 := nat_of_ascii c3 in
                  if (b1 =? 225) && (b2 =? 154) && (b3 =? 128) then 3
                                                            (* U+1680 *)
                  else if (b1 =? 226) && (b2 =? 128)
                          && (((128 <=? b3) && (b3 <=? 138))
                                                   (* U+2000 .. U+200A *)
                              || (b3 =? 168) || (b3 =? 169) (* U+2028/9 *)
                              || (b3 =? 175))               (* U+202F *)
                  then 3
                  else if (b1 =? 226) && (b2 =? 129) && (b3 =? 159) then 3
                                                            (* U+205F *)
                  else if (b1 =? 227) && (b2 =? 128) && (b3 =? 128) then 3
                                                            (* U+3000 *)
                  else if (b1 =? 239) && (b2 =? 187) && (b3 =? 191) then 3
                                                            (* U+FEFF *)
                  else 0
              | EmptyString => 0
              end
        | EmptyString => 0
        end
  | EmptyString => 0
  end%nat.

(** The number of non-empty pieces of [s.split(/\s+/)]: the maximal runs
    without white space.  [skip] bytes of a white-space character remain;
    [inWord] tells whether the previous character was part of a word. *)
Fixpoint countWordsFrom (s : string) (skip : nat) (inWord : bool) : nat :=
  match s with
  | EmptyString => 0
  | String _ rest =>
      match skip with
      | S k => countWordsFrom rest k inWord
      | O =>
          match spaceLen s with
          | O => ((if inWord then 0 else 1) + countWordsFrom rest 0 true)%nat
          | S k => countWordsFrom rest k false
          end
      end
  end.

Definition countWords (s : string) : nat := countWordsFrom s 0 false.

(** [n / d] for counts, used under a guard [d <> 0]. *)
Definition ratio (n d : nat) : Q := (inject_Z (Z.of_nat n) / inject_Z (Z.of_nat d))%Q.

Definition isCompleted (t : Task) : bool :=
  match task_status t with task_completed => true | _ => false end.

Definition isFailed (t : Task) : bool :=
  match task_status t with task_failed => true | _ => false end.

Definition isBusy (a : Agent) : bool :=
  match agent_status a with busy => true | _ => false end.

Definition calculateTaskCompletionFactor (tasks : list Task) : Q :=
  if (length tasks =? 0)%nat then (5 # 10)%Q
  else ratio (length (List.filter isCompleted tasks)) (length tasks).

Definition calculateAgentUtilizationFactor (agents : list Agent) : Q :=
  if (length agents =? 0)%nat then 0%Q
  else
    let utilization := ratio (length (List.filter isBusy agents)) (length agents) in
    match (utilization ?= (8 # 10))%Q with
    | Gt => (1 - ((utilization - (8 # 10)) / (2 # 10)) * (2 # 10))%Q
    | _ => (utilization / (8 # 10))%Q
    end.

Definition calculateTaskFailureFactor (tasks : list Task) : Q :=
  if (length tasks =? 0)%nat then 0%Q
  else
    let failed := length (List.filter isFailed tasks) in
    let attempted :=
      length (List.filter (fun t => isCompleted t || isFailed t) tasks) in
    if (attempted =? 0)%nat then 0%Q else ratio failed attempted.

Definition calculatePhaseIterationFactor (state : SwarmState) : Q :=
  let phaseCount :=
    (length (List.filter (fun s => bool_decide (phase s = phase state))
               (previousStates state)) + 1)%nat in
  if (phaseCount =? 1)%nat then 1%Q
  else if (phaseCount =? 2)%nat then (8 # 10)%Q
  else if (phaseCount =? 3)%nat then (6 # 10)%Q
  else if (phaseCount =? 4)%nat then (4 # 10)%Q
  else (2 # 10)%Q.

Definition technicalTerms : list string :=
  ["implement"; "build"; "create"; "develop"; "test"; "deploy"].

Definition vagueTerms : list string :=
  ["something"; "stuff"; "thing"; "whatever"].

Definition calculateContextClarityFactor (context : string) : Q :=
  let words := countWords context in
  if (words <? 5)%nat then (2 # 10)%Q
  else if (500 <? words)%nat then (7 # 10)%Q
  else
    let clarity := (5 # 10)%Q in
    let clarity :=
      if Str.includes context ":" || Str.includes context "-"
      then (clarity + (1 # 10))%Q else clarity in
    let clarity :=
      if Str.includes context (String (ascii_of_nat 10) EmptyString)
      then (clarity + (1 # 10))%Q else clarity in
    let hasTechnicalTerms :=
      existsb (fun term => Str.includes (Str.toLowerCase context) term)
        technicalTerms in
    let clarity :=
      if hasTechnicalTerms then (clarity + (2 # 10))%Q else clarity in
    let hasVagueTerms :=
      existsb (fun term => Str.includes (Str.toLowerCase context) term)
        vagueTerms in
    let clarity :=
      if hasVagueTerms then (clarity - (1 # 10))%Q else clarity in
    MCPHandlers.Math_max 0 (MCPHandlers.Math_min 1 clarity).

Record Factors : Type := mkFactors {
  taskCompletion : Q;
  agentUtilization : Q;
  taskFailureRate : Q;
  phaseIterations : Q;
  contextClarity : Q
}.

Definition calculateConfidenceFactors (state : SwarmState) : Factors :=
  mkFactors (calculateTaskCompletionFactor (tasks state))
    (calculateAgentUtilizationFactor (agents state))
    (calculateTaskFailureFactor (tasks state))
    (calculatePhaseIterationFactor state)
    (calculateContextClarityFactor (context state)).

(** [calculateConfidence(state)] *)
Definition calculateConfidence (state : SwarmState) : Q :=
  let factors := calculateConfidenceFactors state in
  let confidence :=
    (taskCompletion factors * (3 # 10)
     + agentUtilization factors * (2 # 10)
     + (1 - taskFailureRate factors) * (2 # 10)
     + phaseIterations factors * (15 # 100)
     + contextClarity factors * (15 # 100))%Q in
  MCPHandlers.Math_max 0 (MCPHandlers.Math_min 1 confidence).

End CoreConfidence.

(** ** [src/core/phases.ts]: when to advance *)

Module Phases.

Record PhaseTransitionCriteria : Type := mkCriteria {
  minConfidence : number;
  requiredCompletions : number;
  maxIterations : option number
}.

(** [Partial<PhaseTransitionCriteria>]; a field supplied as [undefined]
    compares like [NaN]. *)
Record PartialCriteria : Type := mkPartialCriteria {
  p_minConfidence : option number;
  p_requiredCompletions : option number;
  p_maxIterations : option number
}.

Definition noCriteria : PartialCriteria := mkPartialCriteria None None None.

Definition PHASE_CRITERIA (p : SPARCPhase) : PhaseTransitionCriteria :=
  match p with
  | planning => mkCriteria (Fin (7 # 10)) (Fin 1) (Some (Fin 3))
  | executing => mkCriteria (Fin (6 # 10)) (Fin (8 # 10)) (Some (Fin 5))
  | testing => mkCriteria (Fin (8 # 10)) (Fin 1) (Some (Fin 3))
  | refactoring => mkCriteria (Fin (85 # 100)) (Fin 1) (Some (Fin 2))
  | completing => mkCriteria (Fin (9 # 10)) (Fin 1) (Some (Fin 1))
  end.

(** [{ ...PHASE_CRITERIA[phase], ...criteria }] *)
Definition mergeCriteria (base : PhaseTransitionCriteria)
  (c : PartialCriteria) : PhaseTransitionCriteria :=
  mkCriteria (default (minConfidence base) (p_minConfidence c))
    (default (requiredCompletions base) (p_requiredCompletions c))
    (match p_maxIterations c with
     | Some n => Some n
     | None => maxIterations base
     end).

Definition calculateCompletionRate (state : SwarmState) : Q :=
  if (length (tasks state) =? 0)%nat then 0%Q
  else CoreConfidence.ratio
         (length (List.filter CoreConfidence.isCompleted (tasks state)))
         (length (tasks state)).

Definition isTestTask (t : Task) : bool :=
  Str.includes (Str.toLowerCase (description t)) "test".

Definition calculateTestFailureRate (state : SwarmState) : Q :=
  let testTasks := List.filter isTestTask (tasks state) in
  if (length testTasks =? 0)%nat then 0%Q
  else CoreConfidence.ratio
         (length (List.filter CoreConfidence.isFailed testTasks))
         (length testTasks).

(** [getNextPhase(state)]; [None] is [null]. *)
Definition getNextPhase (state : SwarmState) : option SPARCPhase :=
  match phase state with
  | planning => Some executing
  | executing =>
      if Num.ltb (confidence state) (Fin (5 # 10)) then Some planning
      else Some testing
  | testing =>
      if Num.gtb (Fin (calculateTestFailureRate state)) (Fin (3 # 10))
      then Some executing
      else Some refactoring
  | refactoring => Some testing
  | completing => None
  end.

(** The [reason] of a decision; the text is its rendering. *)
Inductive Reason : Type :=
| BelowConfidence (confidence : Q) (minimum : number)
| BelowCompletion (rate : Q) (required : number)
| NoNextPhase
| AllCriteriaMet.

Record Decision : Type := mkDecision {
  shouldTransition : bool;
  nextPhase : option SPARCPhase;
  reason : Reason
}.

Definition shouldTransitionPhase (state : SwarmState) (criteria : PartialCriteria)
  : Result Decision :=
  let currentCriteria := mergeCriteria (PHASE_CRITERIA (phase state)) criteria in
  let confidence := CoreConfidence.calculateConfidence state in
  if Num.ltb (Fin confidence) (minConfidence currentCriteria) then
    ok (mkDecision false None
          (BelowConfidence confidence (minConfidence currentCriteria)))
  else
    let completionRate := calculateCompletionRate state in
    if Num.ltb (Fin completionRate) (requiredCompletions currentCriteria) then
      ok (mkDecision false None
            (BelowCompletion completionRate
               (requiredCompletions currentCriteria)))
    else
      match getNextPhase state with
      | None => ok (mkDecision false None NoNextPhase)
      | Some next => ok (mkDecision true (Some next) AllCriteriaMet)
      end.

End Phases.

(** ** [src/core/conductor.ts]: the conductor loop *)

Module Conductor.

(** How [runSwarm] ends, with the states handed to [saveState] in order
    ([saveState] catches its own failures and the loop ignores its
    result).  [OutOfFuel] is not an outcome of the code: it marks a run of
    the model cut short. *)
Inductive Outcome : Type :=
| Completed (final : SwarmState) (saved : list SwarmState)
| Failed (error : Error) (saved : list SwarmState)
| OutOfFuel.

Definition sampleTask : Task :=
  mkTask "task-1" "Sample task" task_completed None [].

(** One turn of the [while] loop: the error it returns, or the state it
    ends with; and the states it saved. *)
Definition turn (currentState : SwarmState)
  : Result SwarmState * list SwarmState :=
  let newConfidence := CoreConfidence.calculateConfidence currentState in
  match State.reduceState currentState
          (State.UPDATE_CONFIDENCE (Fin newConfidence)) with
  | err e => (err e, [])
  | ok s1 =>
      match Phases.shouldTransitionPhase s1 Phases.noCriteria with
      | err e => (err e, [])
      | ok decision =>
          let afterTransition :=
            match Phases.shouldTransition decision, Phases.nextPhase decision with
            | true, Some p =>
                match State.reduceState s1 (State.TRANSITION_PHASE p) with
                | err e => (err e, [])
                | ok s2 => (ok s2, [s2])
                end
            | _, _ => (ok s1, [])
            end in
          match afterTransition with
          | (err e, saved) => (err e, saved)
          | (ok s2, saved) =>
              let withTask :=
                if (length (tasks s2) =? 0)%nat
                then State.reduceState s2 (State.ADD_TASK sampleTask)
                else ok s2 in
              match withTask with
              | err e => (err e, saved)
              | ok s3 =>
                  match State.reduceState s3
                          (State.TRANSITION_PHASE completing) with
                  | err e => (err e, saved)
                  | ok s4 => (ok s4, saved)
                  end
              end
          end
      end
  end.

(** [runSwarm(initialState, options)], with at most [fuel] turns. *)
Fixpoint runSwarm (fuel : nat) (currentState : SwarmState)
  (saved : list SwarmState) : Outcome :=
  if bool_decide (phase currentState = completing) then
    Completed currentState (saved ++ [currentState])
  else
    match fuel with
    | O => OutOfFuel
    | S fuel' =>
        match turn currentState with
        | (err e, more) => Failed e (saved ++ more)
        | (ok next, more) => runSwarm fuel' next (saved ++ more)
        end
    end.

End Conductor.

(** ** Sample aggregates *)

Module Samples.

(** A fresh swarm of three agents. *)
Definition freshState : SwarmState :=
  InitialState.createInitialState "swarm-0"
    (fun i => "agent-" ++ pretty i) "Build authentication system" 3.

(** A planning aggregate whose only task is completed, with four of its
    five agents busy and a clear context. *)
Definition readyState : SwarmState :=
  mkSwarmState "swarm-2" planning (Fin (5 # 10))
    "Plan: build and test the login service" []
    [mkTask "task-1" "Write the plan" task_completed (Some "a1") []]
    [mkAgent "a1" "architect-1" architect busy (Some "task-1");
     mkAgent "a2" "developer-2" developer busy (Some "task-1");
     mkAgent "a3" "tester-3" tester busy (Some "task-1");
     mkAgent "a4" "reviewer-4" reviewer busy (Some "task-1");
     mkAgent "a5" "coordinator-5" coordinator idle None].

End Samples.

(** ** [src/types/result.ts]: combinators *)

Module ResultOps.

(** [map(result, fn)] *)
Definition map {A B} (result : Result A) (fn : A -> B) : Result B :=
  match result with ok v => ok (fn v) | err e => err e end.

(** [mapErr(result, fn)] *)
Definition mapErr {A} (result : Result A) (fn : Error -> Error) : Result A :=
  match result with ok v => ok v | err e => err (fn e) end.

(** [chain(result, fn)] *)
Definition chain {A B} (result : Result A) (fn : A -> Result B) : Result B :=
  match result with ok v => fn v | err e => err e end.

(** [unwrapOr(result, defaultValue)] *)
Definition unwrapOr {A} (result : Result A) (defaultValue : A) : A :=
  match result with ok v => v | err _ => defaultValue end.

(** [toNullable(result)]; [None] is [null]. *)
Definition toNullable {A} (result : Result A) : option A :=
  match result with ok v => Some v | err _ => None end.

(** [fromNullable(value, error)]; [None] is [null] or [undefined]. *)
Definition fromNullable {A} (value : option A) (error : Error) : Result A :=
  match value with Some v => ok v | None => err error end.

(** The loop of [all]: [values] holds what was pushed so far. *)
Fixpoint allFrom {A} (values : list A) (results : list (Result A))
  : Result (list A) :=
  match results with
  | [] => ok values
  | err e :: _ => err e
  | ok v :: rest => allFrom (values ++ [v]) rest
  end.

(** [all(results)] *)
Definition all {A} (results : list (Result A)) : Result (list A) :=
  allFrom [] results.

End ResultOps.

(** ** [src/types/confidence.ts]: levels and thresholds *)

Module ConfidenceLevels.

Inductive ConfidenceLevel : Type := CRITICAL | HIGH | MEDIUM | LOW | MINIMAL.

Definition CONFIDENCE_THRESHOLDS (level : ConfidenceLevel) : Q :=
  match level with
  | CRITICAL => 95 # 100
  | HIGH => 80 # 100
  | MEDIUM => 60 # 100
  | LOW => 40 # 100
  | MINIMAL => 20 # 100
  end.

(** [a >= b]; every comparison with [NaN] is false. *)
Definition geb (a b : number) : bool :=
  match a, b with
  | NaN, _ | _, NaN => false
  | _, _ => negb (Num.ltb a b)
  end.

(** [getConfidenceLevel(score)] *)
Definition getConfidenceLevel (score : number) : ConfidenceLevel :=
  if geb score (Fin (CONFIDENCE_THRESHOLDS CRITICAL)) then CRITICAL
  else if geb score (Fin (CONFIDENCE_THRESHOLDS HIGH)) then HIGH
  else if geb score (Fin (CONFIDENCE_THRESHOLDS MEDIUM)) then MEDIUM
  else if geb score (Fin (CONFIDENCE_THRESHOLDS LOW)) then LOW
  else MINIMAL.

(** [meetsThreshold(score, threshold)]; the threshold is a number or the
    name of a level. *)
Definition meetsThreshold (score : Confidence.ConfidenceScore)
  (threshold : number + ConfidenceLevel) : bool :=
  let thresholdValue :=
    match threshold with
    | inl n => n
    | inr level => Fin (CONFIDENCE_THRESHOLDS level)
    end in
  geb (Confidence.value score) thresholdValue.

(** The levels in order, [MINIMAL] lowest. *)
Definition rank (level : ConfidenceLevel) : nat :=
  match level with
  | MINIMAL => 0
  | LOW => 1
  | MEDIUM => 2
  | HIGH => 3
  | CRITICAL => 4
  end.

End ConfidenceLevels.

(** ** [src/core/confidence.ts]: recommendations *)

Module Recommendations.

Import CoreConfidence.

(** [getConfidenceRecommendations(state)], in the order pushed. *)
Definition getConfidenceRecommendations (state : SwarmState) : list string :=
  let factors := calculateConfidenceFactors state in
  ((if Num.ltb (Fin (taskCompletion factors)) (Fin (5 # 10))
    then ["Focus on completing more tasks to improve confidence"] else [])
   ++ (if Num.ltb (Fin (agentUtilization factors)) (Fin (6 # 10))
       then ["Assign more tasks to idle agents"]
       else if Num.gtb (Fin (agentUtilization factors)) (Fin (9 # 10))
       then ["Agents are overloaded - consider redistributing tasks"]
       else [])
   ++ (if Num.gtb (Fin (taskFailureRate factors)) (Fin (2 # 10))
       then ["High failure rate detected - review task requirements"]
       else [])
   ++ (if Num.ltb (Fin (phaseIterations factors)) (Fin (6 # 10))
       then ["Multiple phase iterations detected - consider adjusting approach"]
       else [])
   ++ (if Num.ltb (Fin (contextClarity factors)) (Fin (5 # 10))
       then ["Context could be clearer - consider refining requirements"]
       else []))%list.

(** The share of busy agents, [busyAgents / totalAgents]. *)
Definition utilization (agents : list Agent) : Q :=
  ratio (length (List.filter isBusy agents)) (length agents).

End Recommendations.

(** ** [src/mcp/handlers.ts]: [swarm_conductor_init] and
    [swarm_conductor_status] *)

Module SessionHandlers.

Import SQLiteStateRepository.

(** A destructuring default: it applies to [undefined] only. *)
Definition orDefault (v d : value) : value :=
  match v with VUndefined => d | _ => v end.

Record InitParams : Type := mkInitParams {
  ip_task : option string;
  ip_confidence_threshold : value;
  ip_max_sprints : value;
  ip_parallel_swarms : value
}.

Record InitEnv : Type := mkInitEnv {
  newSessionId : string;       (* generateId('session') *)
  sessionCreatedAt : Date      (* new Date() in createSession *)
}.

Record InitResponse : Type := mkInitResponse {
  init_session_id : string;
  init_status : string;
  init_message : string
}.

(** The metadata that [handleInit] hands to [createSession]. *)
Definition initMetadataOf (params : InitParams) : value :=
  VObj [("confidence_threshold",
         orDefault (ip_confidence_threshold params) (VNum (Fin (8 # 10))));
        ("max_sprints", orDefault (ip_max_sprints params) (numZ 10));
        ("parallel_swarms", orDefault (ip_parallel_swarms params) (numZ 3))].

(** [handleInit]: the response, the repository, and the calls
    [memory.storeSwarmState(sessionId, state)] it makes. *)
Definition handleInit (db : DB) (params : InitParams) (env : InitEnv)
  : Result InitResponse * DB * list (string * value) :=
  match Str.present (ip_task params) with
  | None => (err (mkError "Task is required"), db, [])
  | Some task =>
      match createSession db (newSessionId env) (sessionCreatedAt env) task
              (initMetadataOf params) with
      | (err e, db1) => (err e, db1, [])
      | (ok session, db1) =>
          (ok (mkInitResponse (Session.id session) "initialized"
                 ("Session " ++ Session.id session ++ " created for task: "
                  ++ task)),
           db1,
           [(Session.id session,
             VObj [("task", VStr task);
                   ("confidence_threshold",
                    orDefault (ip_confidence_threshold params)
                      (VNum (Fin (8 # 10))));
                   ("max_sprints",
                    orDefault (ip_max_sprints params) (numZ 10));
                   ("parallel_swarms",
                    orDefault (ip_parallel_swarms params) (numZ 3));
                   ("status", VStr "initialized")])])
      end
  end.

Record StatusResponse : Type := mkStatusResponse {
  st_session_id : string;
  st_task_id : string;
  st_status : SessionStatus;
  st_sprint_count : Z;
  st_confidence_level : Q;
  st_started_at : Date;
  st_updated_at : Date;
  st_sprints : option (list Sprint.t)   (* present when [verbose] *)
}.

(** [handleStatus]; [verbose] is the parameter as passed. *)
Definition handleStatus (db : DB) (session_id : option string)
  (verbose : value) : Result StatusResponse :=
  match Str.present session_id with
  | None => err (mkError "Session ID is required")
  | Some sid =>
      match getSession db sid with
      | err e => err e
      | ok None => err (mkError ("Session " ++ sid ++ " not found"))
      | ok (Some session) =>
          ok (mkStatusResponse (Session.id session) (Session.taskId session)
                (Session.status session) (Session.sprintCount session)
                (Session.confidenceLevel session) (Session.startedAt session)
                (Session.updatedAt session)
                (if JSON.truthy (orDefault verbose (VBool false)) then
                   match getSprintsBySession db sid with
                   | ok sprints => Some sprints
                   | err _ => None
                   end
                 else None))
      end
  end.

End SessionHandlers.

(** ** [src/state/migrations.ts] *)

Module MigrationRunner.

(** A migration; versions are integers, the key of the table. *)
Record Migration : Type := mkMigration {
  version : Z;
  name : string;
  up : string
}.

(** The row of [migrations] that records a migration. *)
Definition entry (m : Migration) : Z * string := (version m, name m).

(** [MAX] of a column; [None] is [NULL], the answer for no row. *)
Definition maxOf (l : list Z) : option Z :=
  foldr (fun v acc => Some (match acc with
                            | None => v
                            | Some m => Z.max v m
                            end)) None l.

Section Runner.

(** The database apart from the table [migrations], and [db.exec(sql)] on
    it: the database after the script, or the error thrown. *)
Variable Schema : Type.
Variable exec : string -> Schema -> Result Schema.

(** The database: the rest, and the rows [(version, name)] of
    [migrations] in insertion order. *)
Record MDB : Type := mkMDB {
  schema : Schema;
  applied : list (Z * string)
}.

(** [getCurrentVersion()]: [result?.version || 0]. *)
Definition getCurrentVersion (db : MDB) : Z :=
  default 0%Z (maxOf (List.map fst (applied db))).

(** [applyMigration(migration)]: the script and the insert run in one
    transaction, which is rolled back when either throws. *)
Definition applyMigration (migration : Migration) (db : MDB)
  : Result unit * MDB :=
  match exec (up migration) (schema db) with
  | err e =>
      (err (mkError ("Failed to apply migration " ++ name migration ++ ": "
                     ++ message e)), db)
  | ok schema' =>
      if existsb (Z.eqb (version migration)) (List.map fst (applied db)) then
        (err (mkError ("Failed to apply migration " ++ name migration
                       ++ ": SQLiteError: UNIQUE constraint failed: migrations.version")),
         db)
      else
        (ok tt,
         mkMDB schema' (applied db ++ [entry migration])%list)
  end.

(** The migrations that [migrate] will apply, in the order it applies
    them. *)
Definition pending (db : MDB) (migrations : list Migration)
  : list Migration :=
  orderBy version
    (List.filter (fun m => (getCurrentVersion db <? version m)%Z) migrations).

(** The loop of [migrate]. *)
Fixpoint applyEach (todo : list Migration) (db : MDB) : Result unit * MDB :=
  match todo with
  | [] => (ok tt, db)
  | migration :: rest =>
      match applyMigration migration db with
      | (err e, db') => (err e, db')
      | (ok _, db') => applyEach rest db'
      end
  end.

(** [migrate(migrations)] *)
Definition migrate (migrations : list Migration) (db : MDB)
  : Result unit * MDB :=
  applyEach (pending db migrations) db.

End Runner.

Arguments schema {Schema}.
Arguments applied {Schema}.
Arguments mkMDB {Schema}.

End MigrationRunner.

(** ** Further sample data *)

Module MoreSamples.

Import SQLiteStateRepository MCPHandlers Scenario.

(** An environment in which the swarm runs and exits with a failure. *)
Definition exitOneEnv : SprintEnv :=
  mkSprintEnv "sprint-2" t2 t2
    (fun _ _ => ok (mkSwarmResult false "Task completed, success" 1 250))
    t3 1048576 t3.

(** An environment in which the swarm runs and reports completion. *)
Definition passingEnv : SprintEnv :=
  mkSprintEnv "sprint-2" t2 t2
    (fun _ _ => ok (mkSwarmResult true "Task completed" 0 250))
    t3 1048576 t3.

(** An environment in which the memory cannot be read. *)
Definition noMemoryEnv : CheckpointEnv :=
  mkCheckpointEnv (err (mkError "Failed to get swarm state")) "checkpoint-1"
    t3 t3.

(** A testing aggregate whose tasks, one of them a test, are completed. *)
Definition testingState : SwarmState :=
  mkSwarmState "swarm-3" testing (Fin (9 # 10))
    "Plan: build and test the login service" []
    [mkTask "task-1" "Build the service" task_completed (Some "a1") [];
     mkTask "task-2" "Run the tests" task_completed (Some "a3") []]
    [mkAgent "a1" "architect-1" architect busy (Some "task-1");
     mkAgent "a2" "developer-2" developer busy (Some "task-1");
     mkAgent "a3" "tester-3" tester busy (Some "task-2");
     mkAgent "a4" "reviewer-4" reviewer busy (Some "task-2");
     mkAgent "a5" "coordinator-5" coordinator idle None].

(** A database as a list of the scripts run on it; the empty script is
    refused. *)
Definition scriptLog (sql : string) (log : list string)
  : Result (list string) :=
  if bool_decide (sql = "") then err (mkError "SQLiteError: incomplete input")
  else ok (log ++ [sql])%list.

Definition sampleMigrations : list MigrationRunner.Migration :=
  [MigrationRunner.mkMigration 2 "add_index" "CREATE INDEX i ON sessions(status)";
   MigrationRunner.mkMigration 1 "initial_schema" "CREATE TABLE sessions (id TEXT)"].

End MoreSamples.

(** * Properties *)

(** ** The phase state machine *)

Section PhaseStateMachine.

Import State Scenario.

Lemma includes_validTransitions (from to : SPARCPhase) :
  includes (validTransitions from) to
  = bool_decide (elem_of (from, to) allowedPairs).
Proof. destruct from, to; reflexivity. Qed.

(** C1, as amended: a transition request is applied exactly when the pair
    (current phase, requested phase) is one of planning-executing,
    executing-testing, executing-planning, testing-refactoring,
    testing-executing, refactoring-testing, refactoring-completing; it
    then returns the aggregate with the new phase and the old aggregate
    appended to the history.  For every other pair the result is an error,
    which carries no aggregate. *)
Theorem transitionPhase_follows_table (s : SwarmState) (p : SPARCPhase) :
  transitionPhase s p
  = if bool_decide (elem_of (phase s, p) allowedPairs)
    then ok (transitioned s p)
    else err (mkError ("Invalid phase transition from " ++ phaseName (phase s)
                       ++ " to " ++ phaseName p)).
Proof.
  unfold transitionPhase. rewrite includes_validTransitions.
  destruct (bool_decide (elem_of (phase s, p) allowedPairs)); reflexivity.
Qed.

(** C1, as stated, fails: refactoring-completing is not in the table of
    the specification, and the request is applied. *)
Lemma transitionPhase_refactoring_completing :
  ~ elem_of completing (specTransitions (phase refactoringState))
  /\ transitionPhase refactoringState completing
     = ok (transitioned refactoringState completing).
Proof.
  split.
  - simpl. intros H. inversion H as [|? ? ? H']; inversion H'.
  - reflexivity.
Qed.

Lemma updateTask_frame (s s' : SwarmState) (taskId : string) (u : PartialTask) :
  updateTask s taskId u = ok s' ->
  phase s' = phase s /\ previousStates s' = previousStates s.
Proof.
  unfold updateTask.
  destruct (list_find _ (tasks s)) as [[i t]|]; intros H; inversion H.
  split; reflexivity.
Qed.

Lemma updateAgent_frame (s s' : SwarmState) (agentId : string)
  (u : PartialAgent) :
  updateAgent s agentId u = ok s' ->
  phase s' = phase s /\ previousStates s' = previousStates s.
Proof.
  unfold updateAgent.
  destruct (list_find _ (agents s)) as [[i a]|]; intros H; inversion H.
  split; reflexivity.
Qed.

(** C10: a reducer action other than TRANSITION_PHASE that succeeds leaves
    the phase and the history [previousStates] as they were; a
    TRANSITION_PHASE that succeeds returns the history with the whole
    aggregate it was applied to appended as last element. *)
Theorem reduceState_frame (s s' : SwarmState) (a : StateAction) :
  reduceState s a = ok s' ->
  match a with
  | TRANSITION_PHASE p =>
      phase s' = p /\ previousStates s' = (previousStates s ++ [s])%list
  | _ => phase s' = phase s /\ previousStates s' = previousStates s
  end.
Proof.
  destruct a as [p|c|t|taskId u|taskId agentId|agentId u|]; simpl.
  - unfold transitionPhase.
    destruct (negb _); intros H; inversion H. split; reflexivity.
  - unfold updateConfidence.
    destruct (_ || _); intros H; inversion H. split; reflexivity.
  - unfold addTask. intros H; inversion H. split; reflexivity.
  - apply updateTask_frame.
  - unfold assignTask.
    destruct (updateTask s taskId _) as [s1|e] eqn:E1; [|discriminate].
    intros E2. apply updateTask_frame in E1. apply updateAgent_frame in E2.
    destruct E1 as [P1 H1], E2 as [P2 H2]. split; congruence.
  - apply updateAgent_frame.
  - discriminate.
Qed.

Lemma reduceState_frame_witness :
  (reduceState refactoringState (TRANSITION_PHASE testing)
   = ok (transitioned refactoringState testing)
   /\ phase (transitioned refactoringState testing) = testing
   /\ previousStates (transitioned refactoringState testing)
      = (previousStates refactoringState ++ [refactoringState])%list)
  /\ (reduceState refactoringState (ASSIGN_TASK "task-1" "agent-1")
      = ok (mkSwarmState "swarm-1" refactoring (Fin (9 # 10))
              "Build authentication system" []
              [mkTask "task-1" "Sample task" task_completed (Some "agent-1") []]
              [mkAgent "agent-1" "architect-1" architect busy (Some "task-1")])
      /\ phase (mkSwarmState "swarm-1" refactoring (Fin (9 # 10))
              "Build authentication system" []
              [mkTask "task-1" "Sample task" task_completed (Some "agent-1") []]
              [mkAgent "agent-1" "architect-1" architect busy (Some "task-1")])
         = phase refactoringState
      /\ previousStates (mkSwarmState "swarm-1" refactoring (Fin (9 # 10))
              "Build authentication system" []
              [mkTask "task-1" "Sample task" task_completed (Some "agent-1") []]
              [mkAgent "agent-1" "architect-1" architect busy (Some "task-1")])
         = previousStates refactoringState).
Proof.
  split.
  - split; [reflexivity|].
    apply (reduceState_frame refactoringState _ (TRANSITION_PHASE testing)).
    reflexivity.
  - split; [reflexivity|].
    apply (reduceState_frame refactoringState _
             (ASSIGN_TASK "task-1" "agent-1")).
    reflexivity.
Defined.

End PhaseStateMachine.

(** ** JavaScript numbers *)

Section Numbers.

Lemma sgn_Eq (x : Q) : Num.sgn x = Eq <-> (x == 0)%Q.
Proof. unfold Num.sgn. symmetry. apply Qeq_alt. Qed.

Lemma divQ_nonzero (x y : Q) :
  ~ (y == 0)%Q -> Num.divQ x y = Fin (x / y).
Proof.
  intros Hy. unfold Num.divQ.
  destruct (Num.sgn y) eqn:E; try reflexivity.
  apply sgn_Eq in E. contradiction.
Qed.

Lemma divQ_zero_zero : Num.divQ 0 0 = NaN.
Proof. reflexivity. Qed.

Lemma ltb_Fin (x y : Q) : Num.ltb (Fin x) (Fin y) = true <-> (x < y)%Q.
Proof.
  simpl. rewrite Qlt_alt. destruct (x ?= y)%Q; split; congruence.
Qed.

Lemma ltb_Fin_false (x y : Q) : Num.ltb (Fin x) (Fin y) = false <-> (y <= x)%Q.
Proof.
  pose proof (ltb_Fin x y) as H.
  destruct (Num.ltb (Fin x) (Fin y)); split; intros E.
  - discriminate.
  - exfalso. apply (Qle_not_lt _ _ E). apply H. reflexivity.
  - apply Qnot_lt_le. intros L. apply H in L. discriminate.
  - reflexivity.
Qed.

(** The clamp of a finite number is in [0,1]. *)
Lemma clamp01_Fin_in_unit (q : Q) : Num.in_unit (Num.clamp01 (Fin q)).
Proof.
  unfold Num.clamp01, Num.min, Num.one, Num.zero.
  destruct (Num.ltb (Fin q) (Fin 1)) eqn:E1.
  - apply ltb_Fin in E1. unfold Num.max.
    destruct (Num.ltb (Fin 0) (Fin q)) eqn:E2; simpl.
    + apply ltb_Fin in E2. lra.
    + lra.
  - unfold Num.max.
    destruct (Num.ltb (Fin 0) (Fin 1)) eqn:E2; simpl; lra.
Qed.

(** The clamp keeps a number of [0,1]. *)
Lemma clamp01_Fin_unit (q : Q) :
  (0 <= q)%Q -> (q <= 1)%Q -> Num.eqv (Num.clamp01 (Fin q)) (Fin q).
Proof.
  intros H0 H1. unfold Num.clamp01, Num.min, Num.one, Num.zero.
  destruct (Num.ltb (Fin q) (Fin 1)) eqn:E1; unfold Num.max.
  - destruct (Num.ltb (Fin 0) (Fin q)) eqn:E2; simpl.
    + reflexivity.
    + apply ltb_Fin_false in E2. lra.
  - apply ltb_Fin_false in E1.
    destruct (Num.ltb (Fin 0) (Fin 1)) eqn:E2; simpl.
    + lra.
    + apply ltb_Fin_false in E2. lra.
Qed.

Lemma NaN_not_in_unit : ~ Num.in_unit NaN.
Proof. intros []. Qed.

End Numbers.

(** ** The factor-based evaluator *)

Section FactorBasedConfidence.

Import Confidence.

Lemma weightedSum_nonzero_total (f : ConfidenceFactors) (w : Weights) :
  ~ (totalWeight w == 0)%Q ->
  weightedSum f (normalizedWeights w) = Fin (finiteSum f w).
Proof.
  intros HT. unfold weightedSum, normalizedWeights, mapValues, entries, keys.
  simpl. rewrite !divQ_nonzero by exact HT. reflexivity.
Qed.

(** With a total weight other than zero the value is in [0,1]. *)
Lemma calculateConfidence_bounded (now : Z) (f : ConfidenceFactors)
  (w : Weights) :
  ~ (totalWeight w == 0)%Q ->
  Num.in_unit (value (calculateConfidence now f w)).
Proof.
  intros HT. unfold calculateConfidence; simpl.
  rewrite weightedSum_nonzero_total by exact HT.
  apply clamp01_Fin_in_unit.
Qed.

(** C7 fails when all weights are zero: the normalisation divides zero by
    zero, and [NaN] passes through [Math.min] and [Math.max].  The value is
    then not a number of [0,1], whatever the factors. *)
Theorem calculateConfidence_zero_weights (now : Z) (f : ConfidenceFactors) :
  value (calculateConfidence now f zeroWeights) = NaN
  /\ ~ Num.in_unit (value (calculateConfidence now f zeroWeights)).
Proof.
  assert (E : value (calculateConfidence now f zeroWeights) = NaN)
    by reflexivity.
  split; [exact E|]. rewrite E. apply NaN_not_in_unit.
Qed.

Lemma totalWeight_unfold (w : Weights) :
  totalWeight w
  = (0 + successRate w + consensusLevel w + resourceUtilization w
       + progressRate w + errorRate w + complexity w + experience w)%Q.
Proof. reflexivity. Qed.

Lemma finiteSum_single (f : ConfidenceFactors) (w : Weights) (k : FactorKey) :
  onlyWeight w k -> (finiteSum f w == get f k)%Q.
Proof.
  intros [Hk Hrest]. unfold finiteSum. rewrite totalWeight_unfold.
  pose proof (Hrest k_successRate) as H1.
  pose proof (Hrest k_consensusLevel) as H2.
  pose proof (Hrest k_resourceUtilization) as H3.
  pose proof (Hrest k_progressRate) as H4.
  pose proof (Hrest k_errorRate) as H5.
  pose proof (Hrest k_complexity) as H6.
  pose proof (Hrest k_experience) as H7.
  destruct w as [w1 w2 w3 w4 w5 w6 w7], f as [f1 f2 f3 f4 f5 f6 f7].
  destruct k; simpl in *;
    repeat match goal with
      | H : ?a <> ?b -> _ |- _ =>
          first [ specialize (H ltac:(discriminate)) | clear H ]
      end;
    repeat match goal with
      | H : (?x == 0)%Q |- _ => rewrite !H; clear H
      end;
    field; intros E; apply Hk; lra.
Qed.

Lemma totalWeight_single (w : Weights) (k : FactorKey) :
  onlyWeight w k -> ~ (totalWeight w == 0)%Q.
Proof.
  intros [Hk Hrest]. rewrite totalWeight_unfold.
  pose proof (Hrest k_successRate) as H1.
  pose proof (Hrest k_consensusLevel) as H2.
  pose proof (Hrest k_resourceUtilization) as H3.
  pose proof (Hrest k_progressRate) as H4.
  pose proof (Hrest k_errorRate) as H5.
  pose proof (Hrest k_complexity) as H6.
  pose proof (Hrest k_experience) as H7.
  destruct w as [w1 w2 w3 w4 w5 w6 w7].
  destruct k; simpl in *;
    repeat match goal with
      | H : ?a <> ?b -> _ |- _ =>
          first [ specialize (H ltac:(discriminate)) | clear H ]
      end;
    intros E; apply Hk; lra.
Qed.

(** C8: when each factor is in [0,1] and exactly one factor has a nonzero
    weight, the value of the evaluator is that factor's raw value. *)
Theorem calculateConfidence_single_weight (now : Z) (f : ConfidenceFactors)
  (w : Weights) (k : FactorKey) :
  validFactors f -> onlyWeight w k ->
  Num.eqv (value (calculateConfidence now f w)) (Fin (get f k)).
Proof.
  intros Hf Hw. unfold calculateConfidence; simpl.
  rewrite weightedSum_nonzero_total by exact (totalWeight_single w k Hw).
  pose proof (finiteSum_single f w k Hw) as E.
  pose proof (Hf k) as [H0 H1].
  pose proof (clamp01_Fin_unit (finiteSum f w)) as C.
  assert (Num.eqv (Num.clamp01 (Fin (finiteSum f w))) (Fin (finiteSum f w)))
    as C' by (apply C; lra).
  destruct (Num.clamp01 (Fin (finiteSum f w))); simpl in *;
    try contradiction.
  lra.
Qed.

End FactorBasedConfidence.

Lemma calculateConfidence_single_weight_witness :
  Confidence.validFactors Confidence.testFactors
  /\ Confidence.onlyWeight Confidence.consensusOnly Confidence.k_consensusLevel
  /\ Num.eqv
       (Confidence.value
          (Confidence.calculateConfidence 0 Confidence.testFactors
             Confidence.consensusOnly))
       (Fin (9 # 10)).
Proof.
  assert (Hf : Confidence.validFactors Confidence.testFactors).
  { intros k. destruct k; simpl; split; unfold Qle; simpl; lia. }
  assert (Hw : Confidence.onlyWeight Confidence.consensusOnly
                 Confidence.k_consensusLevel).
  { split.
    - simpl. unfold Qeq; simpl. lia.
    - intros j Hj. destruct j; simpl; try reflexivity. contradiction. }
  split; [exact Hf|]. split; [exact Hw|].
  exact (calculateConfidence_single_weight 0 Confidence.testFactors
           Confidence.consensusOnly Confidence.k_consensusLevel Hf Hw).
Defined.

(** ** The outcome-based score *)

Section OutcomeBasedConfidence.

Import MCPHandlers.

Lemma Math_clamp_bounds (c : Q) :
  (0 <= Math_max 0 (Math_min 1 c) /\ Math_max 0 (Math_min 1 c) <= 1)%Q.
Proof.
  unfold Math_max, Math_min.
  destruct (c ?= 1)%Q eqn:E1.
  - apply Qeq_alt in E1.
    destruct (0 ?= 1)%Q eqn:E2; lra.
  - apply Qlt_alt in E1.
    destruct (0 ?= c)%Q eqn:E2.
    + lra.
    + apply Qlt_alt in E2. lra.
    + lra.
  - destruct (0 ?= 1)%Q eqn:E2; lra.
Qed.

(** C6: an outcome whose success flag is false scores exactly 0, whatever
    its output text; and the score of every outcome lies in [0,1]. *)
Theorem calculateConfidence_outcome (r : SwarmResult) :
  (success r = false -> calculateConfidence r = 0%Q)
  /\ (0 <= calculateConfidence r /\ calculateConfidence r <= 1)%Q.
Proof.
  unfold calculateConfidence. split.
  - intros ->. reflexivity.
  - destruct (success r); simpl.
    + apply Math_clamp_bounds.
    + lra.
Qed.

Lemma calculateConfidence_outcome_witness :
  success (mkSwarmResult false "Task completed with success" 1 250) = false
  /\ calculateConfidence
       (mkSwarmResult false "Task completed with success" 1 250) = 0%Q
  /\ (0 <= calculateConfidence
             (mkSwarmResult true "Task completed with success" 0 250)
      /\ calculateConfidence
           (mkSwarmResult true "Task completed with success" 0 250) <= 1)%Q.
Proof.
  assert (H : success (mkSwarmResult false "Task completed with success" 1 250)
              = false) by reflexivity.
  split; [exact H|]. split.
  - exact (proj1 (calculateConfidence_outcome
                    (mkSwarmResult false "Task completed with success" 1 250))
             H).
  - exact (proj2 (calculateConfidence_outcome
                    (mkSwarmResult true "Task completed with success" 0 250))).
Defined.

End OutcomeBasedConfidence.

(** ** Tables *)

Section Tables.

Import SQLiteStateRepository.

Context {R : Type} (rowId : R -> string).

Lemma selectById_app (i : string) (l1 l2 : list R) :
  selectById rowId i (l1 ++ l2)
  = match selectById rowId i l1 with
    | Some r => Some r
    | None => selectById rowId i l2
    end.
Proof.
  induction l1 as [|r l1 IH]; simpl; [reflexivity|].
  destruct (bool_decide (rowId r = i)); [reflexivity|exact IH].
Qed.

Lemma selectById_id (i : string) (rows : list R) (r : R) :
  selectById rowId i rows = Some r -> rowId r = i.
Proof.
  induction rows as [|x rows IH]; simpl; [discriminate|].
  destruct (bool_decide (rowId x = i)) eqn:E.
  - intros H; inversion H; subst. apply bool_decide_eq_true in E. exact E.
  - exact IH.
Qed.

Lemma selectById_In (i : string) (rows : list R) (r : R) :
  selectById rowId i rows = Some r -> In r rows.
Proof.
  induction rows as [|x rows IH]; simpl; [discriminate|].
  destruct (bool_decide (rowId x = i)).
  - intros H; inversion H; subst. left; reflexivity.
  - intros H. right. exact (IH H).
Qed.

Lemma hasId_In (rows : list R) (r : R) :
  In r rows -> hasId rowId (rowId r) rows = true.
Proof.
  unfold hasId. induction rows as [|x rows IH]; simpl; [intros []|].
  intros [->|H].
  - rewrite bool_decide_eq_true_2 by reflexivity. reflexivity.
  - destruct (bool_decide (rowId x = rowId r)); [reflexivity|exact (IH H)].
Qed.

Lemma hasId_app (i : string) (l1 l2 : list R) :
  hasId rowId i (l1 ++ l2) = hasId rowId i l1 || hasId rowId i l2.
Proof.
  unfold hasId. rewrite selectById_app.
  destruct (selectById rowId i l1); reflexivity.
Qed.

Lemma hasId_false_In (i : string) (rows : list R) (r : R) :
  hasId rowId i rows = false -> In r rows -> rowId r <> i.
Proof.
  intros H Hin E. subst i. rewrite (hasId_In rows r Hin) in H. discriminate.
Qed.

(** An update that keeps the key changes the selected row and no other. *)
Lemma selectById_updateById (i j : string) (set : R -> R) (rows : list R) :
  (forall r, rowId (set r) = rowId r) ->
  selectById rowId j (updateById rowId i set rows)
  = match selectById rowId j rows with
    | Some r => Some (if bool_decide (rowId r = i) then set r else r)
    | None => None
    end.
Proof.
  intros Hset. unfold updateById.
  induction rows as [|x rows IH]; simpl; [reflexivity|].
  destruct (bool_decide (rowId x = i)) eqn:E.
  - rewrite Hset.
    destruct (bool_decide (rowId x = j)); [|exact IH].
    rewrite E. reflexivity.
  - destruct (bool_decide (rowId x = j)); [|exact IH].
    rewrite E. reflexivity.
Qed.

Lemma hasId_updateById (i j : string) (set : R -> R) (rows : list R) :
  (forall r, rowId (set r) = rowId r) ->
  hasId rowId j (updateById rowId i set rows) = hasId rowId j rows.
Proof.
  intros Hset. unfold hasId. rewrite (selectById_updateById i j set rows Hset).
  destruct (selectById rowId j rows); reflexivity.
Qed.

(** An update of an absent key changes nothing. *)
Lemma updateById_absent (i : string) (set : R -> R) (rows : list R) :
  selectById rowId i rows = None -> updateById rowId i set rows = rows.
Proof.
  unfold updateById. induction rows as [|x rows IH]; simpl; [reflexivity|].
  destruct (bool_decide (rowId x = i)); [discriminate|].
  intros H. rewrite (IH H). reflexivity.
Qed.

End Tables.

(** ** Sorting *)

Section Ordering.

Local Open Scope list_scope.

Context {A : Type} (key : A -> Z).

Lemma insertBy_last (x : A) (acc : list A) :
  Forall (fun y => (key y <= key x)%Z) acc -> insertBy key x acc = acc ++ [x].
Proof.
  induction 1 as [|y acc Hy _ IH]; simpl; [reflexivity|].
  destruct (key x <? key y)%Z eqn:E.
  - apply Z.ltb_lt in E. lia.
  - rewrite IH. reflexivity.
Qed.

Lemma ascending_snoc (acc : list A) (x : A) :
  ascending key acc -> Forall (fun y => (key y <= key x)%Z) acc ->
  ascending key (acc ++ [x]).
Proof.
  induction acc as [|y acc IH]; simpl.
  - intros _ _. split; [constructor|exact I].
  - intros [Hy Hacc] Hall. inversion Hall as [|? ? Hyx Hall']; subst.
    split.
    + apply Forall_app. split; [exact Hy|]. constructor; [exact Hyx|constructor].
    + apply IH; assumption.
Qed.

Lemma orderBy_acc (l acc : list A) :
  ascending key acc -> ascending key l ->
  Forall (fun y => Forall (fun x => (key y <= key x)%Z) l) acc ->
  fold_left (fun a x => insertBy key x a) l acc = acc ++ l.
Proof.
  revert acc. induction l as [|x l IH]; intros acc Hacc Hl Hall; simpl.
  - rewrite app_nil_r. reflexivity.
  - destruct Hl as [Hx Hl].
    assert (Hle : Forall (fun y => (key y <= key x)%Z) acc).
    { eapply Forall_impl; [exact Hall|]. simpl. intros y Hy.
      inversion Hy; assumption. }
    rewrite (insertBy_last x acc Hle).
    rewrite IH.
    + rewrite <- app_assoc. reflexivity.
    + apply ascending_snoc; assumption.
    + exact Hl.
    + apply Forall_app. split.
      * eapply Forall_impl; [exact Hall|]. simpl. intros y Hy.
        inversion Hy; assumption.
      * constructor; [exact Hx|constructor].
Qed.

(** Sorting a list whose keys already ascend returns it. *)
Lemma orderBy_ascending (l : list A) : ascending key l -> orderBy key l = l.
Proof.
  intros Hl. unfold orderBy.
  rewrite (orderBy_acc l [] I Hl); [reflexivity|constructor].
Qed.

Lemma insertBy_In (x y : A) (l : list A) :
  In y (insertBy key x l) -> y = x \/ In y l.
Proof.
  induction l as [|z l IH]; simpl.
  - intros [->|[]]. left; reflexivity.
  - destruct (key x <? key z)%Z; simpl.
    + intros [->|[->|H]]; auto.
    + intros [->|H]; auto. destruct (IH H); auto.
Qed.

Lemma orderBy_acc_In (y : A) (l acc : list A) :
  In y (fold_left (fun a x => insertBy key x a) l acc) -> In y acc \/ In y l.
Proof.
  revert acc. induction l as [|x l IH]; intros acc; simpl; [auto|].
  intros H. destruct (IH _ H) as [H1|H1]; [|auto].
  destruct (insertBy_In _ _ _ H1) as [->|H2]; auto.
Qed.

(** Sorting invents no row. *)
Lemma orderBy_In (y : A) (l : list A) : In y (orderBy key l) -> In y l.
Proof.
  intros H. destruct (orderBy_acc_In y l [] H) as [[]|H1]. exact H1.
Qed.

End Ordering.

(** ** Sessions in the repository *)

Section Sessions.

Import SQLiteStateRepository MCPHandlers Scenario.

Local Open Scope list_scope.

Lemma db_eta (db : DB) :
  mkDB (sessions db) (sprints db) (artifacts db) (checkpoints db) = db.
Proof. destruct db; reflexivity. Qed.

(** An update without completedAt binds every value it collects; the
    assignments keep the key of a row and, with the trigger, turn the
    session read from it into the patched one. *)
Lemma bindAll_sessionAssignments (ts : Date) (u : PartialSession.t) :
  PartialSession.completedAt u = None ->
  exists sets,
    bindAll (sessionAssignments u) = Some sets
    /\ (forall r, SessionRow.id (fold_left (fun row f => f row) sets r)
                  = SessionRow.id r)
    /\ (forall r, sessionOfRow
                    (touch ts (fold_left (fun row f => f row) sets r))
                  = patched ts u (sessionOfRow r)).
Proof.
  destruct u as [i t sc cl st sa ua ca md].
  cbn [PartialSession.completedAt]. intros ->.
  destruct sc, cl, st, md as [[]|];
    (eexists; split; [reflexivity|]; split; intros []; reflexivity).
Qed.

(** A supplied completedAt is a [Date] object among the values: the
    driver refuses it. *)
Lemma bindAll_sessionAssignments_date (u : PartialSession.t) (d : Date) :
  PartialSession.completedAt u = Some d ->
  sessionAssignments u <> [] /\ bindAll (sessionAssignments u) = None.
Proof.
  destruct u as [i t sc cl st sa ua ca md].
  cbn [PartialSession.completedAt]. intros ->.
  destruct sc, cl, st, md as [[]|]; split; (discriminate || reflexivity).
Qed.

(** With no storable field the statement is refused. *)
Lemma updateSession_no_field (db : DB) (ts : Date) (i : string)
  (u : PartialSession.t) :
  sessionAssignments u = [] ->
  exists e, updateSession db ts i u = (err e, db).
Proof.
  intros E. unfold updateSession. rewrite E. eexists; reflexivity.
Qed.

(** With a completedAt the update fails, whatever else it supplies and
    whether or not the session exists, and no row changes. *)
Lemma updateSession_date (db : DB) (ts : Date) (i : string)
  (u : PartialSession.t) (d : Date) :
  PartialSession.completedAt u = Some d ->
  updateSession db ts i u
  = (err (mkError "Failed to update session: TypeError: Binding expected string, TypedArray, boolean, number, bigint or null"%string),
     db).
Proof.
  intros H. destruct (bindAll_sessionAssignments_date u d H) as [Hne Hb].
  unfold updateSession.
  destruct (sessionAssignments u); [contradiction|].
  rewrite Hb. reflexivity.
Qed.

(** Otherwise the statement runs: the row of the id is rewritten by an
    assignment that keeps its key, and the session is read back. *)
Lemma updateSession_unfold (db : DB) (ts : Date) (i : string)
  (u : PartialSession.t) :
  PartialSession.completedAt u = None ->
  sessionAssignments u <> [] ->
  exists set,
    (forall r, SessionRow.id (set r) = SessionRow.id r)
    /\ (forall r, sessionOfRow (set r) = patched ts u (sessionOfRow r))
    /\ updateSession db ts i u
       = (getSession
            (mkDB (updateById SessionRow.id i set (sessions db))
               (sprints db) (artifacts db) (checkpoints db)) i,
          mkDB (updateById SessionRow.id i set (sessions db))
            (sprints db) (artifacts db) (checkpoints db)).
Proof.
  intros Hc Hne.
  destruct (bindAll_sessionAssignments ts u Hc) as (sets & Hb & Hid & Hp).
  exists (fun r => touch ts (fold_left (fun row f => f row) sets r)).
  split; [|split].
  - intros r. specialize (Hid r).
    destruct (fold_left _ sets r). exact Hid.
  - exact Hp.
  - unfold updateSession.
    destruct (sessionAssignments u); [contradiction|].
    rewrite Hb. reflexivity.
Qed.

(** Reading an existing session back after its row was rewritten. *)
Lemma getSession_after_update (db : DB) (i : string)
  (set : SessionRow.t -> SessionRow.t) (patch : Session.t -> Session.t)
  (s : Session.t) :
  (forall r, SessionRow.id (set r) = SessionRow.id r) ->
  (forall r, sessionOfRow (set r) = patch (sessionOfRow r)) ->
  getSession db i = ok (Some s) ->
  getSession
    (mkDB (updateById SessionRow.id i set (sessions db))
       (sprints db) (artifacts db) (checkpoints db)) i
  = ok (Some (patch s)).
Proof.
  intros Hid Hp Hget. unfold getSession in *. cbn [sessions].
  rewrite (selectById_updateById SessionRow.id i i set _ Hid).
  destruct (selectById SessionRow.id i (sessions db)) as [row|] eqn:Erow;
    [|discriminate].
  rewrite (selectById_id _ _ _ _ Erow).
  rewrite bool_decide_eq_true_2 by reflexivity.
  rewrite Hp. inversion Hget; subst. reflexivity.
Qed.

(** On an absent id, with at least one storable field and no completedAt,
    the update changes no row, reads back no session and returns the
    success value [ok(null)]. *)
Lemma updateSession_absent (db : DB) (ts : Date) (i : string)
  (u : PartialSession.t) :
  getSession db i = ok None ->
  PartialSession.completedAt u = None ->
  sessionAssignments u <> [] ->
  updateSession db ts i u = (ok None, db).
Proof.
  intros Hget Hc Hne.
  destruct (updateSession_unfold db ts i u Hc Hne) as (set & _ & _ & ->).
  unfold getSession in Hget.
  destruct (selectById SessionRow.id i (sessions db)) eqn:E; [discriminate|].
  rewrite (updateById_absent _ _ _ _ E). rewrite db_eta.
  unfold getSession. rewrite E. reflexivity.
Qed.

(** C5, as amended: for every existing session and every update that
    supplies at least one of sprintCount, confidenceLevel, status and
    metadata, and no completedAt, [updateSession] succeeds and returns the
    session with exactly the supplied ones of these fields replaced (the
    metadata by its JSON round trip), updatedAt set to the storage time of
    the update, and every other field as it was; the same session is then
    read back by [getSession]. *)
Theorem updateSession_changes_supplied_fields (db : DB) (ts : Date)
  (i : string) (u : PartialSession.t) (s : Session.t) :
  getSession db i = ok (Some s) ->
  PartialSession.completedAt u = None ->
  sessionAssignments u <> [] ->
  fst (updateSession db ts i u) = ok (Some (patched ts u s))
  /\ getSession (snd (updateSession db ts i u)) i = ok (Some (patched ts u s)).
Proof.
  intros Hget Hc Hne.
  destruct (updateSession_unfold db ts i u Hc Hne) as (set & Hid & Hp & ->).
  cbn [fst snd].
  split; apply (getSession_after_update db i set (patched ts u) s Hid Hp Hget).
Qed.

Lemma updateSession_changes_supplied_fields_witness :
  getSession db2 "session-1"
  = ok (Some (Session.mk "session-1" "build-api" 0 0 active t0 t0 None
                initMetadata))
  /\ PartialSession.completedAt (statusOnly completed) = None
  /\ sessionAssignments (statusOnly completed) <> []
  /\ fst (updateSession db2 t3 "session-1" (statusOnly completed))
     = ok (Some (Session.mk "session-1" "build-api" 0 0 completed t0 t3 None
                   initMetadata))
  /\ getSession (snd (updateSession db2 t3 "session-1" (statusOnly completed)))
       "session-1"
     = ok (Some (Session.mk "session-1" "build-api" 0 0 completed t0 t3 None
                   initMetadata)).
Proof.
  assert (H1 : getSession db2 "session-1"
               = ok (Some (Session.mk "session-1" "build-api" 0 0 active t0 t0
                             None initMetadata))) by reflexivity.
  assert (H2 : PartialSession.completedAt (statusOnly completed) = None)
    by reflexivity.
  assert (H3 : sessionAssignments (statusOnly completed) <> [])
    by discriminate.
  split; [exact H1|]. split; [exact H2|]. split; [exact H3|].
  exact (updateSession_changes_supplied_fields db2 t3 "session-1"
           (statusOnly completed) _ H1 H2 H3).
Defined.

(** C5, as stated, fails.  For an id that identifies no session the
    update returns a success value that carries no session, not an error;
    and for an existing session the update also changes updatedAt, which
    was not supplied. *)
Lemma updateSession_absent_id_is_no_error :
  getSession db2 "session-404" = ok None
  /\ updateSession db2 t3 "session-404" (statusOnly completed)
     = (ok None, db2)
  /\ (Session.updatedAt <$>
        match getSession db2 "session-1" with
        | ok s => s | err _ => None end) = Some t0
  /\ (Session.updatedAt <$>
        match fst (updateSession db2 t3 "session-1" (statusOnly completed)) with
        | ok s => s | err _ => None end) = Some t3
  /\ PartialSession.updatedAt (statusOnly completed) = None.
Proof. repeat split. Qed.

(** The update of the cancel method supplies a completedAt and fails; the
    method reports success all the same, also for a session that does not
    exist, and stores nothing. *)
Lemma handleCancel_answer (db : DB) (sid : string) (now ts : Date) :
  sid <> "" ->
  handleCancel db (Some sid) now ts
  = (ok (mkCancelResponse sid "Session cancelled successfully"), db).
Proof.
  intros Hsid. unfold handleCancel, Str.present.
  rewrite bool_decide_eq_false_2 by exact Hsid.
  rewrite (updateSession_date db ts sid
             (PartialSession.mk None None None None (Some cancelled) None None
                (Some now) None) now eq_refl).
  reflexivity.
Qed.

Lemma handleCancel_absent :
  handleCancel db2 (Some "session-404") t3 t3
  = (ok (mkCancelResponse "session-404" "Session cancelled successfully"),
     db2).
Proof. reflexivity. Qed.

(** C4, as amended: [updateSession] does not look at the current status.
    For an existing session and an update without completedAt, when a
    status is supplied the stored status becomes the supplied one,
    whatever it was; when none is supplied (and some other field is) the
    status is kept. *)
Theorem updateSession_overwrites_status (db : DB) (ts : Date)
  (i : string) (u : PartialSession.t) (s : Session.t) :
  getSession db i = ok (Some s) ->
  PartialSession.completedAt u = None ->
  sessionAssignments u <> [] ->
  exists s', fst (updateSession db ts i u) = ok (Some s')
             /\ getSession (snd (updateSession db ts i u)) i = ok (Some s')
             /\ Session.status s'
                = default (Session.status s) (PartialSession.status u).
Proof.
  intros Hget Hc Hne. exists (patched ts u s).
  destruct (updateSession_unfold db ts i u Hc Hne) as (set & Hid & Hp & ->).
  cbn [fst snd].
  split; [|split; [|reflexivity]];
    apply (getSession_after_update db i set (patched ts u) s Hid Hp Hget).
Qed.

Lemma updateSession_overwrites_status_witness :
  getSession dbCompleted "session-1"
  = ok (Some (Session.mk "session-1" "build-api" 1 (85 # 100) completed t0 t2
                None initMetadata))
  /\ PartialSession.completedAt (statusOnly active) = None
  /\ sessionAssignments (statusOnly active) <> []
  /\ (exists s', fst (updateSession dbCompleted t3 "session-1"
                        (statusOnly active)) = ok (Some s')
                 /\ getSession
                      (snd (updateSession dbCompleted t3 "session-1"
                              (statusOnly active))) "session-1"
                    = ok (Some s')
                 /\ Session.status s' = active).
Proof.
  assert (H : getSession dbCompleted "session-1"
              = ok (Some (Session.mk "session-1" "build-api" 1 (85 # 100)
                            completed t0 t2 None initMetadata)))
    by reflexivity.
  assert (H1 : PartialSession.completedAt (statusOnly active) = None)
    by reflexivity.
  assert (H2 : sessionAssignments (statusOnly active) <> []) by discriminate.
  split; [exact H|]. split; [exact H1|]. split; [exact H2|].
  exact (updateSession_overwrites_status dbCompleted t3 "session-1"
           (statusOnly active) _ H H1 H2).
Defined.

(** C4, as stated, fails: a session stored as completed is made active
    again by [updateSession]. *)
Lemma completed_session_status_changes :
  (Session.status <$> (match getSession dbCompleted "session-1" with
                       | ok s => s | err _ => None end)) = Some completed
  /\ (Session.status <$>
        (match fst (updateSession dbCompleted t3 "session-1"
                      (statusOnly active)) with
         | ok s => s | err _ => None end)) = Some active
  /\ (Session.status <$>
        (match getSession
                 (snd (updateSession dbCompleted t3 "session-1"
                         (statusOnly active))) "session-1" with
         | ok s => s | err _ => None end)) = Some active.
Proof. repeat split. Qed.

End Sessions.

(** ** Sprint numbering *)

Section SprintNumbering.

Import SQLiteStateRepository MCPHandlers Scenario.

Local Open Scope list_scope.

Lemma countFrom_range (a : Z) (n : nat) (x : Z) :
  In x (countFrom a n) -> (a <= x < a + Z.of_nat n)%Z.
Proof.
  revert a. induction n as [|n IH]; intros a; simpl; [intros []|].
  intros [<-|H]; [lia|]. apply IH in H. lia.
Qed.

Lemma countFrom_snoc (a : Z) (n : nat) :
  countFrom a n ++ [(a + Z.of_nat n)%Z] = countFrom a (S n).
Proof.
  revert a. induction n as [|n IH]; intros a.
  - simpl. rewrite Z.add_0_r. reflexivity.
  - change (countFrom a (S n) ++ [(a + Z.of_nat (S n))%Z])
      with (a :: (countFrom (a + 1) n ++ [(a + Z.of_nat (S n))%Z])).
    replace (a + Z.of_nat (S n))%Z with (a + 1 + Z.of_nat n)%Z by lia.
    rewrite IH. reflexivity.
Qed.

Lemma countFrom_length (a : Z) (n : nat) : length (countFrom a n) = n.
Proof.
  revert a. induction n as [|n IH]; intros a; simpl; [reflexivity|].
  rewrite IH. reflexivity.
Qed.

Lemma countFrom_ascending {A} (key : A -> Z) (l : list A) (a : Z) (n : nat) :
  map key l = countFrom a n -> ascending key l.
Proof.
  revert a n. induction l as [|x l IH]; intros a n E; simpl; [exact I|].
  destruct n as [|n]; [discriminate|]. simpl in E.
  injection E as Hx Hl.
  split; [|exact (IH _ _ Hl)].
  apply List.Forall_forall. intros y Hy.
  assert (Hmem : In (key y) (countFrom (a + 1) n))
    by (rewrite <- Hl; apply in_map; exact Hy).
  apply countFrom_range in Hmem. lia.
Qed.

Lemma filter_In_intro {A} (P : A -> Prop) `{forall x, Decision (P x)}
  (l : list A) (x : A) :
  In x l -> P x -> In x (filter P l).
Proof.
  induction l as [|y l IH]; simpl; [intros []|].
  intros [->|Hin] Hp.
  - rewrite filter_cons_True by exact Hp. left; reflexivity.
  - rewrite filter_cons. destruct (decide (P y)); [right|]; apply IH; assumption.
Qed.

Lemma filter_In_elim {A} (P : A -> Prop) `{forall x, Decision (P x)}
  (l : list A) (x : A) :
  In x (filter P l) -> In x l /\ P x.
Proof.
  induction l as [|y l IH]; simpl; [intros []|].
  rewrite filter_cons. destruct (decide (P y)) as [Hy|Hy]; simpl.
  - intros [->|Hin]; [split; [left; reflexivity|exact Hy]|].
    destruct (IH Hin). split; [right|]; assumption.
  - intros Hin. destruct (IH Hin). split; [right|]; assumption.
Qed.

Lemma countSprints_length (db : DB) (sid : string) :
  countSprints db sid = Z.of_nat (length (sprintNumbers db sid)).
Proof.
  unfold countSprints, sprintNumbers. rewrite length_map. reflexivity.
Qed.

(** In a repository whose sprints were numbered in sequence, a fresh id
    for an existing session violates no constraint. *)
Lemma sprintInsertError_none (db : DB) (row : SprintRow.t) :
  hasId SessionRow.id (SprintRow.session_id row) (sessions db) = true ->
  hasId SprintRow.id (SprintRow.id row) (sprints db) = false ->
  numbered db (SprintRow.session_id row) ->
  SprintRow.sprint_number row
  = (countSprints db (SprintRow.session_id row) + 1)%Z ->
  sprintInsertError db row = None.
Proof.
  intros Hs Hid Hnum Hn. unfold sprintInsertError. rewrite Hid, Hs. simpl.
  destruct (existsb _ (sprints db)) eqn:E; [|reflexivity].
  exfalso. apply existsb_exists in E. destruct E as [r [Hin Hr]].
  apply andb_true_iff in Hr. destruct Hr as [H1 H2].
  apply bool_decide_eq_true in H1. apply Z.eqb_eq in H2.
  assert (Hmem : In (SprintRow.sprint_number r)
                   (sprintNumbers db (SprintRow.session_id row))).
  { unfold sprintNumbers. apply in_map. apply filter_In_intro; assumption. }
  rewrite Hnum in Hmem. apply countFrom_range in Hmem.
  rewrite countSprints_length in Hn. lia.
Qed.

Lemma createSprint_ok (db : DB) (newId : string) (ts now : Date)
  (sid objective : string) :
  hasId SessionRow.id sid (sessions db) = true ->
  hasId SprintRow.id newId (sprints db) = false ->
  numbered db sid ->
  createSprint db newId ts now sid objective
  = (ok (Sprint.mk newId sid (countSprints db sid + 1) objective 0
           sprint_planning now None None),
     mkDB (sessions db)
       (sprints db ++ [SprintRow.mk newId sid (countSprints db sid + 1)
                         objective 0 sprint_planning ts None None])
       (artifacts db) (checkpoints db)).
Proof.
  intros Hs Hid Hnum. unfold createSprint.
  rewrite sprintInsertError_none; try assumption; reflexivity.
Qed.

Lemma createSprint_sessions (db : DB) (newId : string) (ts now : Date)
  (sid objective : string) :
  sessions (snd (createSprint db newId ts now sid objective)) = sessions db.
Proof.
  unfold createSprint. destruct (sprintInsertError db _); reflexivity.
Qed.

Lemma createSprint_checkpoints (db : DB) (newId : string) (ts now : Date)
  (sid objective : string) :
  checkpoints (snd (createSprint db newId ts now sid objective))
  = checkpoints db.
Proof.
  unfold createSprint. destruct (sprintInsertError db _); reflexivity.
Qed.

Lemma hasId_singleton_other {R} (rowId : R -> string) (j : string) (r : R) :
  rowId r <> j -> hasId rowId j [r] = false.
Proof.
  intros H. unfold hasId. simpl.
  rewrite bool_decide_eq_false_2 by exact H. reflexivity.
Qed.

Lemma createSprint_other_id (db : DB) (newId : string) (ts now : Date)
  (sid objective j : string) :
  newId <> j ->
  hasId SprintRow.id j (sprints (snd (createSprint db newId ts now sid objective)))
  = hasId SprintRow.id j (sprints db).
Proof.
  intros Hj. unfold createSprint. destruct (sprintInsertError db _); simpl.
  - reflexivity.
  - rewrite hasId_app, hasId_singleton_other by exact Hj.
    apply orb_false_r.
Qed.

Lemma createSprint_other_session (db : DB) (newId : string) (ts now : Date)
  (sid' objective sid : string) :
  sid' <> sid ->
  sprintNumbers (snd (createSprint db newId ts now sid' objective)) sid
  = sprintNumbers db sid.
Proof.
  intros Hs. unfold createSprint. destruct (sprintInsertError db _); simpl.
  - reflexivity.
  - unfold sprintNumbers. simpl. rewrite filter_app.
    rewrite (filter_cons_False _ _ []) by exact Hs.
    rewrite filter_nil, app_nil_r. reflexivity.
Qed.

Lemma sprintNumbers_snoc (db : DB) (row : SprintRow.t) (sid : string) :
  SprintRow.session_id row = sid ->
  sprintNumbers (mkDB (sessions db) (sprints db ++ [row]) (artifacts db)
                   (checkpoints db)) sid
  = sprintNumbers db sid ++ [SprintRow.sprint_number row].
Proof.
  intros Hs. unfold sprintNumbers. simpl. rewrite filter_app.
  rewrite (filter_cons_True _ _ []) by exact Hs.
  rewrite filter_nil, map_app. reflexivity.
Qed.

(** The listing of a session's sprints, when they were numbered in
    sequence: the numbers from 1, in order. *)
Lemma getSprintsBySession_numbered (db : DB) (sid : string) :
  numbered db sid ->
  exists l, getSprintsBySession db sid = ok l
            /\ map Sprint.sprintNumber l = sprintNumbers db sid.
Proof.
  intros Hnum. unfold getSprintsBySession, sprintRowsOf.
  eexists. split; [reflexivity|].
  rewrite orderBy_ascending.
  - rewrite map_map. reflexivity.
  - eapply countFrom_ascending. exact Hnum.
Qed.

(** Calls of [createSprint] with fresh, distinct ids, in any order and
    mixed with calls for other sessions: the session's sprints stay
    numbered in sequence, every call made for it succeeds, and the [j]-th
    such call gets the number [k + j] when [k] sprints existed. *)
Lemma createSprints_sequence (sid : string) (calls : list CreateSprintCall) :
  forall db,
  hasId SessionRow.id sid (sessions db) = true ->
  numbered db sid ->
  NoDup (map call_id calls) ->
  Forall (fun c => hasId SprintRow.id (call_id c) (sprints db) = false) calls ->
  sprintNumbers (snd (createSprints db calls)) sid
  = countFrom 1 (length (sprintNumbers db sid)
                 + length (filter (fun c => call_session c = sid) calls))
  /\ map createdNumber (resultsFor sid calls (fst (createSprints db calls)))
     = map Some
         (countFrom (Z.of_nat (length (sprintNumbers db sid)) + 1)
            (length (filter (fun c => call_session c = sid) calls))).
Proof.
  induction calls as [|c rest IH]; intros db Hs Hnum Hnd Hfresh.
  - simpl. rewrite Nat.add_0_r. split; [exact Hnum|reflexivity].
  - inversion Hnd as [|? ? Hnotin Hnd']; subst.
    inversion Hfresh as [|? ? Hc Hfresh']; subst.
    simpl.
    destruct (createSprint db (call_id c) (call_ts c) (call_now c)
                (call_session c) (call_objective c)) as [r db1] eqn:E1.
    destruct (createSprints db1 rest) as [rs db2] eqn:E2.
    assert (Hs1 : hasId SessionRow.id sid (sessions db1) = true).
    { replace db1 with (snd (createSprint db (call_id c) (call_ts c)
                               (call_now c) (call_session c)
                               (call_objective c))) by (rewrite E1; reflexivity).
      rewrite createSprint_sessions. exact Hs. }
    assert (Hfresh1 : Forall (fun c' => hasId SprintRow.id (call_id c')
                                          (sprints db1) = false) rest).
    { apply List.Forall_forall. intros c' Hin.
      replace db1 with (snd (createSprint db (call_id c) (call_ts c)
                               (call_now c) (call_session c)
                               (call_objective c))) by (rewrite E1; reflexivity).
      rewrite createSprint_other_id.
      - rewrite List.Forall_forall in Hfresh'. apply Hfresh'. exact Hin.
      - intros Heq. apply Hnotin. rewrite Heq.
        apply list_elem_of_In, in_map. exact Hin. }
    rewrite filter_cons.
    destruct (decide (call_session c = sid)) as [Hc_sid|Hc_sid].
    + rewrite bool_decide_eq_true_2 by exact Hc_sid.
      rewrite Hc_sid in E1.
      rewrite (createSprint_ok db _ _ _ sid _ Hs Hc Hnum) in E1.
      inversion E1 as [[Hr Hdb1]]. clear E1.
      assert (Hn1 : sprintNumbers db1 sid
                    = sprintNumbers db sid ++ [(countSprints db sid + 1)%Z]).
      { rewrite <- Hdb1. apply sprintNumbers_snoc. reflexivity. }
      assert (Hnum1 : numbered db1 sid).
      { unfold numbered. rewrite Hn1 at 1. rewrite Hnum at 1.
        rewrite countSprints_length.
        replace (Z.of_nat (length (sprintNumbers db sid)) + 1)%Z
          with (1 + Z.of_nat (length (sprintNumbers db sid)))%Z by lia.
        rewrite countFrom_snoc. rewrite Hn1, length_app. simpl.
        rewrite Nat.add_1_r. reflexivity. }
      specialize (IH db1 Hs1 Hnum1 Hnd' Hfresh1). rewrite E2 in IH.
      simpl in IH. destruct IH as [IH1 IH2]. simpl. split.
      * rewrite IH1. rewrite Hn1, length_app. simpl.
        f_equal. lia.
      * simpl. rewrite countSprints_length. f_equal.
        rewrite IH2. rewrite Hn1, length_app. simpl.
        f_equal. f_equal. lia.
    + rewrite bool_decide_eq_false_2 by exact Hc_sid.
      assert (Hn1 : sprintNumbers db1 sid = sprintNumbers db sid).
      { replace db1 with (snd (createSprint db (call_id c) (call_ts c)
                                 (call_now c) (call_session c)
                                 (call_objective c)))
          by (rewrite E1; reflexivity).
        apply createSprint_other_session. exact Hc_sid. }
      assert (Hnum1 : numbered db1 sid).
      { unfold numbered. rewrite Hn1. exact Hnum. }
      specialize (IH db1 Hs1 Hnum1 Hnd' Hfresh1). rewrite E2 in IH.
      simpl in IH. rewrite Hn1 in IH. exact IH.
Qed.

End SprintNumbering.

Section SprintCreation.

Import SQLiteStateRepository MCPHandlers Scenario.

Local Open Scope list_scope.

(** C3: [createSprint] computes count + 1 and inserts in one step of the
    event loop, so calls for a session, in whatever order they run and
    mixed with calls for other sessions, number its sprints in sequence.
    With fresh, distinct ids, [N] calls for an existing session that has
    [k] sprints numbered 1..k all succeed, get the numbers k+1..k+N in
    the order they run, and leave the session with exactly the numbers
    1..k+N (for a new session, 1..N): no duplicate, no gap. *)
Theorem createSprint_numbers_in_sequence (db : DB) (sid : string)
  (calls : list CreateSprintCall) :
  hasId SessionRow.id sid (sessions db) = true ->
  numbered db sid ->
  NoDup (map call_id calls) ->
  Forall (fun c => hasId SprintRow.id (call_id c) (sprints db) = false) calls ->
  map createdNumber (resultsFor sid calls (fst (createSprints db calls)))
  = map Some
      (countFrom (countSprints db sid + 1)
         (length (filter (fun c => call_session c = sid) calls)))
  /\ exists l,
       getSprintsBySession (snd (createSprints db calls)) sid = ok l
       /\ map Sprint.sprintNumber l
          = countFrom 1
              (Z.to_nat (countSprints db sid)
               + length (filter (fun c => call_session c = sid) calls)).
Proof.
  intros Hs Hnum Hnd Hfresh.
  destruct (createSprints_sequence sid calls db Hs Hnum Hnd Hfresh)
    as [H1 H2].
  rewrite countSprints_length, Nat2Z.id. split; [exact H2|].
  assert (Hnum' : numbered (snd (createSprints db calls)) sid).
  { unfold numbered. rewrite H1 at 1. rewrite H1, countFrom_length.
    reflexivity. }
  destruct (getSprintsBySession_numbered _ sid Hnum') as [l [Hl1 Hl2]].
  exists l. split; [exact Hl1|]. rewrite Hl2. exact H1.
Qed.

Lemma createSprint_numbers_in_sequence_witness :
  hasId SessionRow.id "session-1" (sessions db1) = true
  /\ numbered db1 "session-1"
  /\ NoDup (map call_id sampleCalls)
  /\ Forall (fun c => hasId SprintRow.id (call_id c) (sprints db1) = false)
       sampleCalls
  /\ map createdNumber
       (resultsFor "session-1" sampleCalls (fst (createSprints db1 sampleCalls)))
     = [Some 1%Z; Some 2%Z]
  /\ exists l,
       getSprintsBySession (snd (createSprints db1 sampleCalls)) "session-1"
       = ok l
       /\ map Sprint.sprintNumber l = [1%Z; 2%Z].
Proof.
  assert (H1 : hasId SessionRow.id "session-1" (sessions db1) = true)
    by reflexivity.
  assert (H2 : numbered db1 "session-1") by reflexivity.
  assert (H3 : NoDup (map call_id sampleCalls)).
  { apply (bool_decide_unpack _). reflexivity. }
  assert (H4 : Forall (fun c => hasId SprintRow.id (call_id c) (sprints db1)
                               = false) sampleCalls).
  { repeat constructor. }
  split; [exact H1|]. split; [exact H2|]. split; [exact H3|].
  split; [exact H4|].
  exact (createSprint_numbers_in_sequence db1 "session-1" sampleCalls
           H1 H2 H3 H4).
Defined.

End SprintCreation.

(** ** The sprint method *)

Section SprintMethod.

Import SQLiteStateRepository MCPHandlers Scenario.

Local Open Scope list_scope.

(** An update without completedAt binds every value it collects, and the
    assignments make the patched row. *)
Lemma bindAll_sprintAssignments (u : PartialSprint.t) :
  PartialSprint.completedAt u = None ->
  exists sets,
    bindAll (sprintAssignments u) = Some sets
    /\ forall r, fold_left (fun row f => f row) sets r = patchedSprintRow u r.
Proof.
  destruct u as [i s n o c st sa ca re].
  cbn [PartialSprint.completedAt]. intros ->.
  destruct c, st, re as [[]|];
    (eexists; split; [reflexivity|]; intros []; reflexivity).
Qed.

(** A supplied completedAt is a [Date] object among the values: the
    driver refuses it. *)
Lemma bindAll_sprintAssignments_date (u : PartialSprint.t) (d : Date) :
  PartialSprint.completedAt u = Some d ->
  sprintAssignments u <> [] /\ bindAll (sprintAssignments u) = None.
Proof.
  destruct u as [i s n o c st sa ca re].
  cbn [PartialSprint.completedAt]. intros ->.
  destruct c, st, re as [[]|]; split; (discriminate || reflexivity).
Qed.

(** With a completedAt the update fails, whatever else it supplies and
    whether or not the sprint exists, and no row changes. *)
Lemma updateSprint_date (db : DB) (i : string) (u : PartialSprint.t)
  (d : Date) :
  PartialSprint.completedAt u = Some d ->
  updateSprint db i u
  = (err (mkError "Failed to update sprint: TypeError: Binding expected string, TypedArray, boolean, number, bigint or null"%string),
     db).
Proof.
  intros H. destruct (bindAll_sprintAssignments_date u d H) as [Hne Hb].
  unfold updateSprint.
  destruct (sprintAssignments u); [contradiction|].
  rewrite Hb. reflexivity.
Qed.

Lemma updateSprint_unfold (db : DB) (i : string) (u : PartialSprint.t) :
  PartialSprint.completedAt u = None ->
  sprintAssignments u <> [] ->
  updateSprint db i u
  = let db' := mkDB (sessions db)
                 (updateById SprintRow.id i (patchedSprintRow u) (sprints db))
                 (artifacts db) (checkpoints db) in
    match selectById SprintRow.id i (sprints db') with
    | None =>
        (err (mkError "Failed to update sprint: TypeError: null is not an object"),
         db')
    | Some row => (ok (sprintOfRow row), db')
    end.
Proof.
  intros Hc Hne.
  destruct (bindAll_sprintAssignments u Hc) as (sets & Hb & Hp).
  unfold updateSprint.
  destruct (sprintAssignments u) as [|f fs]; [contradiction|].
  rewrite Hb.
  assert (Hset : updateById SprintRow.id i
                   (fun r => fold_left (fun row f0 => f0 row) sets r)
                   (sprints db)
                 = updateById SprintRow.id i (patchedSprintRow u) (sprints db)).
  { unfold updateById. apply map_ext. intros r.
    rewrite Hp. reflexivity. }
  rewrite Hset. reflexivity.
Qed.

Lemma updateSprint_sessions (db : DB) (i : string) (u : PartialSprint.t) :
  sessions (snd (updateSprint db i u)) = sessions db.
Proof.
  unfold updateSprint. destruct (sprintAssignments u); [reflexivity|].
  destruct (bindAll _); [|reflexivity].
  simpl. destruct (selectById _ _ _); reflexivity.
Qed.

Lemma updateSprint_checkpoints (db : DB) (i : string) (u : PartialSprint.t) :
  checkpoints (snd (updateSprint db i u)) = checkpoints db.
Proof.
  unfold updateSprint. destruct (sprintAssignments u); [reflexivity|].
  destruct (bindAll _); [|reflexivity].
  simpl. destruct (selectById _ _ _); reflexivity.
Qed.

(** An update of an existing sprint, without completedAt, patches its
    row. *)
Lemma updateSprint_existing (db : DB) (i : string) (u : PartialSprint.t)
  (row : SprintRow.t) :
  selectById SprintRow.id i (sprints db) = Some row ->
  PartialSprint.completedAt u = None ->
  sprintAssignments u <> [] ->
  selectById SprintRow.id i (sprints (snd (updateSprint db i u)))
  = Some (patchedSprintRow u row).
Proof.
  intros Hrow Hc Hne. rewrite (updateSprint_unfold db i u Hc Hne). simpl.
  assert (Hsel : selectById SprintRow.id i
                   (updateById SprintRow.id i (patchedSprintRow u) (sprints db))
                 = Some (patchedSprintRow u row)).
  { rewrite selectById_updateById by (intros r; reflexivity).
    rewrite Hrow. rewrite (selectById_id _ _ _ _ Hrow).
    rewrite bool_decide_eq_true_2 by reflexivity. reflexivity. }
  rewrite Hsel. simpl. exact Hsel.
Qed.

Lemma updateSession_checkpoints (db : DB) (ts : Date) (i : string)
  (u : PartialSession.t) :
  checkpoints (snd (updateSession db ts i u)) = checkpoints db.
Proof.
  unfold updateSession. destruct (sessionAssignments u); [reflexivity|].
  destruct (bindAll _); reflexivity.
Qed.

(** Whenever the sprint method returns an error, the table of sessions is
    as it was. *)
Lemma handleSprint_error_sessions (db : DB) (params : SprintParams)
  (env : SprintEnv) (e : Error) :
  fst (handleSprint db params env) = err e ->
  sessions (snd (handleSprint db params env)) = sessions db.
Proof.
  unfold handleSprint.
  destruct (Str.present (sp_session_id params)) as [sid|]; [|reflexivity].
  destruct (getSession db sid) as [[session|]|]; try reflexivity.
  destruct (negb (bool_decide _)); [reflexivity|].
  match goal with
  | |- context [createSprint ?d ?i ?t ?n ?s ?o] =>
      pose proof (createSprint_sessions d i t n s o) as Hc;
      destruct (createSprint d i t n s o) as [[sprint|e1] dbc]
  end; simpl in Hc; [|intros _; exact Hc].
  destruct (negb (JSON.indexable _)).
  - intros _. cbn [snd]. rewrite updateSprint_sessions. exact Hc.
  - destruct (runSwarm env _ _) as [r|e2]; simpl; [discriminate|].
    intros _. rewrite !updateSprint_sessions. exact Hc.
Qed.

(** C9 fails where the sprint is to be marked failed.  When the external
    execution fails (the call that runs the swarm returns an error), the
    sprint method returns that error and the table of sessions is as it
    was, so the session's sprintCount and confidenceLevel are unchanged;
    more generally the table of sessions is unchanged whenever the method
    returns an error.  But the update that would store status failed
    supplies a [Date] as completedAt: it fails on the binding and its
    result is not looked at, so the sprint the method created stays
    stored as executing, with no completion time. *)
Theorem handleSprint_swarm_failure (db : DB) (params : SprintParams)
  (env : SprintEnv) (sid : string) (session : Session.t) (e : Error) :
  Str.present (sp_session_id params) = Some sid ->
  getSession db sid = ok (Some session) ->
  Session.status session = active ->
  JSON.indexable (Session.metadata session) = true ->
  hasId SprintRow.id (newSprintId env) (sprints db) = false ->
  numbered db sid ->
  (forall task options, runSwarm env task options = err e) ->
  (exists db' row,
     handleSprint db params env = (err e, db')
     /\ selectById SprintRow.id (newSprintId env) (sprints db') = Some row
     /\ SprintRow.session_id row = sid
     /\ SprintRow.sprint_number row = (countSprints db sid + 1)%Z
     /\ SprintRow.status row = sprint_executing
     /\ SprintRow.completed_at row = None
     /\ sessions db' = sessions db
     /\ getSession db' sid = ok (Some session))
  /\ (forall params' env' e',
        fst (handleSprint db params' env') = err e' ->
        sessions (snd (handleSprint db params' env')) = sessions db).
Proof.
  intros Hsid Hget Hactive Hmeta Hfresh Hnum Hswarm.
  split; [|intros params' env' e'; apply handleSprint_error_sessions].
  assert (Hs : hasId SessionRow.id sid (sessions db) = true).
  { unfold getSession in Hget. unfold hasId.
    destruct (selectById SessionRow.id sid (sessions db)); [reflexivity|].
    discriminate. }
  pose proof (handleSprint_error_sessions db params env e) as Hsess.
  unfold handleSprint in *. rewrite Hsid, Hget in *. rewrite Hactive in *.
  rewrite bool_decide_eq_true_2 in * by reflexivity. simpl negb in *.
  cbv iota in *.
  match goal with
  | |- context [createSprint db ?i ?t ?n ?s ?o] =>
      rewrite (createSprint_ok db i t n s o Hs Hfresh Hnum) in *
  end.
  rewrite Hmeta in *. simpl negb in *. cbv iota in *.
  rewrite Hswarm in *. simpl in Hsess. specialize (Hsess eq_refl).
  set (row0 := SprintRow.mk (newSprintId env) sid (countSprints db sid + 1) _
                 0 sprint_planning (insertedAt env) None None) in *.
  set (dbc := mkDB (sessions db) (sprints db ++ [row0]) (artifacts db)
                (checkpoints db)) in *.
  set (u1 := PartialSprint.mk None None None None None (Some sprint_executing)
               None None None) in *.
  set (u2 := PartialSprint.mk None None None None None (Some sprint_failed)
               None (Some (finishedAt env)) None) in *.
  simpl Sprint.id in *.
  assert (H0 : selectById SprintRow.id (newSprintId env) (sprints dbc)
               = Some row0).
  { unfold dbc; simpl. rewrite selectById_app.
    unfold hasId in Hfresh.
    destruct (selectById SprintRow.id (newSprintId env) (sprints db));
      [discriminate|].
    simpl. rewrite bool_decide_eq_true_2 by reflexivity. reflexivity. }
  assert (H1 : selectById SprintRow.id (newSprintId env)
                 (sprints (snd (updateSprint dbc (newSprintId env) u1)))
               = Some (patchedSprintRow u1 row0))
    by (apply updateSprint_existing; [exact H0|reflexivity|discriminate]).
  assert (H2 : updateSprint (snd (updateSprint dbc (newSprintId env) u1))
                 (newSprintId env) u2
               = (err (mkError "Failed to update sprint: TypeError: Binding expected string, TypedArray, boolean, number, bigint or null"%string),
                  snd (updateSprint dbc (newSprintId env) u1)))
    by (apply (updateSprint_date _ _ u2 (finishedAt env)); reflexivity).
  rewrite H2 in *. cbn [snd] in *.
  eexists; eexists. split; [reflexivity|].
  split; [exact H1|]. repeat (split; [reflexivity|]).
  split; [exact Hsess|].
  unfold getSession in *. rewrite Hsess. exact Hget.
Qed.

Lemma handleSprint_swarm_failure_witness :
  Str.present (sp_session_id (mkSprintParams (Some "session-1") None))
  = Some "session-1"
  /\ getSession db3 "session-1"
     = ok (Some (Session.mk "session-1" "build-api" 0 0 active t0 t0 None
                   initMetadata))
  /\ hasId SprintRow.id (newSprintId failingEnv) (sprints db3) = false
  /\ numbered db3 "session-1"
  /\ (forall task options,
        runSwarm failingEnv task options
        = err (mkError "Failed to run swarm: ENOENT"))
  /\ exists db' row,
       handleSprint db3 (mkSprintParams (Some "session-1") None) failingEnv
       = (err (mkError "Failed to run swarm: ENOENT"), db')
       /\ selectById SprintRow.id "sprint-2" (sprints db') = Some row
       /\ SprintRow.session_id row = "session-1"
       /\ SprintRow.sprint_number row = 2%Z
       /\ SprintRow.status row = sprint_executing
       /\ SprintRow.completed_at row = None
       /\ sessions db' = sessions db3
       /\ getSession db' "session-1"
          = ok (Some (Session.mk "session-1" "build-api" 0 0 active t0 t0 None
                        initMetadata)).
Proof.
  assert (H1 : Str.present (sp_session_id (mkSprintParams (Some "session-1")
                                             None)) = Some "session-1")
    by reflexivity.
  assert (H2 : getSession db3 "session-1"
               = ok (Some (Session.mk "session-1" "build-api" 0 0 active t0 t0
                             None initMetadata))) by reflexivity.
  assert (H3 : hasId SprintRow.id (newSprintId failingEnv) (sprints db3)
               = false) by reflexivity.
  assert (H4 : numbered db3 "session-1") by reflexivity.
  assert (H5 : forall task options,
             runSwarm failingEnv task options
             = err (mkError "Failed to run swarm: ENOENT"))
    by (intros; reflexivity).
  split; [exact H1|]. split; [exact H2|]. split; [exact H3|].
  split; [exact H4|]. split; [exact H5|].
  exact (proj1 (handleSprint_swarm_failure db3 _ failingEnv "session-1" _ _
                  H1 H2 eq_refl eq_refl H3 H4 H5)).
Defined.

End SprintMethod.

(** ** Checkpoint and restore *)

Section CheckpointRestore.

Import SQLiteStateRepository MCPHandlers Scenario.

Local Open Scope list_scope.

Lemma createCheckpoint_checkpoints (db : DB) (newId : string) (ts now : Date)
  (c : CheckpointInput.t) :
  exists extra,
    checkpoints (snd (createCheckpoint db newId ts now c))
    = checkpoints db ++ extra.
Proof.
  unfold createCheckpoint.
  destruct (hasId CheckpointRow.id newId (checkpoints db)).
  - exists []. simpl. rewrite app_nil_r. reflexivity.
  - destruct (_ || _).
    + exists []. simpl. rewrite app_nil_r. reflexivity.
    + eexists. reflexivity.
Qed.

Lemma handleCheckpoint_checkpoints (db : DB) (params : CheckpointParams)
  (env : CheckpointEnv) :
  exists extra,
    checkpoints (snd (handleCheckpoint db params env))
    = checkpoints db ++ extra.
Proof.
  assert (Hsame : exists extra : list CheckpointRow.t,
             checkpoints db = checkpoints db ++ extra)
    by (exists []; rewrite app_nil_r; reflexivity).
  unfold handleCheckpoint.
  destruct (Str.present (cp_session_id params)) as [sid|]; [|exact Hsame].
  destruct (Str.present (cp_name params)) as [nm|]; [|exact Hsame].
  destruct (getSession db sid) as [[session|]|]; try exact Hsame.
  destruct (getSprintsBySession db sid) as [sprints|]; [|exact Hsame].
  destruct (last sprints) as [cur|]; [|exact Hsame].
  match goal with
  | |- context [createCheckpoint ?d ?i ?t ?n ?c] =>
      destruct (createCheckpoint_checkpoints d i t n c) as [extra Hx];
      destruct (createCheckpoint d i t n c) as [[cp|e] dbc]
  end; exists extra; exact Hx.
Qed.

Lemma handleSprint_checkpoints (db : DB) (params : SprintParams)
  (env : SprintEnv) :
  checkpoints (snd (handleSprint db params env)) = checkpoints db.
Proof.
  unfold handleSprint.
  destruct (Str.present (sp_session_id params)) as [sid|]; [|reflexivity].
  destruct (getSession db sid) as [[session|]|]; try reflexivity.
  destruct (negb (bool_decide _)); [reflexivity|].
  match goal with
  | |- context [createSprint ?d ?i ?t ?n ?s ?o] =>
      pose proof (createSprint_checkpoints d i t n s o) as Hc;
      destruct (createSprint d i t n s o) as [[sprint|e1] dbc]
  end; simpl in Hc; [|exact Hc].
  destruct (negb (JSON.indexable _)).
  - cbn [snd]. rewrite updateSprint_checkpoints. exact Hc.
  - destruct (runSwarm env _ _) as [r|e2]; cbv beta iota zeta; cbn [snd].
    + rewrite updateSession_checkpoints, !updateSprint_checkpoints. exact Hc.
    + rewrite !updateSprint_checkpoints. exact Hc.
Qed.

(** No mutation removes or rewrites a checkpoint: the table only grows. *)
Lemma applyMutation_checkpoints (db : DB) (m : Mutation) :
  exists extra, checkpoints (applyMutation db m) = checkpoints db ++ extra.
Proof.
  assert (Hsame : forall db', checkpoints db' = checkpoints db ->
             exists extra : list CheckpointRow.t,
               checkpoints db' = checkpoints db ++ extra)
    by (intros db' E; exists []; rewrite app_nil_r; exact E).
  destruct m; simpl.
  - apply Hsame. unfold createSession.
    destruct (hasId _ _ _); reflexivity.
  - apply Hsame. apply updateSession_checkpoints.
  - apply Hsame. apply createSprint_checkpoints.
  - apply Hsame. apply updateSprint_checkpoints.
  - apply Hsame. unfold saveArtifact.
    destruct (hasId _ _ _); [reflexivity|].
    destruct (negb _); reflexivity.
  - apply createCheckpoint_checkpoints.
  - apply Hsame. apply handleSprint_checkpoints.
  - apply handleCheckpoint_checkpoints.
  - apply Hsame. unfold handleCancel.
    destruct (Str.present _); [|reflexivity].
    match goal with
    | |- context [updateSession ?d ?t ?i ?u] =>
        pose proof (updateSession_checkpoints d t i u) as Hu;
        destruct (updateSession d t i u)
    end. exact Hu.
Qed.

Lemma applyMutations_checkpoints (ms : list Mutation) :
  forall db,
  exists extra, checkpoints (applyMutations db ms) = checkpoints db ++ extra.
Proof.
  induction ms as [|m ms IH]; intros db; simpl.
  - exists []. rewrite app_nil_r. reflexivity.
  - destruct (applyMutation_checkpoints db m) as [x1 H1].
    destruct (IH (applyMutation db m)) as [x2 H2].
    exists (x1 ++ x2). unfold applyMutations in *. rewrite H2, H1.
    rewrite app_assoc. reflexivity.
Qed.

(** A stored checkpoint is still the one loaded after any mutations. *)
Lemma loadCheckpoint_stable (db : DB) (ms : list Mutation) (i : string)
  (row : CheckpointRow.t) :
  selectById CheckpointRow.id i (checkpoints db) = Some row ->
  loadCheckpoint (applyMutations db ms) i = ok (Some (checkpointOfRow row)).
Proof.
  intros Hrow. unfold loadCheckpoint.
  destruct (applyMutations_checkpoints ms db) as [extra ->].
  rewrite selectById_app, Hrow. reflexivity.
Qed.

(** The sprint a listing ends with is a row of the table. *)
Lemma listed_sprint_exists (db : DB) (sid : string) (sprints : list Sprint.t)
  (cur : Sprint.t) :
  getSprintsBySession db sid = ok sprints -> last sprints = Some cur ->
  hasId SprintRow.id (Sprint.id cur) (SQLiteStateRepository.sprints db) = true.
Proof.
  unfold getSprintsBySession, sprintRowsOf. intros H Hlast.
  injection H as <-.
  apply last_Some in Hlast. destruct Hlast as [l' Hl'].
  assert (Hin : In cur (map sprintOfRow
                          (orderBy SprintRow.sprint_number
                             (filter (fun r => SprintRow.session_id r = sid)
                                (SQLiteStateRepository.sprints db))))).
  { rewrite Hl'. apply in_or_app. right. left. reflexivity. }
  apply in_map_iff in Hin. destruct Hin as [row [<- Hrow]].
  apply orderBy_In in Hrow. apply filter_In_elim in Hrow.
  destruct Hrow as [Hrow _].
  exact (hasId_In SprintRow.id _ row Hrow).
Qed.

Lemma createCheckpoint_ok (db : DB) (newId : string) (ts now : Date)
  (c : CheckpointInput.t) :
  hasId CheckpointRow.id newId (checkpoints db) = false ->
  hasId SessionRow.id (CheckpointInput.sessionId c) (sessions db) = true ->
  hasId SprintRow.id (CheckpointInput.sprintId c)
    (SQLiteStateRepository.sprints db) = true ->
  createCheckpoint db newId ts now c
  = (ok (Checkpoint.mk newId (CheckpointInput.sessionId c)
           (CheckpointInput.sprintId c) (CheckpointInput.name c)
           (CheckpointInput.description c) (CheckpointInput.state c) now),
     mkDB (sessions db) (SQLiteStateRepository.sprints db) (artifacts db)
       (checkpoints db
        ++ [CheckpointRow.mk newId (CheckpointInput.sessionId c)
              (CheckpointInput.sprintId c) (CheckpointInput.name c)
              (orNull (CheckpointInput.description c))
              (JSON.roundTrip (CheckpointInput.state c)) ts])).
Proof.
  intros H1 H2 H3. unfold createCheckpoint. rewrite H1, H2, H3. reflexivity.
Qed.

(** C2, as amended: for a session with at least one sprint the checkpoint
    operation succeeds (given a name and a fresh id), and restoring the
    checkpoint returns, whatever writes were made to the repository in
    between (retention cleanup apart), the JSON round trip of the state
    that was captured: the session and the list of its sprints as read at
    checkpoint time, an empty artifact list, and the external-memory value
    (the empty object when it could not be read).  In the round trip a
    date has become its ISO string and an absent optional field is
    dropped. *)
Theorem checkpoint_restore_round_trip (db : DB) (params : CheckpointParams)
  (env : CheckpointEnv) (sid nm : string) (session : Session.t)
  (sprints : list Sprint.t) :
  Str.present (cp_session_id params) = Some sid ->
  Str.present (cp_name params) = Some nm ->
  getSession db sid = ok (Some session) ->
  getSprintsBySession db sid = ok sprints ->
  sprints <> [] ->
  newCheckpointId env <> "" ->
  hasId CheckpointRow.id (newCheckpointId env) (checkpoints db) = false ->
  exists db1,
    handleCheckpoint db params env
    = (ok (mkCheckpointResponse (newCheckpointId env)
             ("Checkpoint '" ++ nm ++ "' created successfully")%string), db1)
    /\ forall ms,
         fst (handleRestore (applyMutations db1 ms)
                (Some (newCheckpointId env)))
         = ok (mkRestoreResponse sid
                 ("Restored from checkpoint '" ++ nm ++ "'")%string
                 (JSON.roundTrip
                    (checkpointState session sprints []
                       (match memoryState env with
                        | ok v => v
                        | err _ => VObj []
                        end)))).
Proof.
  intros Hsid Hnm Hget Hsprints Hne Hid Hfresh.
  unfold handleCheckpoint. rewrite Hsid, Hnm, Hget, Hsprints.
  destruct (last sprints) as [cur|] eqn:Hlast;
    [|apply last_None in Hlast; contradiction].
  assert (Hs : hasId SessionRow.id sid (sessions db) = true).
  { unfold getSession in Hget. unfold hasId.
    destruct (selectById SessionRow.id sid (sessions db)); [reflexivity|].
    discriminate. }
  pose proof (listed_sprint_exists db sid sprints cur Hsprints Hlast) as Hp.
  match goal with
  | |- context [createCheckpoint db ?i ?t ?n ?c] =>
      rewrite (createCheckpoint_ok db i t n c Hfresh Hs Hp)
  end.
  eexists. split; [reflexivity|].
  intros ms. unfold handleRestore, Str.present.
  rewrite bool_decide_eq_false_2 by exact Hid.
  match goal with
  | |- context [applyMutations (mkDB _ _ _ (_ ++ [?row])) ms] =>
      rewrite (loadCheckpoint_stable _ ms (newCheckpointId env) row)
  end.
  - reflexivity.
  - cbn [checkpoints]. rewrite selectById_app.
    unfold hasId in Hfresh.
    destruct (selectById CheckpointRow.id (newCheckpointId env)
                (checkpoints db)); [discriminate|].
    cbn [selectById CheckpointRow.id].
    rewrite bool_decide_eq_true_2 by reflexivity. reflexivity.
Qed.

Lemma checkpoint_restore_round_trip_witness :
  Str.present (cp_session_id checkpointParams) = Some "session-1"
  /\ Str.present (cp_name checkpointParams) = Some "before-refactor"
  /\ getSession db3 "session-1"
     = ok (Some (Session.mk "session-1" "build-api" 0 0 active t0 t0 None
                   initMetadata))
  /\ getSprintsBySession db3 "session-1"
     = ok [Sprint.mk "sprint-1" "session-1" 1 "design" 0 sprint_planning t1
             None None]
  /\ [Sprint.mk "sprint-1" "session-1" 1 "design" 0 sprint_planning t1
        None None] <> []
  /\ newCheckpointId checkpointEnv <> ""
  /\ hasId CheckpointRow.id (newCheckpointId checkpointEnv) (checkpoints db3)
     = false
  /\ exists dbc,
       handleCheckpoint db3 checkpointParams checkpointEnv
       = (ok (mkCheckpointResponse "checkpoint-1"
                "Checkpoint 'before-refactor' created successfully"), dbc)
       /\ forall ms,
            fst (handleRestore (applyMutations dbc ms) (Some "checkpoint-1"))
            = ok (mkRestoreResponse "session-1"
                    "Restored from checkpoint 'before-refactor'"
                    (JSON.roundTrip
                       (checkpointState
                          (Session.mk "session-1" "build-api" 0 0 active t0 t0
                             None initMetadata)
                          [Sprint.mk "sprint-1" "session-1" 1 "design" 0
                             sprint_planning t1 None None]
                          [] sampleMemory))).
Proof.
  assert (H1 : Str.present (cp_session_id checkpointParams)
               = Some "session-1") by reflexivity.
  assert (H2 : Str.present (cp_name checkpointParams)
               = Some "before-refactor") by reflexivity.
  assert (H3 : getSession db3 "session-1"
               = ok (Some (Session.mk "session-1" "build-api" 0 0 active t0 t0
                             None initMetadata))) by reflexivity.
  assert (H4 : getSprintsBySession db3 "session-1"
               = ok [Sprint.mk "sprint-1" "session-1" 1 "design" 0
                       sprint_planning t1 None None]) by reflexivity.
  assert (H5 : [Sprint.mk "sprint-1" "session-1" 1 "design" 0 sprint_planning
                  t1 None None] <> []) by discriminate.
  assert (H6 : newCheckpointId checkpointEnv <> "") by discriminate.
  assert (H7 : hasId CheckpointRow.id (newCheckpointId checkpointEnv)
                 (checkpoints db3) = false) by reflexivity.
  split; [exact H1|]. split; [exact H2|]. split; [exact H3|].
  split; [exact H4|]. split; [exact H5|]. split; [exact H6|].
  split; [exact H7|].
  exact (checkpoint_restore_round_trip db3 checkpointParams checkpointEnv
           "session-1" "before-refactor" _ _ H1 H2 H3 H4 H5 H6 H7).
Defined.

(** C2, as stated, fails.  After a checkpoint of the sample session and a
    restore, the restored state is not the live state at checkpoint time:
    its artifact list is empty although the sprint has an artifact, and
    the dates of the session are strings, not dates. *)
Lemma restore_is_not_the_live_state :
  restoredState <> liveAtCheckpoint
  /\ JSON.get restoredState "artifacts" = VArr []
  /\ JSON.get liveAtCheckpoint "artifacts"
     = VArr [Artifact.toValue sampleArtifact]
  /\ JSON.get (JSON.get restoredState "session") "startedAt"
     = VStr "2023-11-14T22:13:20.000Z"
  /\ JSON.get (JSON.get liveAtCheckpoint "session") "startedAt" = VDate t0.
Proof.
  split; [|repeat split].
  intros E.
  assert (H : JSON.get restoredState "artifacts"
              = JSON.get liveAtCheckpoint "artifacts") by (rewrite E; reflexivity).
  vm_compute in H. discriminate H.
Qed.

End CheckpointRestore.

(** * Further properties of the code *)

(** ** The reducer: tasks, agents and confidence *)

Section ReducerOperations.

Import State Scenario.

Local Open Scope list_scope.

Lemma list_find_task_id (taskId : string) (l : list Task) (i : nat) (t : Task) :
  list_find (fun t => task_id t = taskId) l = Some (i, t) ->
  l !! i = Some t /\ task_id t = taskId
  /\ forall j t', (j < i)%nat -> l !! j = Some t' -> task_id t' <> taskId.
Proof.
  intros H. apply list_find_Some in H. destruct H as [H1 [H2 H3]].
  split; [exact H1|]. split; [exact H2|].
  intros j t' Hj Hl. exact (H3 j t' Hl Hj).
Qed.

(** X1. [updateTask] succeeds exactly when some task has the id.  It then
    merges the updates into the first such task, at its position, and
    leaves every other task, the length of the list and the rest of the
    aggregate as they were. *)
Theorem updateTask_first_match (s : SwarmState) (taskId : string)
  (u : PartialTask) :
  (isOk (updateTask s taskId u) = true
   <-> exists t, In t (tasks s) /\ task_id t = taskId)
  /\ forall s', updateTask s taskId u = ok s' ->
       exists i t,
         tasks s !! i = Some t /\ task_id t = taskId
         /\ (forall j t', (j < i)%nat -> tasks s !! j = Some t' ->
                          task_id t' <> taskId)
         /\ tasks s' = <[i := mergeTask t u]> (tasks s)
         /\ length (tasks s') = length (tasks s)
         /\ (forall j, j <> i -> tasks s' !! j = tasks s !! j)
         /\ agents s' = agents s /\ id s' = id s /\ context s' = context s
         /\ confidence s' = confidence s.
Proof.
  unfold updateTask. split.
  - destruct (list_find _ (tasks s)) as [[i t]|] eqn:E; simpl.
    + split; [intros _|reflexivity].
      apply list_find_task_id in E. destruct E as [E1 [E2 _]].
      exists t. split; [|exact E2].
      apply list_elem_of_In. eapply list_elem_of_lookup_2. exact E1.
    + split; [discriminate|]. intros [t [Hin Ht]]. exfalso.
      apply list_find_None in E. rewrite List.Forall_forall in E.
      exact (E t Hin Ht).
  - intros s'. destruct (list_find _ (tasks s)) as [[i t]|] eqn:E;
      [|discriminate].
    intros H. injection H as <-. simpl.
    apply list_find_task_id in E. destruct E as [E1 [E2 E3]].
    exists i, t. split; [exact E1|]. split; [exact E2|]. split; [exact E3|].
    split; [reflexivity|]. split; [apply length_insert|].
    split; [|repeat split].
    intros j Hj. apply list_lookup_insert_ne. congruence.
Qed.

(** X2. [assignTask] succeeds exactly when the task and the agent both
    exist.  It then gives the first task with that id the agent as
    [assignedTo], and the first agent with that id the status busy and the
    task as [currentTask], whatever the agent was doing; nothing else of
    the aggregate changes and no element is added or removed. *)
Theorem assignTask_effect (s : SwarmState) (taskId agentId : string) :
  (isOk (assignTask s taskId agentId) = true
   <-> (exists t, In t (tasks s) /\ task_id t = taskId)
       /\ (exists a, In a (agents s) /\ agent_id a = agentId))
  /\ forall s', assignTask s taskId agentId = ok s' ->
       exists i t j a,
         list_find (fun t => task_id t = taskId) (tasks s) = Some (i, t)
         /\ list_find (fun a => agent_id a = agentId) (agents s) = Some (j, a)
         /\ tasks s'
            = <[i := mkTask (task_id t) (description t) (task_status t)
                       (Some agentId) (dependencies t)]> (tasks s)
         /\ agents s'
            = <[j := mkAgent (agent_id a) (name a) (agent_type a) busy
                       (Some taskId)]> (agents s)
         /\ phase s' = phase s /\ previousStates s' = previousStates s
         /\ id s' = id s /\ context s' = context s
         /\ confidence s' = confidence s.
Proof.
  unfold assignTask, updateTask, updateAgent. split.
  - destruct (list_find _ (tasks s)) as [[i t]|] eqn:E1; simpl.
    + destruct (list_find _ (agents s)) as [[j a]|] eqn:E2; simpl.
      * split; [intros _|reflexivity].
        apply list_find_Some in E1. destruct E1 as [T1 [T2 _]].
        apply list_find_Some in E2. destruct E2 as [A1 [A2 _]].
        split; [exists t|exists a]; (split; [|assumption]);
          apply list_elem_of_In; eapply list_elem_of_lookup_2; eassumption.
      * split; [discriminate|]. intros [_ [a [Hin Ha]]]. exfalso.
        apply list_find_None in E2. rewrite List.Forall_forall in E2.
        exact (E2 a Hin Ha).
    + split; [discriminate|]. intros [[t [Hin Ht]] _]. exfalso.
      apply list_find_None in E1. rewrite List.Forall_forall in E1.
      exact (E1 t Hin Ht).
  - intros s'.
    destruct (list_find _ (tasks s)) as [[i t]|] eqn:E1; [|discriminate].
    simpl.
    destruct (list_find _ (agents s)) as [[j a]|] eqn:E2; [|discriminate].
    intros H. injection H as <-. simpl.
    exists i, t, j, a. repeat split.
Qed.

(** X3. A successful action never changes the id or the context of the
    aggregate and never adds or removes an agent; the task list keeps its
    length, except that ADD_TASK appends its task at the end (without
    looking for a task with the same id). *)
Theorem reduceState_never_removes (s s' : SwarmState) (a : StateAction) :
  reduceState s a = ok s' ->
  id s' = id s /\ context s' = context s
  /\ length (agents s') = length (agents s)
  /\ match a with
     | ADD_TASK t => tasks s' = tasks s ++ [t]
     | _ => length (tasks s') = length (tasks s)
     end.
Proof.
  assert (HT : forall x taskId u y, updateTask x taskId u = ok y ->
            id y = id x /\ context y = context x /\ agents y = agents x
            /\ length (tasks y) = length (tasks x)).
  { intros x taskId u y. unfold updateTask.
    destruct (list_find _ (tasks x)) as [[i t]|]; [|discriminate].
    intros H. injection H as <-. simpl. repeat split. apply length_insert. }
  assert (HA : forall x agentId u y, updateAgent x agentId u = ok y ->
            id y = id x /\ context y = context x /\ tasks y = tasks x
            /\ length (agents y) = length (agents x)).
  { intros x agentId u y. unfold updateAgent.
    destruct (list_find _ (agents x)) as [[i t]|]; [|discriminate].
    intros H. injection H as <-. simpl. repeat split. apply length_insert. }
  destruct a as [p|c|t|taskId u|taskId agentId|agentId u|]; simpl.
  - unfold transitionPhase. destruct (negb _); intros H; inversion H.
    repeat split.
  - unfold updateConfidence. destruct (_ || _); intros H; inversion H.
    repeat split.
  - unfold addTask. intros H; inversion H. repeat split.
  - intros H. destruct (HT _ _ _ _ H) as [H1 [H2 [H3 H4]]].
    rewrite H3. repeat split; assumption.
  - unfold assignTask.
    destruct (updateTask s taskId _) as [s1|e] eqn:E1; [|discriminate].
    intros E2. destruct (HT _ _ _ _ E1) as [H1 [H2 [H3 H4]]].
    destruct (HA _ _ _ _ E2) as [G1 [G2 [G3 G4]]].
    rewrite G1, G2, G3, G4, H1, H2, H3, H4. repeat split.
  - intros H. destruct (HA _ _ _ _ H) as [H1 [H2 [H3 H4]]].
    rewrite H3. repeat split; assumption.
  - discriminate.
Qed.

Lemma reduceState_never_removes_witness :
  reduceState refactoringState
    (ADD_TASK (mkTask "task-1" "Same id again" pending None []))
  = ok (mkSwarmState "swarm-1" refactoring (Fin (9 # 10))
          "Build authentication system" []
          [mkTask "task-1" "Sample task" task_completed None [];
           mkTask "task-1" "Same id again" pending None []]
          [mkAgent "agent-1" "architect-1" architect idle None])
  /\ length [mkAgent "agent-1" "architect-1" architect idle None]
     = length (agents refactoringState)
  /\ [mkTask "task-1" "Sample task" task_completed None [];
      mkTask "task-1" "Same id again" pending None []]
     = tasks refactoringState
       ++ [mkTask "task-1" "Same id again" pending None []].
Proof.
  assert (H : reduceState refactoringState
                (ADD_TASK (mkTask "task-1" "Same id again" pending None []))
              = ok (mkSwarmState "swarm-1" refactoring (Fin (9 # 10))
                      "Build authentication system" []
                      [mkTask "task-1" "Sample task" task_completed None [];
                       mkTask "task-1" "Same id again" pending None []]
                      [mkAgent "agent-1" "architect-1" architect idle None]))
    by reflexivity.
  split; [exact H|].
  destruct (reduceState_never_removes refactoringState _ _ H)
    as [_ [_ [H3 H4]]].
  split; [exact H3|exact H4].
Defined.

(** X4. The guard of [updateConfidence] compares: a finite confidence is
    accepted exactly when it lies in [0,1], and both infinities are
    rejected, but [NaN] fails neither comparison and is stored as the
    confidence of the aggregate. *)
Theorem updateConfidence_guard (s : SwarmState) (q : Q) :
  (isOk (reduceState s (UPDATE_CONFIDENCE (Fin q))) = true
   <-> (0 <= q /\ q <= 1)%Q)
  /\ isOk (reduceState s (UPDATE_CONFIDENCE PosInf)) = false
  /\ isOk (reduceState s (UPDATE_CONFIDENCE NegInf)) = false
  /\ reduceState s (UPDATE_CONFIDENCE NaN)
     = ok (mkSwarmState (id s) (phase s) NaN (context s) (previousStates s)
             (tasks s) (agents s)).
Proof.
  simpl. unfold updateConfidence, Num.gtb, Num.zero, Num.one.
  split; [|repeat split].
  destruct (Num.ltb (Fin q) (Fin 0)) eqn:E1;
    destruct (Num.ltb (Fin 1) (Fin q)) eqn:E2; simpl;
    try apply ltb_Fin in E1; try apply ltb_Fin in E2;
    try apply ltb_Fin_false in E1; try apply ltb_Fin_false in E2;
    split; intros H; try discriminate; try reflexivity; try lra.
Qed.

End ReducerOperations.

Section ReducerWitnesses.

Import State Scenario.

Local Open Scope list_scope.

Lemma updateTask_first_match_witness :
  updateTask refactoringState "task-1"
    (mkPartialTask None None (Some task_failed) None None)
  = ok (mkSwarmState "swarm-1" refactoring (Fin (9 # 10))
          "Build authentication system" []
          [mkTask "task-1" "Sample task" task_failed None []]
          [mkAgent "agent-1" "architect-1" architect idle None])
  /\ length [mkTask "task-1" "Sample task" task_failed None []]
     = length (tasks refactoringState)
  /\ isOk (updateTask refactoringState "task-9"
             (mkPartialTask None None (Some task_failed) None None)) = false.
Proof.
  assert (H : updateTask refactoringState "task-1"
                (mkPartialTask None None (Some task_failed) None None)
              = ok (mkSwarmState "swarm-1" refactoring (Fin (9 # 10))
                      "Build authentication system" []
                      [mkTask "task-1" "Sample task" task_failed None []]
                      [mkAgent "agent-1" "architect-1" architect idle None]))
    by reflexivity.
  split; [exact H|].
  destruct (proj2 (updateTask_first_match refactoringState "task-1" _) _ H)
    as [i [t [_ [_ [_ [_ [Hlen _]]]]]]].
  split; [exact Hlen|reflexivity].
Defined.

Lemma assignTask_effect_witness :
  assignTask refactoringState "task-1" "agent-1"
  = ok (mkSwarmState "swarm-1" refactoring (Fin (9 # 10))
          "Build authentication system" []
          [mkTask "task-1" "Sample task" task_completed (Some "agent-1") []]
          [mkAgent "agent-1" "architect-1" architect busy (Some "task-1")])
  /\ phase (mkSwarmState "swarm-1" refactoring (Fin (9 # 10))
          "Build authentication system" []
          [mkTask "task-1" "Sample task" task_completed (Some "agent-1") []]
          [mkAgent "agent-1" "architect-1" architect busy (Some "task-1")])
     = phase refactoringState
  /\ isOk (assignTask refactoringState "task-1" "agent-9") = false.
Proof.
  assert (H : assignTask refactoringState "task-1" "agent-1"
              = ok (mkSwarmState "swarm-1" refactoring (Fin (9 # 10))
                      "Build authentication system" []
                      [mkTask "task-1" "Sample task" task_completed
                         (Some "agent-1") []]
                      [mkAgent "agent-1" "architect-1" architect busy
                         (Some "task-1")])) by reflexivity.
  split; [exact H|].
  destruct (proj2 (assignTask_effect refactoringState "task-1" "agent-1") _ H)
    as [i [t [j [a [_ [_ [_ [_ [Hp _]]]]]]]]].
  split; [exact Hp|reflexivity].
Defined.

End ReducerWitnesses.

(** ** The confidence of an aggregate *)

Section AggregateConfidence.

Import MCPHandlers CoreConfidence.

Local Open Scope list_scope.

Lemma ratio_unit (n d : nat) :
  (n <= d)%nat -> (0 < d)%nat -> (0 <= ratio n d /\ ratio n d <= 1)%Q.
Proof.
  intros Hn Hd. unfold ratio.
  assert (D : (0 < inject_Z (Z.of_nat d))%Q).
  { change 0%Q with (inject_Z 0). rewrite <- Zlt_Qlt. lia. }
  assert (N : (0 <= inject_Z (Z.of_nat n))%Q).
  { change 0%Q with (inject_Z 0). rewrite <- Zle_Qle. lia. }
  assert (ND : (inject_Z (Z.of_nat n) <= inject_Z (Z.of_nat d))%Q).
  { rewrite <- Zle_Qle. lia. }
  split.
  - apply Qle_shift_div_l; [exact D|]. lra.
  - apply Qle_shift_div_r; [exact D|]. lra.
Qed.

Lemma filter_length_le {A} (f : A -> bool) (l : list A) :
  (length (List.filter f l) <= length l)%nat.
Proof.
  induction l as [|x l IH]; simpl; [lia|].
  destruct (f x); simpl; lia.
Qed.

Lemma filter_length_le_filter {A} (f g : A -> bool) (l : list A) :
  (forall x, f x = true -> g x = true) ->
  (length (List.filter f l) <= length (List.filter g l))%nat.
Proof.
  intros H. induction l as [|x l IH]; simpl; [lia|].
  destruct (f x) eqn:E.
  - rewrite (H x E). simpl. lia.
  - destruct (g x); simpl; lia.
Qed.

Lemma Math_clamp_id (c : Q) :
  (0 <= c)%Q -> (c <= 1)%Q -> (Math_max 0 (Math_min 1 c) == c)%Q.
Proof.
  intros H0 H1. unfold Math_max, Math_min.
  destruct (c ?= 1)%Q eqn:E1.
  - apply Qeq_alt in E1. change (0 ?= 1)%Q with Lt. cbv iota. lra.
  - destruct (0 ?= c)%Q eqn:E2.
    + apply Qeq_alt in E2. lra.
    + lra.
    + apply Qgt_alt in E2. lra.
  - apply Qgt_alt in E1. lra.
Qed.

Lemma taskCompletion_unit (tasks : list Task) :
  (0 <= calculateTaskCompletionFactor tasks
   /\ calculateTaskCompletionFactor tasks <= 1)%Q.
Proof.
  unfold calculateTaskCompletionFactor.
  destruct (length tasks =? 0)%nat eqn:E; [lra|].
  apply Nat.eqb_neq in E.
  apply ratio_unit; [apply filter_length_le|lia].
Qed.

Lemma agentUtilization_unit (agents : list Agent) :
  (0 <= calculateAgentUtilizationFactor agents
   /\ calculateAgentUtilizationFactor agents <= 1)%Q.
Proof.
  unfold calculateAgentUtilizationFactor.
  destruct (length agents =? 0)%nat eqn:E; [lra|].
  apply Nat.eqb_neq in E.
  pose proof (ratio_unit (length (List.filter isBusy agents)) (length agents)
                (filter_length_le _ _) ltac:(lia)) as [U0 U1].
  set (u := ratio _ _) in *.
  destruct (u ?= 8 # 10)%Q eqn:C.
  - apply Qeq_alt in C. split.
    + apply Qle_shift_div_l; lra.
    + apply Qle_shift_div_r; lra.
  - apply Qlt_alt in C. split.
    + apply Qle_shift_div_l; lra.
    + apply Qle_shift_div_r; lra.
  - apply Qgt_alt in C.
    assert (E2 : (1 - (u - (8 # 10)) / (2 # 10) * (2 # 10) == 1 - (u - (8 # 10)))%Q)
      by field.
    rewrite E2. lra.
Qed.

Lemma taskFailure_unit (tasks : list Task) :
  (0 <= calculateTaskFailureFactor tasks
   /\ calculateTaskFailureFactor tasks <= 1)%Q.
Proof.
  unfold calculateTaskFailureFactor.
  destruct (length tasks =? 0)%nat; [lra|].
  destruct (length (List.filter _ tasks) =? 0)%nat eqn:E; [lra|].
  apply Nat.eqb_neq in E.
  apply ratio_unit; [|lia].
  apply filter_length_le_filter. intros x Hx. rewrite Hx.
  apply orb_true_r.
Qed.

Lemma phaseIteration_unit (s : SwarmState) :
  (0 <= calculatePhaseIterationFactor s
   /\ calculatePhaseIterationFactor s <= 1)%Q.
Proof.
  unfold calculatePhaseIterationFactor.
  repeat match goal with
         | |- context [if ?b then _ else _] => destruct b
         end; lra.
Qed.

Lemma contextClarity_unit (context : string) :
  (0 <= calculateContextClarityFactor context
   /\ calculateContextClarityFactor context <= 1)%Q.
Proof.
  unfold calculateContextClarityFactor.
  destruct (countWords context <? 5)%nat; [lra|].
  destruct (500 <? countWords context)%nat; [lra|].
  apply Math_clamp_bounds.
Qed.

(** X5. Every factor of the aggregate's confidence lies in [0,1], so the
    weighted sum already does and the final clamp changes nothing:
    [calculateConfidence(state)] is the plain weighted sum
    0.3 completion + 0.2 utilization + 0.2 (1 - failure) + 0.15 iteration
    + 0.15 clarity, a number of [0,1]. *)
Theorem calculateConfidence_is_weighted_sum (s : SwarmState) :
  (calculateConfidence s
   == calculateTaskCompletionFactor (tasks s) * (3 # 10)
      + calculateAgentUtilizationFactor (agents s) * (2 # 10)
      + (1 - calculateTaskFailureFactor (tasks s)) * (2 # 10)
      + calculatePhaseIterationFactor s * (15 # 100)
      + calculateContextClarityFactor (context s) * (15 # 100))%Q
  /\ (0 <= calculateConfidence s /\ calculateConfidence s <= 1)%Q.
Proof.
  pose proof (taskCompletion_unit (tasks s)) as [A0 A1].
  pose proof (agentUtilization_unit (agents s)) as [B0 B1].
  pose proof (taskFailure_unit (tasks s)) as [C0 C1].
  pose proof (phaseIteration_unit s) as [D0 D1].
  pose proof (contextClarity_unit (context s)) as [E0 E1].
  unfold calculateConfidence, calculateConfidenceFactors. simpl.
  split; [|apply Math_clamp_bounds].
  apply Math_clamp_id; lra.
Qed.

Lemma updateConfidence_computed (s : SwarmState) :
  State.updateConfidence s (Fin (calculateConfidence s))
  = ok (mkSwarmState (id s) (phase s) (Fin (calculateConfidence s))
          (context s) (previousStates s) (tasks s) (agents s)).
Proof.
  destruct (Math_clamp_bounds
              (taskCompletion (calculateConfidenceFactors s) * (3 # 10)
               + agentUtilization (calculateConfidenceFactors s) * (2 # 10)
               + (1 - taskFailureRate (calculateConfidenceFactors s)) * (2 # 10)
               + phaseIterations (calculateConfidenceFactors s) * (15 # 100)
               + contextClarity (calculateConfidenceFactors s) * (15 # 100)))
    as [H0 H1].
  fold (calculateConfidence s) in H0, H1.
  unfold State.updateConfidence, Num.gtb, Num.zero, Num.one.
  apply ltb_Fin_false in H0. apply ltb_Fin_false in H1.
  rewrite H0, H1. reflexivity.
Qed.

(** X6. The confidence computed from an aggregate is always accepted by
    the reducer: the UPDATE_CONFIDENCE action that the conductor builds
    from [calculateConfidence(state)] never fails, and changes only the
    confidence. *)
Theorem computed_confidence_is_accepted (s : SwarmState) :
  State.reduceState s (State.UPDATE_CONFIDENCE (Fin (calculateConfidence s)))
  = ok (mkSwarmState (id s) (phase s) (Fin (calculateConfidence s))
          (context s) (previousStates s) (tasks s) (agents s)).
Proof. simpl. apply updateConfidence_computed. Qed.

End AggregateConfidence.

(** ** Phase advance and the conductor loop *)

Section PhaseAdvance.

Import State Scenario Phases.

Local Open Scope list_scope.

Lemma getNextPhase_valid (s : SwarmState) (p : SPARCPhase) :
  getNextPhase s = Some p ->
  p <> completing /\ transitionPhase s p = ok (transitioned s p).
Proof.
  unfold getNextPhase, transitionPhase.
  destruct (phase s) eqn:E.
  - intros H; injection H as <-. split; [discriminate|reflexivity].
  - destruct (Num.ltb _ _); intros H; injection H as <-;
      (split; [discriminate|reflexivity]).
  - destruct (Num.gtb _ _); intros H; injection H as <-;
      (split; [discriminate|reflexivity]).
  - intros H; injection H as <-. split; [discriminate|reflexivity].
  - discriminate.
Qed.

(** The two shapes of a decision. *)
Lemma shouldTransitionPhase_shape (s : SwarmState) (c : PartialCriteria) :
  exists d, shouldTransitionPhase s c = ok d
    /\ ((shouldTransition d = false /\ nextPhase d = None)
        \/ (exists p, shouldTransition d = true /\ nextPhase d = Some p
                      /\ getNextPhase s = Some p)).
Proof.
  unfold shouldTransitionPhase.
  destruct (Num.ltb _ _).
  - eexists; split; [reflexivity|]. left; split; reflexivity.
  - destruct (Num.ltb _ _).
    + eexists; split; [reflexivity|]. left; split; reflexivity.
    + destruct (getNextPhase s) as [p|] eqn:E.
      * eexists; split; [reflexivity|]. right. exists p. repeat split.
      * eexists; split; [reflexivity|]. left; split; reflexivity.
Qed.

(** X7. Whatever criteria are passed, a phase that
    [shouldTransitionPhase] proposes is one the reducer accepts from the
    current phase, and it is never the terminal phase completing: the
    TRANSITION_PHASE action built from a positive decision always
    succeeds. *)
Theorem proposed_transition_is_accepted (s : SwarmState) (c : PartialCriteria)
  (d : Decision) :
  shouldTransitionPhase s c = ok d -> shouldTransition d = true ->
  exists p, nextPhase d = Some p /\ p <> completing
            /\ reduceState s (TRANSITION_PHASE p) = ok (transitioned s p).
Proof.
  intros Hd Ht.
  destruct (shouldTransitionPhase_shape s c) as [d' [Hd' Hshape]].
  rewrite Hd in Hd'. injection Hd' as <-.
  destruct Hshape as [[Hf _]|[p [_ [Hn Hg]]]]; [congruence|].
  exists p. split; [exact Hn|]. simpl.
  exact (getNextPhase_valid s p Hg).
Qed.

(** X8. With the default criteria an aggregate without tasks never
    advances: its completion rate is 0, below what every phase requires,
    so the decision is negative and names no next phase. *)
Theorem no_tasks_no_advance (s : SwarmState) :
  tasks s = [] ->
  exists d, shouldTransitionPhase s noCriteria = ok d
            /\ shouldTransition d = false /\ nextPhase d = None.
Proof.
  intros Ht. unfold shouldTransitionPhase.
  destruct (Num.ltb _ _); [eexists; repeat split|].
  unfold calculateCompletionRate. rewrite Ht. simpl length.
  change (0 =? 0)%nat with true. cbv iota.
  assert (E : Num.ltb (Fin 0)
                (requiredCompletions
                   (mergeCriteria (PHASE_CRITERIA (phase s)) noCriteria))
              = true) by (destruct (phase s); reflexivity).
  rewrite E. eexists; repeat split.
Qed.

End PhaseAdvance.

Section ConductorLoop.

Import State Scenario Phases Conductor.

Local Open Scope list_scope.

(** The end of a turn: the sample task when there is none, then the
    transition to completing. *)
Lemma turn_tail_error (x : SwarmState) :
  phase x <> refactoring ->
  match (if (length (tasks x) =? 0)%nat
         then reduceState x (ADD_TASK sampleTask) else ok x) with
  | err e => False
  | ok s3 =>
      reduceState s3 (TRANSITION_PHASE completing)
      = err (mkError ("Invalid phase transition from " ++ phaseName (phase x)
                      ++ " to completing")%string)
  end.
Proof.
  intros Hp.
  destruct (length (tasks x) =? 0)%nat; simpl; unfold transitionPhase; simpl;
    destruct (phase x); try reflexivity; contradiction.
Qed.

Lemma turn_tail_ok (x : SwarmState) :
  match (if (length (tasks x) =? 0)%nat
         then reduceState x (ADD_TASK sampleTask) else ok x) with
  | err e => False
  | ok s3 =>
      forall s4, reduceState s3 (TRANSITION_PHASE completing) = ok s4 ->
                 phase s4 = completing
  end.
Proof.
  destruct (length (tasks x) =? 0)%nat; simpl; unfold transitionPhase;
    intros s4; destruct (negb _); intros H; inversion H; reflexivity.
Qed.

(** A turn that returns a state returns one in the phase completing. *)
Lemma turn_ends_loop (s next : SwarmState) (saved : list SwarmState) :
  turn s = (ok next, saved) -> phase next = completing.
Proof.
  unfold turn. simpl reduceState at 1.
  rewrite updateConfidence_computed.
  set (s1 := mkSwarmState _ _ _ _ _ _ _).
  destruct (shouldTransitionPhase_shape s1 noCriteria) as [d [Hd Hshape]].
  rewrite Hd.
  destruct Hshape as [[Hf Hn]|[p [Ht [Hn Hg]]]].
  - rewrite Hf.
    pose proof (turn_tail_ok s1) as T.
    destruct (if (length (tasks s1) =? 0)%nat then _ else _) as [s3|e];
      [|contradiction].
    destruct (reduceState s3 (TRANSITION_PHASE completing)) as [s4|e] eqn:E4;
      intros H; inversion H; subst. exact (T _ eq_refl).
  - rewrite Ht, Hn.
    destruct (getNextPhase_valid s1 p Hg) as [_ Hv].
    simpl reduceState at 1. rewrite Hv.
    pose proof (turn_tail_ok (transitioned s1 p)) as T.
    destruct (if (length (tasks (transitioned s1 p)) =? 0)%nat then _ else _)
      as [s3|e]; [|contradiction].
    destruct (reduceState s3 (TRANSITION_PHASE completing)) as [s4|e] eqn:E4;
      intros H; inversion H; subst. exact (T _ eq_refl).
Qed.

(** X9. The conductor loop runs at most one turn: a turn either returns
    an error or leaves the aggregate in the phase completing, which ends
    the loop.  So [runSwarm] terminates on every aggregate, and one turn
    of fuel gives its outcome. *)
Theorem runSwarm_one_turn (fuel : nat) (s : SwarmState)
  (saved : list SwarmState) :
  runSwarm (S fuel) s saved = runSwarm 1 s saved
  /\ runSwarm (S fuel) s saved <> OutOfFuel.
Proof.
  assert (H : forall n next sv, phase next = completing ->
            runSwarm n next sv = Completed next (sv ++ [next])).
  { intros n next sv Hp. destruct n; simpl;
      rewrite bool_decide_eq_true_2 by exact Hp; reflexivity. }
  assert (U : forall n, runSwarm (S n) s saved
            = if bool_decide (phase s = completing)
              then Completed s (saved ++ [s])
              else match turn s with
                   | (err e, more) => Failed e (saved ++ more)
                   | (ok next, more) => runSwarm n next (saved ++ more)
                   end) by reflexivity.
  rewrite (U fuel), (U 0%nat).
  destruct (bool_decide (phase s = completing)).
  - split; [reflexivity|discriminate].
  - destruct (turn s) as [[next|e] more] eqn:E.
    + pose proof (turn_ends_loop s next more E) as Hp.
      rewrite (H fuel), (H 0%nat) by exact Hp.
      split; [reflexivity|discriminate].
    + split; [reflexivity|discriminate].
Qed.

(** X10. Started on an aggregate in the phase planning or executing, the
    conductor never completes: whatever the tasks, agents and context,
    its first turn ends in the rejected transition to completing, from a
    phase other than refactoring, and [runSwarm] returns that error. *)
Theorem runSwarm_fails_before_testing (fuel : nat) (s : SwarmState)
  (saved : list SwarmState) :
  phase s = planning \/ phase s = executing ->
  exists p more,
    p <> refactoring
    /\ runSwarm (S fuel) s saved
       = Failed (mkError ("Invalid phase transition from " ++ phaseName p
                          ++ " to completing")%string) (saved ++ more).
Proof.
  intros Hs.
  assert (Hnc : phase s <> completing) by (destruct Hs as [-> | ->]; discriminate).
  simpl runSwarm. rewrite bool_decide_eq_false_2 by exact Hnc.
  unfold turn. simpl reduceState at 1.
  rewrite updateConfidence_computed.
  set (s1 := mkSwarmState _ _ _ _ _ _ _).
  assert (Hp1 : phase s1 = phase s) by reflexivity.
  destruct (shouldTransitionPhase_shape s1 noCriteria) as [d [Hd Hshape]].
  rewrite Hd.
  destruct Hshape as [[Hf Hn]|[p [Ht [Hn Hg]]]].
  - rewrite Hf.
    assert (Hr : phase s1 <> refactoring)
      by (rewrite Hp1; destruct Hs as [-> | ->]; discriminate).
    pose proof (turn_tail_error s1 Hr) as T.
    destruct (if (length (tasks s1) =? 0)%nat then _ else _) as [s3|e];
      [|contradiction].
    rewrite T. exists (phase s1), []. split; [exact Hr|reflexivity].
  - rewrite Ht, Hn.
    destruct (getNextPhase_valid s1 p Hg) as [_ Hv].
    simpl reduceState at 1. rewrite Hv.
    assert (Hr : phase (transitioned s1 p) <> refactoring).
    { simpl. unfold getNextPhase in Hg. rewrite Hp1 in Hg.
      destruct Hs as [E | E]; rewrite E in Hg.
      - injection Hg as <-. discriminate.
      - destruct (Num.ltb _ _); injection Hg as <-; discriminate. }
    pose proof (turn_tail_error (transitioned s1 p) Hr) as T.
    destruct (if (length (tasks (transitioned s1 p)) =? 0)%nat then _ else _)
      as [s3|e]; [|contradiction].
    rewrite T. exists (phase (transitioned s1 p)), [transitioned s1 p].
    split; [exact Hr|reflexivity].
Qed.

End ConductorLoop.

Section PhaseAdvanceWitnesses.

Import State Scenario Phases Conductor Samples.

Local Open Scope list_scope.

Lemma proposed_transition_is_accepted_witness :
  shouldTransitionPhase readyState noCriteria
  = ok (mkDecision true (Some executing) AllCriteriaMet)
  /\ shouldTransition (mkDecision true (Some executing) AllCriteriaMet) = true
  /\ exists p, nextPhase (mkDecision true (Some executing) AllCriteriaMet)
               = Some p
               /\ p <> completing
               /\ reduceState readyState (TRANSITION_PHASE p)
                  = ok (transitioned readyState p).
Proof.
  assert (H1 : shouldTransitionPhase readyState noCriteria
               = ok (mkDecision true (Some executing) AllCriteriaMet))
    by reflexivity.
  split; [exact H1|]. split; [reflexivity|].
  exact (proposed_transition_is_accepted readyState noCriteria _ H1 eq_refl).
Defined.

Lemma no_tasks_no_advance_witness :
  tasks freshState = []
  /\ exists d, shouldTransitionPhase freshState noCriteria = ok d
               /\ shouldTransition d = false /\ nextPhase d = None.
Proof.
  assert (H : tasks freshState = []) by reflexivity.
  split; [exact H|]. exact (no_tasks_no_advance freshState H).
Defined.

Lemma runSwarm_fails_before_testing_witness :
  (phase freshState = planning \/ phase freshState = executing)
  /\ exists p more,
       p <> refactoring
       /\ runSwarm 1 freshState []
          = Failed (mkError ("Invalid phase transition from " ++ phaseName p
                             ++ " to completing")%string) ([] ++ more).
Proof.
  assert (H : phase freshState = planning \/ phase freshState = executing)
    by (left; reflexivity).
  split; [exact H|].
  exact (runSwarm_fails_before_testing 0 freshState [] H).
Defined.

(** X11. A freshly created aggregate is in the phase planning with no
    task and no history; it has one agent per natural number below the
    requested count (none for a count of zero or less, rounded up for a
    fraction), each idle and without task, with the five agent types
    taken in turn; and the only transition it accepts is to executing. *)
Theorem createInitialState_shape (stateId : string) (genId : nat -> string)
  (context : string) (count : Q) :
  phase (InitialState.createInitialState stateId genId context count)
  = planning
  /\ tasks (InitialState.createInitialState stateId genId context count) = []
  /\ previousStates (InitialState.createInitialState stateId genId context count)
     = []
  /\ length (agents (InitialState.createInitialState stateId genId context count))
     = Z.to_nat (Qceiling count)
  /\ (forall i a,
        agents (InitialState.createInitialState stateId genId context count)
          !! i = Some a ->
        agent_id a = genId i /\ agent_status a = idle /\ currentTask a = None
        /\ Some (agent_type a) = InitialState.agentTypes !! (i mod 5)%nat)
  /\ forall p,
       isOk (transitionPhase
               (InitialState.createInitialState stateId genId context count) p)
       = true <-> p = executing.
Proof.
  unfold InitialState.createInitialState.
  cbn [phase tasks previousStates agents].
  split; [reflexivity|]. split; [reflexivity|]. split; [reflexivity|].
  split.
  - unfold InitialState.createInitialAgents. rewrite length_map, length_seq.
    reflexivity.
  - split.
    + intros i a H. unfold InitialState.createInitialAgents in H.
      rewrite list_lookup_fmap in H.
      destruct (seq 0 (InitialState.turns count) !! i) as [k|] eqn:E;
        [|discriminate].
      apply lookup_seq in E. destruct E as [-> _].
      cbn [fmap option_fmap option_map Nat.add] in H. injection H as <-.
      unfold InitialState.initialAgent.
      cbn [agent_id agent_status currentTask agent_type].
      split; [reflexivity|]. split; [reflexivity|]. split; [reflexivity|].
      change (length InitialState.agentTypes) with 5%nat.
      assert (Hm : (i mod 5 < 5)%nat)
        by (apply Nat.mod_upper_bound; discriminate).
      revert Hm. generalize (i mod 5)%nat. intros m Hm.
      destruct m as [|[|[|[|[|n]]]]]; try reflexivity. lia.
    + intros p. unfold transitionPhase. simpl.
      destruct p; simpl; split; intros H; try reflexivity; discriminate.
Qed.

End PhaseAdvanceWitnesses.

(** ** The repository: round trips and refusals *)

Section RepositoryRoundTrips.

Import SQLiteStateRepository MCPHandlers Scenario.

Local Open Scope list_scope.

Lemma getSession_app_other (db : DB) (row : SessionRow.t) (j : string) :
  SessionRow.id row <> j ->
  getSession (mkDB (sessions db ++ [row]) (sprints db) (artifacts db)
                (checkpoints db)) j
  = getSession db j.
Proof.
  intros Hj. unfold getSession. cbn [sessions]. rewrite selectById_app.
  destruct (selectById SessionRow.id j (sessions db)); [reflexivity|].
  simpl. rewrite bool_decide_eq_false_2 by exact Hj. reflexivity.
Qed.

(** X12. [createSession] with a fresh id succeeds and adds one row.  The
    session it returns carries the metadata as passed (the empty object
    for [undefined]); the session read back by [getSession] carries its
    JSON round trip, count 0, confidence 0, status active and both dates
    equal to the creation time.  No other session, sprint, artifact or
    checkpoint changes.  With an id already in use the call returns an
    error and leaves the repository as it was. *)
Theorem createSession_then_getSession (db : DB) (newId : string) (now : Date)
  (taskId : string) (metadata : value) :
  (hasId SessionRow.id newId (sessions db) = false ->
   exists db',
     createSession db newId now taskId metadata
     = (ok (Session.mk newId taskId 0 0 active now now None
              (match metadata with VUndefined => VObj [] | m => m end)), db')
     /\ getSession db' newId
        = ok (Some (Session.mk newId taskId 0 0 active now now None
                      (JSON.roundTrip
                         (match metadata with
                          | VUndefined => VObj []
                          | m => m
                          end))))
     /\ (forall j, j <> newId -> getSession db' j = getSession db j)
     /\ sprints db' = sprints db /\ artifacts db' = artifacts db
     /\ checkpoints db' = checkpoints db)
  /\ (hasId SessionRow.id newId (sessions db) = true ->
      exists e, createSession db newId now taskId metadata = (err e, db)).
Proof.
  unfold createSession. split; intros H; rewrite H.
  - eexists. split; [reflexivity|]. split.
    + unfold getSession. cbn [sessions]. rewrite selectById_app.
      unfold hasId in H.
      destruct (selectById SessionRow.id newId (sessions db)); [discriminate|].
      simpl. rewrite bool_decide_eq_true_2 by reflexivity. reflexivity.
    + split; [|repeat split].
      intros j Hj. apply getSession_app_other. simpl. congruence.
  - eexists. reflexivity.
Qed.

Lemma createSession_then_getSession_witness :
  hasId SessionRow.id "session-2" (sessions db1) = false
  /\ hasId SessionRow.id "session-1" (sessions db1) = true
  /\ (exists db',
        createSession db1 "session-2" t1 "build-ui" (VObj [("since", VDate t0)])
        = (ok (Session.mk "session-2" "build-ui" 0 0 active t1 t1 None
                 (VObj [("since", VDate t0)])), db')
        /\ getSession db' "session-2"
           = ok (Some (Session.mk "session-2" "build-ui" 0 0 active t1 t1 None
                         (VObj [("since", VStr "2023-11-14T22:13:20.000Z")])))
        /\ getSession db' "session-1" = getSession db1 "session-1")
  /\ exists e, createSession db1 "session-1" t1 "build-ui" VUndefined
               = (err e, db1).
Proof.
  assert (H1 : hasId SessionRow.id "session-2" (sessions db1) = false)
    by reflexivity.
  assert (H2 : hasId SessionRow.id "session-1" (sessions db1) = true)
    by reflexivity.
  split; [exact H1|]. split; [exact H2|]. split.
  - destruct (proj1 (createSession_then_getSession db1 "session-2" t1
                       "build-ui" (VObj [("since", VDate t0)])) H1)
      as [db' [E1 [E2 [E3 _]]]].
    exists db'. split; [exact E1|]. split; [exact E2|].
    apply E3. discriminate.
  - exact (proj2 (createSession_then_getSession db1 "session-1" t1 "build-ui"
                    VUndefined) H2).
Defined.

End RepositoryRoundTrips.

Section SortingAnyList.

Local Open Scope list_scope.

Context {A : Type} (key : A -> Z).

Lemma insertBy_Permutation (x : A) (l : list A) :
  Permutation (insertBy key x l) (x :: l).
Proof.
  induction l as [|y l IH]; simpl; [reflexivity|].
  destruct (key x <? key y)%Z; [reflexivity|].
  rewrite IH. apply perm_swap.
Qed.

Lemma orderBy_acc_Permutation (l acc : list A) :
  Permutation (fold_left (fun a x => insertBy key x a) l acc) (acc ++ l).
Proof.
  revert acc. induction l as [|x l IH]; intros acc; simpl.
  - rewrite app_nil_r. reflexivity.
  - rewrite IH, insertBy_Permutation.
    change (x :: acc ++ l) with ((x :: acc) ++ l).
    rewrite (Permutation_middle acc l x). reflexivity.
Qed.

(** Sorting rearranges: no row is lost, invented or repeated. *)
Lemma orderBy_Permutation (l : list A) : Permutation (orderBy key l) l.
Proof. unfold orderBy. rewrite orderBy_acc_Permutation. reflexivity. Qed.

Lemma insertBy_ascending (x : A) (l : list A) :
  ascending key l -> ascending key (insertBy key x l).
Proof.
  induction l as [|y l IH]; simpl.
  - intros _. split; [constructor|exact I].
  - intros [Hy Hl]. destruct (key x <? key y)%Z eqn:E.
    + apply Z.ltb_lt in E. simpl. split; [|split; assumption].
      constructor; [lia|].
      eapply Forall_impl; [exact Hy|]. simpl. intros z Hz. lia.
    + apply Z.ltb_ge in E. simpl. split; [|exact (IH Hl)].
      apply List.Forall_forall. intros z Hz.
      apply insertBy_In in Hz. destruct Hz as [->|Hz]; [exact E|].
      rewrite List.Forall_forall in Hy. exact (Hy z Hz).
Qed.

Lemma orderBy_acc_sorted (l acc : list A) :
  ascending key acc ->
  ascending key (fold_left (fun a x => insertBy key x a) l acc).
Proof.
  revert acc. induction l as [|x l IH]; intros acc Hacc; simpl; [exact Hacc|].
  apply IH. apply insertBy_ascending. exact Hacc.
Qed.

(** Sorting sorts, whatever the list. *)
Lemma orderBy_sorted (l : list A) : ascending key (orderBy key l).
Proof. unfold orderBy. apply orderBy_acc_sorted. exact I. Qed.

Lemma ascending_map {B} (f : B -> A) (l : list B) :
  ascending (fun b => key (f b)) l -> ascending key (map f l).
Proof.
  induction l as [|b l IH]; simpl; [auto|].
  intros [Hb Hl]. split; [|exact (IH Hl)].
  apply List.Forall_forall. intros y Hy. apply in_map_iff in Hy.
  destruct Hy as [b' [<- Hb']]. rewrite List.Forall_forall in Hb.
  exact (Hb b' Hb').
Qed.

End SortingAnyList.

Section RepositoryListings.

Import SQLiteStateRepository MCPHandlers Scenario.

Local Open Scope list_scope.

(** The listing of a session's sprints ascends by number. *)
Lemma getSprintsBySession_ascending (db : DB) (sid : string)
  (l : list Sprint.t) :
  getSprintsBySession db sid = ok l -> ascending Sprint.sprintNumber l.
Proof.
  unfold getSprintsBySession, sprintRowsOf. intros H. injection H as <-.
  apply (ascending_map Sprint.sprintNumber sprintOfRow).
  apply (orderBy_sorted SprintRow.sprint_number).
Qed.

(** X13. On every repository [getSprintsBySession] returns exactly the
    sprints whose session is the one asked for, each once, in ascending
    order of sprint number, whatever the order of insertion. *)
Theorem getSprintsBySession_sorted (db : DB) (sid : string) :
  exists l,
    getSprintsBySession db sid = ok l
    /\ ascending Sprint.sprintNumber l
    /\ Permutation l
         (map sprintOfRow
            (filter (fun r => SprintRow.session_id r = sid) (sprints db)))
    /\ Forall (fun s => Sprint.sessionId s = sid) l
    /\ Z.of_nat (length l) = countSprints db sid.
Proof.
  unfold getSprintsBySession, sprintRowsOf. eexists. split; [reflexivity|].
  assert (P : Permutation
                (map sprintOfRow
                   (orderBy SprintRow.sprint_number
                      (filter (fun r => SprintRow.session_id r = sid)
                         (sprints db))))
                (map sprintOfRow
                   (filter (fun r => SprintRow.session_id r = sid)
                      (sprints db)))).
  { apply Permutation_map. apply orderBy_Permutation. }
  split; [|split; [exact P|split]].
  - apply (getSprintsBySession_ascending db sid). reflexivity.
  - apply List.Forall_forall. intros s Hs.
    apply (Permutation_in _ P) in Hs. apply in_map_iff in Hs.
    destruct Hs as [row [<- Hrow]]. apply filter_In_elim in Hrow.
    exact (proj2 Hrow).
  - rewrite (Permutation_length P), length_map. reflexivity.
Qed.

End RepositoryListings.

Section RepositoryWrites.

Import SQLiteStateRepository MCPHandlers Scenario.

Local Open Scope list_scope.

Lemma hasId_selectById {R} (rowId : R -> string) (i : string) (rows : list R) :
  hasId rowId i rows = false <-> selectById rowId i rows = None.
Proof.
  unfold hasId. destruct (selectById rowId i rows); split; congruence.
Qed.

(** X14. [createSprint] for a session that does not exist returns an
    error; whenever it returns an error the repository is as it was; and
    when it succeeds the session exists, the id was fresh, the sprint has
    the number count + 1, status planning and confidence 0, exactly one
    row was appended, and the count of the session grew by one.  The
    returned sprint carries the time of the call as [startedAt], the row
    the storage time. *)
Theorem createSprint_effect (db : DB) (newId : string) (ts now : Date)
  (sid objective : string) :
  (hasId SessionRow.id sid (sessions db) = false ->
   exists e, createSprint db newId ts now sid objective = (err e, db))
  /\ (forall e db', createSprint db newId ts now sid objective = (err e, db') ->
        db' = db)
  /\ (forall s db', createSprint db newId ts now sid objective = (ok s, db') ->
        hasId SessionRow.id sid (sessions db) = true
        /\ hasId SprintRow.id newId (sprints db) = false
        /\ s = Sprint.mk newId sid (countSprints db sid + 1) objective 0
                 sprint_planning now None None
        /\ db' = mkDB (sessions db)
                   (sprints db
                    ++ [SprintRow.mk newId sid (countSprints db sid + 1)
                          objective 0 sprint_planning ts None None])
                   (artifacts db) (checkpoints db)
        /\ countSprints db' sid = (countSprints db sid + 1)%Z).
Proof.
  unfold createSprint, sprintInsertError. cbn [SprintRow.id SprintRow.session_id].
  split; [|split].
  - intros H. rewrite H. cbn [negb].
    destruct (hasId SprintRow.id newId (sprints db));
      [eexists; reflexivity|].
    destruct (existsb _ (sprints db)); eexists; reflexivity.
  - intros e db'.
    destruct (hasId SprintRow.id newId (sprints db));
      [intros H; injection H as _ <-; reflexivity|].
    destruct (existsb _ (sprints db));
      [intros H; injection H as _ <-; reflexivity|].
    destruct (negb _); [intros H; injection H as _ <-; reflexivity|].
    discriminate.
  - intros s db'.
    destruct (hasId SprintRow.id newId (sprints db)); [discriminate|].
    destruct (existsb _ (sprints db)); [discriminate|].
    destruct (hasId SessionRow.id sid (sessions db)); [|discriminate].
    cbn [negb]. intros H. injection H as <- <-.
    repeat split.
    unfold countSprints. cbn [sprints]. rewrite filter_app, length_app.
    rewrite (filter_cons_True _ _ []) by reflexivity.
    rewrite filter_nil. simpl length. lia.
Qed.

Lemma createSprint_effect_witness :
  hasId SessionRow.id "session-9" (sessions db2) = false
  /\ (exists e, createSprint db2 "sprint-2" t2 t3 "session-9" "build"
                = (err e, db2))
  /\ createSprint db2 "sprint-2" t2 t3 "session-1" "build"
     = (ok (Sprint.mk "sprint-2" "session-1" 2 "build" 0 sprint_planning t3
              None None),
        snd (createSprint db2 "sprint-2" t2 t3 "session-1" "build"))
  /\ countSprints (snd (createSprint db2 "sprint-2" t2 t3 "session-1" "build"))
       "session-1" = (countSprints db2 "session-1" + 1)%Z.
Proof.
  assert (H1 : hasId SessionRow.id "session-9" (sessions db2) = false)
    by reflexivity.
  assert (H2 : createSprint db2 "sprint-2" t2 t3 "session-1" "build"
               = (ok (Sprint.mk "sprint-2" "session-1" 2 "build" 0
                        sprint_planning t3 None None),
                  snd (createSprint db2 "sprint-2" t2 t3 "session-1" "build")))
    by reflexivity.
  destruct (createSprint_effect db2 "sprint-2" t2 t3 "session-9" "build")
    as [A _].
  destruct (createSprint_effect db2 "sprint-2" t2 t3 "session-1" "build")
    as [_ [_ C]].
  split; [exact H1|]. split; [exact (A H1)|]. split; [exact H2|].
  destruct (C _ _ H2) as [_ [_ [_ [_ C5]]]]. exact C5.
Defined.

Lemma sprintNumbers_updateById (db : DB) (i : string) (u : PartialSprint.t)
  (sid : string) :
  sprintNumbers
    (mkDB (sessions db)
       (updateById SprintRow.id i (patchedSprintRow u) (sprints db))
       (artifacts db) (checkpoints db)) sid
  = sprintNumbers db sid.
Proof.
  unfold sprintNumbers, updateById. cbn [sprints].
  induction (sprints db) as [|r rows IH]; [reflexivity|].
  cbn [map]. rewrite !filter_cons.
  assert (E : SprintRow.session_id
                (if bool_decide (SprintRow.id r = i)
                 then patchedSprintRow u r else r)
              = SprintRow.session_id r)
    by (destruct (bool_decide _); reflexivity).
  assert (N : SprintRow.sprint_number
                (if bool_decide (SprintRow.id r = i)
                 then patchedSprintRow u r else r)
              = SprintRow.sprint_number r)
    by (destruct (bool_decide _); reflexivity).
  destruct (decide (SprintRow.session_id r = sid)) as [Hs|Hs];
    destruct (decide (SprintRow.session_id _ = sid)) as [Hs'|Hs'];
    try (rewrite E in Hs'; contradiction).
  - cbn [map]. rewrite N, IH. reflexivity.
  - exact IH.
Qed.

Lemma sprintNumbers_updateSprint (db : DB) (i : string) (u : PartialSprint.t)
  (sid : string) :
  sprintNumbers (snd (updateSprint db i u)) sid = sprintNumbers db sid.
Proof.
  destruct (PartialSprint.completedAt u) as [d|] eqn:Hc.
  - rewrite (updateSprint_date db i u d Hc). reflexivity.
  - destruct (sprintAssignments u) as [|f fs] eqn:E.
    + unfold updateSprint. rewrite E. reflexivity.
    + rewrite updateSprint_unfold
        by first [exact Hc | rewrite E; discriminate].
      cbv zeta.
      destruct (selectById _ _ _); cbn [snd]; apply sprintNumbers_updateById.
Qed.



End RepositoryWrites.

Section Artifacts.

Import SQLiteStateRepository MCPHandlers Scenario.

Local Open Scope list_scope.

(** X16. [saveArtifact] for an existing sprint and a fresh id returns the
    artifact as passed, under the [sprintId] argument (the [sprintId]
    inside the artifact is overridden), and adds one row to the listing
    of that sprint.  The stored row differs from the returned object: an
    empty content or checksum is stored as [null], and its creation time
    is the storage time, not the time in the returned object.  For a
    sprint that does not exist the call returns an error and changes
    nothing. *)
Theorem saveArtifact_stored (db : DB) (newId : string) (ts now : Date)
  (sprintId : string) (a : ArtifactInput.t) :
  (hasId ArtifactRow.id newId (artifacts db) = false ->
   hasId SprintRow.id sprintId (sprints db) = true ->
   exists db' l,
     saveArtifact db newId ts now sprintId a
     = (ok (Artifact.mk newId sprintId (ArtifactInput.type a)
              (ArtifactInput.path a) (ArtifactInput.content a)
              (ArtifactInput.checksum a) now), db')
     /\ getArtifactsBySprint db' sprintId = ok l
     /\ In (Artifact.mk newId sprintId (ArtifactInput.type a)
              (ArtifactInput.path a) (orNull (ArtifactInput.content a))
              (orNull (ArtifactInput.checksum a)) ts) l
     /\ (forall l0, getArtifactsBySprint db sprintId = ok l0 ->
                    length l = S (length l0))
     /\ sessions db' = sessions db /\ sprints db' = sprints db
     /\ checkpoints db' = checkpoints db)
  /\ (hasId SprintRow.id sprintId (sprints db) = false ->
      exists e, saveArtifact db newId ts now sprintId a = (err e, db)).
Proof.
  unfold saveArtifact. split.
  - intros H1 H2. rewrite H1, H2. cbn [negb].
    eexists; eexists. split; [reflexivity|]. split; [reflexivity|].
    cbn [artifacts]. rewrite filter_app.
    rewrite (filter_cons_True _ _ []) by reflexivity. rewrite filter_nil.
    set (row := ArtifactRow.mk newId sprintId _ _ _ _ ts).
    set (old := filter (fun r => ArtifactRow.sprint_id r = sprintId)
                  (artifacts db)).
    pose proof (orderBy_Permutation (fun r => time (ArtifactRow.created_at r))
                  (old ++ [row])) as P.
    split; [|split; [|repeat split]].
    + apply in_map_iff. exists row. split; [reflexivity|].
      apply (Permutation_in _ (Permutation_sym P)).
      apply in_or_app. right. left. reflexivity.
    + intros l0 H0. unfold getArtifactsBySprint in H0. injection H0 as <-.
      subst old row. rewrite !length_map.
      rewrite !(Permutation_length (orderBy_Permutation _ _)).
      rewrite length_app. simpl. lia.
  - intros H. rewrite H. cbn [negb].
    destruct (hasId ArtifactRow.id newId (artifacts db)); eexists; reflexivity.
Qed.

Lemma saveArtifact_stored_witness :
  hasId ArtifactRow.id "artifact-2" (artifacts db3) = false
  /\ hasId SprintRow.id "sprint-1" (sprints db3) = true
  /\ hasId SprintRow.id "sprint-9" (sprints db3) = false
  /\ (exists db' l,
        saveArtifact db3 "artifact-2" t2 t3 "sprint-1"
          (ArtifactInput.mk "sprint-9" command "bun test" (Some "") None)
        = (ok (Artifact.mk "artifact-2" "sprint-1" command "bun test" (Some "")
                 None t3), db')
        /\ getArtifactsBySprint db' "sprint-1" = ok l
        /\ In (Artifact.mk "artifact-2" "sprint-1" command "bun test" None None
                 t2) l)
  /\ exists e,
       saveArtifact db3 "artifact-2" t2 t3 "sprint-9"
         (ArtifactInput.mk "sprint-9" command "bun test" (Some "") None)
       = (err e, db3).
Proof.
  assert (H1 : hasId ArtifactRow.id "artifact-2" (artifacts db3) = false)
    by reflexivity.
  assert (H2 : hasId SprintRow.id "sprint-1" (sprints db3) = true)
    by reflexivity.
  assert (H3 : hasId SprintRow.id "sprint-9" (sprints db3) = false)
    by reflexivity.
  split; [exact H1|]. split; [exact H2|]. split; [exact H3|]. split.
  - destruct (proj1 (saveArtifact_stored db3 "artifact-2" t2 t3 "sprint-1"
                       (ArtifactInput.mk "sprint-9" command "bun test"
                          (Some "") None)) H1 H2)
      as [db' [l [E1 [E2 [E3 _]]]]].
    exists db', l. split; [exact E1|]. split; [exact E2|exact E3].
  - exact (proj2 (saveArtifact_stored db3 "artifact-2" t2 t3 "sprint-9"
                    (ArtifactInput.mk "sprint-9" command "bun test" (Some "")
                       None)) H3).
Defined.

End Artifacts.

Section NumberingInvariant.

Import SQLiteStateRepository MCPHandlers Scenario.

Local Open Scope list_scope.

Lemma numbered_same (db db' : DB) (sid : string) :
  sprintNumbers db' sid = sprintNumbers db sid ->
  numbered db sid -> numbered db' sid.
Proof. unfold numbered. intros ->. auto. Qed.

Lemma sprintNumbers_sprints (db db' : DB) (sid : string) :
  sprints db' = sprints db -> sprintNumbers db' sid = sprintNumbers db sid.
Proof. unfold sprintNumbers. intros ->. reflexivity. Qed.

Lemma numbered_createSprint (db : DB) (newId : string) (ts now : Date)
  (sid' objective sid : string) :
  numbered db sid ->
  numbered (snd (createSprint db newId ts now sid' objective)) sid.
Proof.
  intros Hnum. destruct (decide (sid' = sid)) as [->|Hne].
  - unfold createSprint. destruct (sprintInsertError db _); [exact Hnum|].
    cbn [snd]. unfold numbered.
    rewrite (sprintNumbers_snoc db
               (SprintRow.mk newId sid (countSprints db sid + 1) objective 0
                  sprint_planning ts None None) sid eq_refl).
    cbn [SprintRow.sprint_number]. rewrite length_app. simpl length.
    rewrite Nat.add_1_r. rewrite <- countFrom_snoc.
    rewrite <- Hnum. rewrite countSprints_length. f_equal. f_equal. lia.
  - eapply numbered_same; [|exact Hnum].
    apply createSprint_other_session. exact Hne.
Qed.

Lemma updateSession_sprints (db : DB) (ts : Date) (i : string)
  (u : PartialSession.t) :
  sprints (snd (updateSession db ts i u)) = sprints db.
Proof.
  unfold updateSession. destruct (sessionAssignments u); [reflexivity|].
  destruct (bindAll _); reflexivity.
Qed.

Lemma numbered_handleSprint (db : DB) (params : SprintParams) (env : SprintEnv)
  (sid : string) :
  numbered db sid -> numbered (snd (handleSprint db params env)) sid.
Proof.
  intros Hnum. unfold handleSprint.
  destruct (Str.present (sp_session_id params)) as [s|]; [|exact Hnum].
  destruct (getSession db s) as [[session|]|]; try exact Hnum.
  destruct (negb (bool_decide _)); [exact Hnum|].
  match goal with
  | |- context [createSprint ?d ?i ?t ?n ?s ?o] =>
      pose proof (numbered_createSprint d i t n s o sid Hnum) as Hc;
      destruct (createSprint d i t n s o) as [[sprint|e1] dbc]
  end; cbn [snd] in Hc; [|exact Hc].
  destruct (negb (JSON.indexable _)).
  { cbn [snd]. eapply numbered_same; [|exact Hc].
    apply sprintNumbers_updateSprint. }
  destruct (runSwarm env _ _) as [r|e2]; cbv beta iota zeta; cbn [snd].
  - eapply numbered_same; [|exact Hc].
    rewrite (sprintNumbers_sprints _ _ sid (updateSession_sprints _ _ _ _)).
    rewrite !sprintNumbers_updateSprint. reflexivity.
  - eapply numbered_same; [|exact Hc].
    rewrite !sprintNumbers_updateSprint. reflexivity.
Qed.

Lemma numbered_applyMutation (db : DB) (m : Mutation) (sid : string) :
  numbered db sid -> numbered (applyMutation db m) sid.
Proof.
  intros Hnum. destruct m; simpl.
  - eapply numbered_same; [|exact Hnum]. apply sprintNumbers_sprints.
    unfold createSession. destruct (hasId _ _ _); reflexivity.
  - eapply numbered_same; [|exact Hnum]. apply sprintNumbers_sprints.
    apply updateSession_sprints.
  - apply numbered_createSprint. exact Hnum.
  - eapply numbered_same; [|exact Hnum]. apply sprintNumbers_updateSprint.
  - eapply numbered_same; [|exact Hnum]. apply sprintNumbers_sprints.
    unfold saveArtifact. destruct (hasId _ _ _); [reflexivity|].
    destruct (negb _); reflexivity.
  - eapply numbered_same; [|exact Hnum]. apply sprintNumbers_sprints.
    unfold createCheckpoint. destruct (hasId _ _ _); [reflexivity|].
    destruct (_ || _); reflexivity.
  - apply numbered_handleSprint. exact Hnum.
  - eapply numbered_same; [|exact Hnum]. apply sprintNumbers_sprints.
    unfold handleCheckpoint.
    destruct (Str.present (cp_session_id params)) as [s|]; [|reflexivity].
    destruct (Str.present (cp_name params)) as [nm|]; [|reflexivity].
    destruct (getSession db s) as [[session|]|]; try reflexivity.
    destruct (getSprintsBySession db s) as [l|]; [|reflexivity].
    destruct (last l) as [cur|]; [|reflexivity].
    unfold createCheckpoint. destruct (hasId _ _ _); [reflexivity|].
    destruct (_ || _); reflexivity.
  - eapply numbered_same; [|exact Hnum]. apply sprintNumbers_sprints.
    unfold handleCancel. destruct (Str.present _); [|reflexivity].
    match goal with
    | |- context [updateSession ?d ?t ?i ?u] =>
        pose proof (updateSession_sprints d t i u) as Hu;
        destruct (updateSession d t i u)
    end. exact Hu.
Qed.

(** X17. Sprint numbers stay in sequence under every write.  Starting
    from the empty repository, after any sequence of repository writes
    and of sprint, checkpoint and cancel requests, successful or not
    (retention cleanup, which deletes, apart), the sprints of every
    session are numbered 1, 2, ..., n in insertion order, without gap or
    duplicate, and [getSprintsBySession] lists them so. *)
Theorem sprint_numbers_stay_in_sequence (ms : list Mutation) (sid : string) :
  numbered (applyMutations emptyDB ms) sid
  /\ exists l,
       getSprintsBySession (applyMutations emptyDB ms) sid = ok l
       /\ map Sprint.sprintNumber l
          = countFrom 1 (Z.to_nat (countSprints (applyMutations emptyDB ms) sid)).
Proof.
  assert (H : forall db, numbered db sid -> numbered (applyMutations db ms) sid).
  { induction ms as [|m ms IH]; intros db Hnum; [exact Hnum|].
    simpl. apply IH. apply numbered_applyMutation. exact Hnum. }
  assert (Hnum : numbered (applyMutations emptyDB ms) sid)
    by (apply H; reflexivity).
  split; [exact Hnum|].
  destruct (getSprintsBySession_numbered _ sid Hnum) as [l [E1 E2]].
  exists l. split; [exact E1|].
  rewrite E2. rewrite countSprints_length, Nat2Z.id. exact Hnum.
Qed.

End NumberingInvariant.

Section SprintMethodCompleted.

Import SQLiteStateRepository MCPHandlers Scenario.

Local Open Scope list_scope.

Lemma getSession_hasId (db : DB) (sid : string) (session : Session.t) :
  getSession db sid = ok (Some session) ->
  hasId SessionRow.id sid (sessions db) = true.
Proof.
  unfold getSession, hasId.
  destruct (selectById SessionRow.id sid (sessions db)); [reflexivity|].
  discriminate.
Qed.

Lemma getSession_sessions (db db' : DB) (sid : string) :
  sessions db' = sessions db -> getSession db' sid = getSession db sid.
Proof. unfold getSession. intros ->. reflexivity. Qed.

Lemma updateSession_other_tables (db : DB) (ts : Date) (i : string)
  (u : PartialSession.t) :
  sprints (snd (updateSession db ts i u)) = sprints db
  /\ artifacts (snd (updateSession db ts i u)) = artifacts db.
Proof.
  unfold updateSession. destruct (sessionAssignments u); [split; reflexivity|].
  destruct (bindAll _); split; reflexivity.
Qed.

Lemma updateSprint_artifacts (db : DB) (i : string) (u : PartialSprint.t) :
  artifacts (snd (updateSprint db i u)) = artifacts db.
Proof.
  unfold updateSprint. destruct (sprintAssignments u); [reflexivity|].
  destruct (bindAll _); [|reflexivity].
  simpl. destruct (selectById _ _ _); reflexivity.
Qed.

(** X18. The completed path of the sprint method.  For an active
    session (with object metadata), a fresh sprint id and sprints
    numbered in sequence, when the swarm runs and returns a result, the
    method answers "completed" with the outcome-based confidence, and the
    session gets sprintCount + 1 and that confidence, staying active.
    The sprint itself is not stored as completed: the update that would
    store its status, confidence, completion time and result supplies a
    [Date] as completedAt, fails on the binding and is not looked at, so
    the new sprint stays stored with the next number as executing, with
    confidence 0, no completion time and no result.  A swarm that exited
    with a failure takes this same path, with confidence 0. *)
Theorem handleSprint_completed (db : DB) (params : SprintParams)
  (env : SprintEnv) (sid : string) (session : Session.t)
  (fields : list (string * value)) (r : SwarmResult) :
  Str.present (sp_session_id params) = Some sid ->
  getSession db sid = ok (Some session) ->
  Session.metadata session = VObj fields ->
  Session.status session = active ->
  hasId SprintRow.id (newSprintId env) (sprints db) = false ->
  numbered db sid ->
  (forall task options, runSwarm env task options = ok r) ->
  exists db' resp row,
    handleSprint db params env = (ok resp, db')
    /\ sprint_id resp = newSprintId env
    /\ sprint_number resp = (countSprints db sid + 1)%Z
    /\ response_status resp = "completed"
    /\ response_confidence resp = calculateConfidence r
    /\ (success r = false -> response_confidence resp = 0%Q)
    /\ selectById SprintRow.id (newSprintId env) (sprints db') = Some row
    /\ SprintRow.session_id row = sid
    /\ SprintRow.sprint_number row = (countSprints db sid + 1)%Z
    /\ SprintRow.status row = sprint_executing
    /\ SprintRow.confidence row = 0%Q
    /\ SprintRow.completed_at row = None
    /\ SprintRow.result row = None
    /\ getSession db' sid
       = ok (Some (Session.mk sid (Session.taskId session)
                     (Session.sprintCount session + 1) (calculateConfidence r)
                     active (Session.startedAt session) (sessionUpdatedAt env)
                     (Session.completedAt session) (Session.metadata session)))
    /\ artifacts db' = artifacts db /\ checkpoints db' = checkpoints db.
Proof.
  intros Hsid Hget Hmeta Hactive Hfresh Hnum Hswarm.
  pose proof (getSession_hasId db sid session Hget) as Hs.
  assert (Hid : Session.id session = sid).
  { unfold getSession in Hget.
    destruct (selectById SessionRow.id sid (sessions db)) as [row|] eqn:E;
      [|discriminate].
    injection Hget as <-. exact (selectById_id _ _ _ _ E). }
  assert (Hix : JSON.indexable (Session.metadata session) = true)
    by (rewrite Hmeta; reflexivity).
  unfold handleSprint. rewrite Hsid, Hget, Hactive.
  rewrite bool_decide_eq_true_2 by reflexivity. cbn [negb]. cbv iota.
  match goal with
  | |- context [createSprint db ?i ?t ?n ?s ?o] =>
      rewrite (createSprint_ok db i t n s o Hs Hfresh Hnum)
  end.
  rewrite Hix. cbn [negb]. cbv iota.
  rewrite Hswarm. cbv beta iota zeta. cbn [Sprint.id Sprint.sprintNumber].
  set (c := calculateConfidence r).
  set (row0 := SprintRow.mk (newSprintId env) sid (countSprints db sid + 1) _
                 0 sprint_planning (insertedAt env) None None).
  set (dbc := mkDB (sessions db) (sprints db ++ [row0]) (artifacts db)
                (checkpoints db)).
  set (u1 := PartialSprint.mk None None None None None (Some sprint_executing)
               None None None).
  set (u2 := PartialSprint.mk None None None None (Some c)
               (Some sprint_completed) None (Some (finishedAt env)) _).
  set (us := PartialSession.mk None None (Some (Session.sprintCount session + 1)%Z)
               (Some c) None None None None None).
  assert (H0 : selectById SprintRow.id (newSprintId env) (sprints dbc)
               = Some row0).
  { unfold dbc; cbn [sprints]. rewrite selectById_app.
    apply hasId_selectById in Hfresh. rewrite Hfresh.
    simpl. rewrite bool_decide_eq_true_2 by reflexivity. reflexivity. }
  assert (H1 : selectById SprintRow.id (newSprintId env)
                 (sprints (snd (updateSprint dbc (newSprintId env) u1)))
               = Some (patchedSprintRow u1 row0))
    by (apply updateSprint_existing; [exact H0|reflexivity|discriminate]).
  rewrite (updateSprint_date (snd (updateSprint dbc (newSprintId env) u1))
             (newSprintId env) u2 (finishedAt env) eq_refl).
  cbn [snd].
  set (db3 := snd (updateSprint dbc (newSprintId env) u1)) in *.
  assert (Hsess3 : sessions db3 = sessions db).
  { unfold db3. rewrite !updateSprint_sessions. reflexivity. }
  assert (Hne : sessionAssignments us <> []) by discriminate.
  eexists; eexists; exists (patchedSprintRow u1 row0).
  split; [reflexivity|].
  cbn [sprint_id sprint_number response_status response_confidence].
  do 4 (split; [reflexivity|]).
  split.
  { intros Hf. unfold c, calculateConfidence. rewrite Hf. reflexivity. }
  split.
  { rewrite (proj1 (updateSession_other_tables db3 _ sid us)). exact H1. }
  do 6 (split; [reflexivity|]).
  split.
  { destruct (updateSession_unfold db3 (sessionUpdatedAt env) sid us
                eq_refl Hne) as (set & Hkey & Hp & ->).
    cbn [snd].
    rewrite (getSession_after_update db3 sid set
               (patched (sessionUpdatedAt env) us) session Hkey Hp).
    - unfold patched, us. cbn. rewrite Hid, Hactive. reflexivity.
    - rewrite (getSession_sessions db db3 sid Hsess3). exact Hget. }
  split.
  - rewrite (proj2 (updateSession_other_tables db3 _ sid us)).
    unfold db3. rewrite !updateSprint_artifacts. reflexivity.
  - rewrite updateSession_checkpoints. unfold db3.
    rewrite !updateSprint_checkpoints. reflexivity.
Qed.

End SprintMethodCompleted.

Section SprintMethodAnswers.

Import SQLiteStateRepository MCPHandlers Scenario.

Local Open Scope list_scope.

(** What a successful answer of the sprint method is made of. *)
Lemma handleSprint_ok_inv (db : DB) (params : SprintParams) (env : SprintEnv)
  (resp : SprintResponse) :
  fst (handleSprint db params env) = ok resp ->
  exists sid session task options r,
    Str.present (sp_session_id params) = Some sid
    /\ getSession db sid = ok (Some session)
    /\ Session.status session = active
    /\ runSwarm env task options = ok r
    /\ response_status resp = "completed"
    /\ response_confidence resp = calculateConfidence r
    /\ response_duration resp = duration r
    /\ should_continue resp
       = Num.ltb (Fin (calculateConfidence r))
           (toNumber (JSON.orElse
                        (JSON.get (Session.metadata session)
                           "confidence_threshold")
                        (VNum (Fin (8 # 10))))).
Proof.
  unfold handleSprint.
  destruct (Str.present (sp_session_id params)) as [sid|]; [|discriminate].
  destruct (getSession db sid) as [[session|]|] eqn:Hget; try discriminate.
  destruct (bool_decide (Session.status session = active)) eqn:Hact;
    [|discriminate].
  apply bool_decide_eq_true in Hact. cbn [negb].
  destruct (createSprint db _ _ _ sid _) as [[sprint|e1] dbc]; [|discriminate].
  destruct (JSON.indexable (Session.metadata session)); cbn [negb];
    [|discriminate].
  destruct (runSwarm env _ _) as [r|e2] eqn:Hrun; [|discriminate].
  cbv beta iota zeta. cbn [fst]. intros H. injection H as <-.
  do 5 eexists. split; [reflexivity|]. split; [exact Hget|].
  split; [exact Hact|]. split; [exact Hrun|]. repeat split.
Qed.

(** X19. The [should_continue] flag of a successful sprint answer
    compares the confidence with the session's [confidence_threshold]
    when that is a finite number other than zero.  A threshold that is
    absent, [null] or 0 is replaced by 0.8: a threshold of 0 does not
    mean "never continue". *)
Theorem handleSprint_should_continue (db : DB) (params : SprintParams)
  (env : SprintEnv) (sid : string) (session : Session.t)
  (fields : list (string * value)) (resp : SprintResponse) :
  Str.present (sp_session_id params) = Some sid ->
  getSession db sid = ok (Some session) ->
  Session.metadata session = VObj fields ->
  fst (handleSprint db params env) = ok resp ->
  (forall t, JSON.lookup "confidence_threshold" fields = VNum (Fin t) ->
     ~ (t == 0)%Q ->
     (should_continue resp = true <-> (response_confidence resp < t)%Q))
  /\ (JSON.lookup "confidence_threshold" fields = VUndefined
      \/ JSON.lookup "confidence_threshold" fields = VNull
      \/ (exists t, JSON.lookup "confidence_threshold" fields = VNum (Fin t)
                    /\ (t == 0)%Q) ->
      (should_continue resp = true
       <-> (response_confidence resp < 8 # 10)%Q)).
Proof.
  intros Hsid Hget Hmeta Hok.
  destruct (handleSprint_ok_inv db params env resp Hok)
    as [sid' [session' [task [options [r [E1 [E2 [_ [_ [_ [Ec [_ Es]]]]]]]]]]]].
  rewrite Hsid in E1. injection E1 as <-.
  rewrite Hget in E2. injection E2 as <-.
  rewrite Hmeta in Es. cbn [JSON.get] in Es.
  rewrite Es, Ec. clear Es Ec.
  split.
  - intros t Ht Hnz. rewrite Ht. unfold JSON.orElse, JSON.truthy.
    assert (Hb : Qeq_bool t 0 = false).
    { destruct (Qeq_bool t 0) eqn:B; [|reflexivity].
      apply Qeq_bool_iff in B. contradiction. }
    rewrite Hb. cbn [negb toNumber]. apply ltb_Fin.
  - intros [H|[H|[t [H Hz]]]]; rewrite H; unfold JSON.orElse, JSON.truthy.
    + cbn [toNumber]. apply ltb_Fin.
    + cbn [toNumber]. apply ltb_Fin.
    + apply Qeq_bool_iff in Hz. rewrite Hz. cbn [negb toNumber]. apply ltb_Fin.
Qed.

(** X20. The cancel method stores nothing.  For every session id that
    is not empty, whether or not it names a session, the method answers
    that the session was cancelled and leaves the repository as it was:
    its update supplies a [Date] as completedAt and fails on the binding,
    and the test made on the result never fails.  So the session reads as
    before, and every later sprint request is answered as it would have
    been without the cancel: a session that was active is not refused. *)
Theorem cancel_stores_nothing (db : DB) (sid : string) (now ts : Date) :
  sid <> "" ->
  handleCancel db (Some sid) now ts
  = (ok (mkCancelResponse sid "Session cancelled successfully"), db)
  /\ getSession (snd (handleCancel db (Some sid) now ts)) sid
     = getSession db sid
  /\ forall params env,
       handleSprint (snd (handleCancel db (Some sid) now ts)) params env
       = handleSprint db params env.
Proof.
  intros Hne. rewrite (handleCancel_answer db sid now ts Hne). cbn [snd].
  split; [reflexivity|]. split; [reflexivity|]. intros; reflexivity.
Qed.

End SprintMethodAnswers.

Section CheckpointMethod.

Import SQLiteStateRepository MCPHandlers Scenario.

Local Open Scope list_scope.

Lemma ascending_last {A} (key : A -> Z) (l : list A) (x : A) :
  ascending key l -> last l = Some x ->
  Forall (fun y => (key y <= key x)%Z) l.
Proof.
  induction l as [|y l IH]; [discriminate|].
  intros [Hy Hl] Hlast. destruct l as [|z l'].
  - injection Hlast as <-. constructor; [lia|constructor].
  - change (last (y :: z :: l')) with (last (z :: l')) in Hlast.
    constructor; [|exact (IH Hl Hlast)].
    rewrite List.Forall_forall in Hy. apply Hy.
    apply list_elem_of_In. apply last_Some_elem_of. exact Hlast.
Qed.

(** X21. The checkpoint method writes at most one row.  When it returns
    an error the repository is as it was.  When it succeeds, the session
    exists and has a sprint, the id was fresh, exactly one checkpoint row
    was appended and nothing else changed; the row names the session and,
    as its sprint, the last of the listing: the sprint with the highest
    number.  It stores the name, the description ([null] when empty) and
    the JSON round trip of the captured state. *)
Theorem handleCheckpoint_effect (db : DB) (params : CheckpointParams)
  (env : CheckpointEnv) :
  (forall e db', handleCheckpoint db params env = (err e, db') -> db' = db)
  /\ (forall resp db', handleCheckpoint db params env = (ok resp, db') ->
        exists sid nm session l cur row,
          Str.present (cp_session_id params) = Some sid
          /\ Str.present (cp_name params) = Some nm
          /\ getSession db sid = ok (Some session)
          /\ getSprintsBySession db sid = ok l
          /\ last l = Some cur
          /\ Forall (fun s => (Sprint.sprintNumber s <= Sprint.sprintNumber cur)%Z) l
          /\ checkpoint_id resp = newCheckpointId env
          /\ db' = mkDB (sessions db) (sprints db) (artifacts db)
                     (checkpoints db ++ [row])
          /\ row = CheckpointRow.mk (newCheckpointId env) sid (Sprint.id cur) nm
                     (orNull (cp_description params))
                     (JSON.roundTrip
                        (capturedState session l (memoryState env)))
                     (checkpointInsertedAt env)
          /\ hasId CheckpointRow.id (newCheckpointId env) (checkpoints db)
             = false).
Proof.
  unfold handleCheckpoint. split.
  - intros e db'.
    destruct (Str.present (cp_session_id params)) as [sid|];
      [|intros H; injection H as _ <-; reflexivity].
    destruct (Str.present (cp_name params)) as [nm|];
      [|intros H; injection H as _ <-; reflexivity].
    destruct (getSession db sid) as [[session|]|];
      try (intros H; injection H as _ <-; reflexivity).
    destruct (getSprintsBySession db sid) as [l|];
      [|intros H; injection H as _ <-; reflexivity].
    destruct (last l) as [cur|];
      [|intros H; injection H as _ <-; reflexivity].
    unfold createCheckpoint.
    destruct (hasId CheckpointRow.id _ _);
      [intros H; injection H as _ <-; reflexivity|].
    destruct (_ || _); [intros H; injection H as _ <-; reflexivity|].
    discriminate.
  - intros resp db'.
    destruct (Str.present (cp_session_id params)) as [sid|]; [|discriminate].
    destruct (Str.present (cp_name params)) as [nm|]; [|discriminate].
    destruct (getSession db sid) as [[session|]|] eqn:Hget; try discriminate.
    destruct (getSprintsBySession db sid) as [l|] eqn:Hl; [|discriminate].
    destruct (last l) as [cur|] eqn:Hlast; [|discriminate].
    unfold createCheckpoint. cbn [CheckpointInput.sessionId CheckpointInput.sprintId
      CheckpointInput.name CheckpointInput.description CheckpointInput.state].
    destruct (hasId CheckpointRow.id _ _) eqn:Hfresh; [discriminate|].
    destruct (_ || _); [discriminate|].
    intros H. injection H as <- <-.
    exists sid, nm, session, l, cur. eexists.
    split; [reflexivity|]. split; [reflexivity|]. split; [exact Hget|].
    split; [exact Hl|]. split; [exact Hlast|].
    split; [|repeat split; exact Hfresh].
    exact (ascending_last Sprint.sprintNumber l cur
             (getSprintsBySession_ascending db sid l Hl) Hlast).
Qed.

End CheckpointMethod.

Section RestoreMemory.

Import SQLiteStateRepository MCPHandlers Scenario.

Local Open Scope list_scope.

(** The memory read back from a stored checkpoint state. *)
Lemma roundTrip_checkpointState_memory (session : Session.t)
  (sprints : list Sprint.t) (arts : list Artifact.t) (mem : value) :
  JSON.get (JSON.roundTrip (checkpointState session sprints arts mem)) "memory"
  = JSON.roundTrip mem.
Proof.
  unfold checkpointState, Session.toValue.
  cbn [JSON.roundTrip JSON.get JSON.lookup].
  rewrite !bool_decide_eq_false_2 by discriminate.
  destruct (JSON.roundTrip mem) eqn:E; cbn [JSON.lookup];
    try rewrite bool_decide_eq_true_2 by reflexivity; reflexivity.
Qed.

(** X22. What a restore writes to the external memory.  After a
    successful checkpoint, and whatever was written to the repository
    since, restoring it stores under the session id the JSON round trip
    of the memory value captured, when that is truthy.  When the memory
    could not be read at checkpoint time the checkpoint holds the empty
    object, which is truthy: the restore then overwrites the session's
    memory with the empty object. *)
Theorem restore_writes_memory_back (db : DB) (params : CheckpointParams)
  (env : CheckpointEnv) (sid nm : string) (session : Session.t)
  (sprints : list Sprint.t) :
  Str.present (cp_session_id params) = Some sid ->
  Str.present (cp_name params) = Some nm ->
  getSession db sid = ok (Some session) ->
  getSprintsBySession db sid = ok sprints ->
  sprints <> [] ->
  newCheckpointId env <> "" ->
  hasId CheckpointRow.id (newCheckpointId env) (checkpoints db) = false ->
  forall ms,
    snd (handleRestore
           (applyMutations (snd (handleCheckpoint db params env)) ms)
           (Some (newCheckpointId env)))
    = match memoryState env with
      | ok v => if JSON.truthy (JSON.roundTrip v)
                then [(sid, JSON.roundTrip v)] else []
      | err _ => [(sid, VObj [])]
      end.
Proof.
  intros Hsid Hnm Hget Hsprints Hne Hid Hfresh ms.
  unfold handleCheckpoint. rewrite Hsid, Hnm, Hget, Hsprints.
  destruct (last sprints) as [cur|] eqn:Hlast;
    [|apply last_None in Hlast; contradiction].
  pose proof (getSession_hasId db sid session Hget) as Hs.
  pose proof (listed_sprint_exists db sid sprints cur Hsprints Hlast) as Hp.
  match goal with
  | |- context [createCheckpoint db ?i ?t ?n ?c] =>
      rewrite (createCheckpoint_ok db i t n c Hfresh Hs Hp)
  end.
  cbn [snd]. unfold handleRestore at 1, Str.present.
  rewrite bool_decide_eq_false_2 by exact Hid.
  match goal with
  | |- context [applyMutations (mkDB _ _ _ (_ ++ [?row])) ms] =>
      rewrite (loadCheckpoint_stable _ ms (newCheckpointId env) row)
  end.
  - cbn [snd checkpointOfRow Checkpoint.state Checkpoint.sessionId
         CheckpointRow.state CheckpointRow.session_id CheckpointInput.state
         CheckpointInput.sessionId].
    unfold capturedState. rewrite roundTrip_checkpointState_memory.
    destruct (memoryState env) as [v|e]; reflexivity.
  - cbn [checkpoints]. rewrite selectById_app.
    apply hasId_selectById in Hfresh. rewrite Hfresh.
    cbn [selectById CheckpointRow.id].
    rewrite bool_decide_eq_true_2 by reflexivity. reflexivity.
Qed.

End RestoreMemory.

Section InitAndStatus.

Import SQLiteStateRepository MCPHandlers Scenario SessionHandlers.

Local Open Scope list_scope.

Lemma roundTrip_orDefault_defined (v d : value) :
  d <> VUndefined -> JSON.roundTrip (orDefault v d) <> VUndefined.
Proof.
  intros Hd. destruct v as [| |b|[q| | |]|s|t|l|l]; simpl; try discriminate.
  destruct d as [| |b|[q| | |]|s|t|l|l]; simpl; try discriminate.
  contradiction.
Qed.

(** The threshold that the sprint method reads back from the metadata of
    a session made by [handleInit]. *)
Lemma initMetadata_threshold (params : InitParams) :
  JSON.get (JSON.roundTrip (initMetadataOf params)) "confidence_threshold"
  = JSON.roundTrip (orDefault (ip_confidence_threshold params)
                      (VNum (Fin (8 # 10)))).
Proof.
  unfold initMetadataOf. cbn [JSON.roundTrip JSON.get].
  pose proof (roundTrip_orDefault_defined (ip_confidence_threshold params)
                (VNum (Fin (8 # 10))) ltac:(discriminate)) as H.
  destruct (JSON.roundTrip (orDefault (ip_confidence_threshold params) _));
    try contradiction; cbn [JSON.lookup];
    rewrite bool_decide_eq_true_2 by reflexivity; reflexivity.
Qed.

(** X23. Init, then status.  [handleInit] with a task and a fresh
    generated id creates the session, stores the initial state in the
    memory under the session id, and answers "initialized".  The session
    read back is active with count 0 and confidence 0, and its metadata
    is the JSON round trip of the three settings with their defaults
    (a default applies to [undefined] only; a threshold that is not
    finite is stored as [null]).  [handleStatus] then reports exactly
    these values.  No other session, sprint or checkpoint changes. *)
Theorem handleInit_then_status (db : DB) (params : InitParams) (env : InitEnv)
  (task : string) :
  Str.present (ip_task params) = Some task ->
  newSessionId env <> "" ->
  hasId SessionRow.id (newSessionId env) (sessions db) = false ->
  exists db' mem,
    handleInit db params env
    = (ok (mkInitResponse (newSessionId env) "initialized"
             ("Session " ++ newSessionId env ++ " created for task: " ++ task)%string),
       db', [(newSessionId env, mem)])
    /\ JSON.get mem "task" = VStr task
    /\ getSession db' (newSessionId env)
       = ok (Some (Session.mk (newSessionId env) task 0 0 active
                     (sessionCreatedAt env) (sessionCreatedAt env) None
                     (JSON.roundTrip (initMetadataOf params))))
    /\ JSON.get (JSON.roundTrip (initMetadataOf params)) "confidence_threshold"
       = JSON.roundTrip (orDefault (ip_confidence_threshold params)
                           (VNum (Fin (8 # 10))))
    /\ handleStatus db' (Some (newSessionId env)) VUndefined
       = ok (mkStatusResponse (newSessionId env) task active 0 0
               (sessionCreatedAt env) (sessionCreatedAt env) None)
    /\ (forall j, j <> newSessionId env -> getSession db' j = getSession db j)
    /\ sprints db' = sprints db /\ checkpoints db' = checkpoints db.
Proof.
  intros Htask Hid Hfresh. unfold handleInit. rewrite Htask.
  assert (Hc : createSession db (newSessionId env) (sessionCreatedAt env) task
                 (initMetadataOf params)
               = (ok (Session.mk (newSessionId env) task 0 0 active
                        (sessionCreatedAt env) (sessionCreatedAt env) None
                        (initMetadataOf params)),
                  mkDB (sessions db
                        ++ [SessionRow.mk (newSessionId env) task 0 0 active
                              (sessionCreatedAt env) (sessionCreatedAt env)
                              None (JSON.roundTrip (initMetadataOf params))])
                    (sprints db) (artifacts db) (checkpoints db))).
  { unfold createSession. rewrite Hfresh. reflexivity. }
  rewrite Hc. cbn [Session.id].
  assert (Hget : getSession
                   (mkDB (sessions db
                          ++ [SessionRow.mk (newSessionId env) task 0 0 active
                                (sessionCreatedAt env) (sessionCreatedAt env)
                                None (JSON.roundTrip (initMetadataOf params))])
                      (sprints db) (artifacts db) (checkpoints db))
                   (newSessionId env)
                 = ok (Some (Session.mk (newSessionId env) task 0 0 active
                               (sessionCreatedAt env) (sessionCreatedAt env)
                               None (JSON.roundTrip (initMetadataOf params))))).
  { unfold getSession. cbn [sessions]. rewrite selectById_app.
    apply hasId_selectById in Hfresh. rewrite Hfresh.
    cbn [selectById SessionRow.id].
    rewrite bool_decide_eq_true_2 by reflexivity. reflexivity. }
  eexists; eexists. split; [reflexivity|].
  split; [reflexivity|]. split; [exact Hget|].
  split; [apply initMetadata_threshold|]. split; [|split; [|split; reflexivity]].
  - unfold handleStatus, Str.present.
    rewrite bool_decide_eq_false_2 by exact Hid. rewrite Hget. reflexivity.
  - intros j Hj. apply getSession_app_other. cbn [SessionRow.id]. congruence.
Qed.

End InitAndStatus.

Section DefaultCriteria.

Import State Scenario CoreConfidence Phases.

Local Open Scope list_scope.

Lemma filter_length_all {A} (f : A -> bool) (l : list A) :
  length (List.filter f l) = length l -> forall x, In x l -> f x = true.
Proof.
  induction l as [|y l IH]; simpl; [intros _ x []|].
  destruct (f y) eqn:E; simpl.
  - intros H x [<-|Hx]; [exact E|]. apply IH; [lia|exact Hx].
  - intros H. pose proof (filter_length_le f l). lia.
Qed.

Lemma ratio_ge_1 (n d : nat) :
  (n <= d)%nat -> (0 < d)%nat -> (1 <= ratio n d)%Q -> n = d.
Proof.
  intros Hn Hd H. unfold ratio in H.
  assert (D : (0 < inject_Z (Z.of_nat d))%Q).
  { change 0%Q with (inject_Z 0). rewrite <- Zlt_Qlt. lia. }
  assert (L : (inject_Z (Z.of_nat d) <= inject_Z (Z.of_nat n))%Q).
  { apply (Qmult_le_r _ _ (/ inject_Z (Z.of_nat d))).
    - apply Qinv_lt_0_compat. exact D.
    - rewrite Qmult_inv_r by lra. exact H. }
  rewrite <- Zle_Qle in L. lia.
Qed.

(** A completion rate of at least 1 means that every task is completed. *)
Lemma completionRate_full (s : SwarmState) :
  (1 <= calculateCompletionRate s)%Q ->
  forall t, In t (tasks s) -> isCompleted t = true.
Proof.
  unfold calculateCompletionRate.
  destruct (length (tasks s) =? 0)%nat eqn:E; [intros H; lra|].
  apply Nat.eqb_neq in E. intros H.
  apply filter_length_all. apply ratio_ge_1.
  - apply filter_length_le.
  - lia.
  - exact H.
Qed.

Lemma testFailureRate_zero (s : SwarmState) :
  (forall t, In t (tasks s) -> isCompleted t = true) ->
  (calculateTestFailureRate s == 0)%Q.
Proof.
  intros Hall. unfold calculateTestFailureRate.
  destruct (length (List.filter isTestTask (tasks s)) =? 0)%nat; [reflexivity|].
  assert (E : List.filter isFailed (List.filter isTestTask (tasks s)) = []).
  { induction (tasks s) as [|t l IH]; [reflexivity|]. simpl.
    assert (Ht : isFailed t = false).
    { pose proof (Hall t (or_introl eq_refl)) as C.
      unfold isCompleted in C. unfold isFailed.
      destruct (task_status t); try discriminate; reflexivity. }
    destruct (isTestTask t); simpl; [rewrite Ht|];
      apply IH; intros t' Ht'; apply Hall; right; exact Ht'. }
  rewrite E. unfold ratio. simpl. unfold Qdiv. ring.
Qed.

(** X24. With the default criteria a positive decision only moves
    forward.  From testing the next phase is always refactoring: the
    required completion of 1 means that every task is completed, so no
    test has failed and the return to executing is never proposed.  From
    executing, when the stored confidence is the computed one (as in the
    conductor loop), the next phase is always testing: the minimum
    confidence 0.6 excludes the return to planning.  From planning it is
    executing, from refactoring testing, and never anything from
    completing. *)
Theorem default_criteria_forward_only (s : SwarmState) (d : Decision) :
  shouldTransitionPhase s noCriteria = ok d -> shouldTransition d = true ->
  (phase s = planning -> nextPhase d = Some executing)
  /\ (phase s = executing -> confidence s = Fin (calculateConfidence s) ->
      nextPhase d = Some testing)
  /\ (phase s = testing -> nextPhase d = Some refactoring)
  /\ (phase s = refactoring -> nextPhase d = Some testing)
  /\ phase s <> completing.
Proof.
  unfold shouldTransitionPhase.
  destruct (Num.ltb (Fin (calculateConfidence s)) _) eqn:E1;
    [intros H; injection H as <-; discriminate|].
  destruct (Num.ltb (Fin (calculateCompletionRate s)) _) eqn:E2;
    [intros H; injection H as <-; discriminate|].
  destruct (getNextPhase s) as [p|] eqn:G;
    [|intros H; injection H as <-; discriminate].
  intros H _. injection H as <-. cbn [nextPhase].
  unfold getNextPhase in G.
  split; [|split; [|split; [|split]]]; intros Hp; rewrite Hp in *;
    cbn [PHASE_CRITERIA mergeCriteria noCriteria p_minConfidence
         p_requiredCompletions default minConfidence requiredCompletions
         option_rect] in *; try congruence.
  - intros Hc. rewrite Hc in G.
    apply ltb_Fin_false in E1.
    assert (E : Num.ltb (Fin (calculateConfidence s)) (Fin (5 # 10)) = false)
      by (apply ltb_Fin_false; lra).
    rewrite E in G. congruence.
  - apply ltb_Fin_false in E2.
    pose proof (testFailureRate_zero s (completionRate_full s E2)) as Z.
    assert (E : Num.gtb (Fin (calculateTestFailureRate s)) (Fin (3 # 10))
                = false)
      by (unfold Num.gtb; apply ltb_Fin_false; lra).
    rewrite E in G. congruence.
Qed.

End DefaultCriteria.

(** ** Recommendations *)

Section RecommendationRules.

Import CoreConfidence Recommendations.

Local Open Scope list_scope.

Lemma utilization_unit (agents : list Agent) :
  agents <> [] -> (0 <= utilization agents /\ utilization agents <= 1)%Q.
Proof.
  intros Hne. unfold utilization. apply ratio_unit.
  - apply filter_length_le.
  - destruct agents; [contradiction|simpl; lia].
Qed.

(** The utilisation factor as a function of the share of busy agents. *)
Lemma utilizationFactor_cases (agents : list Agent) :
  agents <> [] ->
  ((utilization agents <= 8 # 10
    /\ calculateAgentUtilizationFactor agents
       == utilization agents * (10 # 8))
   \/ (8 # 10 < utilization agents
       /\ calculateAgentUtilizationFactor agents
          == (18 # 10) - utilization agents))%Q.
Proof.
  intros Hne. unfold calculateAgentUtilizationFactor.
  destruct agents as [|a l]; [contradiction|].
  change (length (a :: l) =? 0)%nat with false. cbv iota.
  fold (utilization (a :: l)).
  destruct (utilization (a :: l) ?= 8 # 10)%Q eqn:C.
  - apply Qeq_alt in C. left. split; [lra|field].
  - apply Qlt_alt in C. left. split; [lra|field].
  - apply Qgt_alt in C. right. split; [lra|]. field.
Qed.

(** When a message is among the recommendations. *)
Lemma recommendations_In (s : SwarmState) (m : string) :
  let factors := calculateConfidenceFactors s in
  In m (getConfidenceRecommendations s)
  <-> (Num.ltb (Fin (taskCompletion factors)) (Fin (5 # 10)) = true
       /\ m = "Focus on completing more tasks to improve confidence")
      \/ (Num.ltb (Fin (agentUtilization factors)) (Fin (6 # 10)) = true
          /\ m = "Assign more tasks to idle agents")
      \/ (Num.ltb (Fin (agentUtilization factors)) (Fin (6 # 10)) = false
          /\ Num.gtb (Fin (agentUtilization factors)) (Fin (9 # 10)) = true
          /\ m = "Agents are overloaded - consider redistributing tasks")
      \/ (Num.gtb (Fin (taskFailureRate factors)) (Fin (2 # 10)) = true
          /\ m = "High failure rate detected - review task requirements")
      \/ (Num.ltb (Fin (phaseIterations factors)) (Fin (6 # 10)) = true
          /\ m = "Multiple phase iterations detected - consider adjusting approach")
      \/ (Num.ltb (Fin (contextClarity factors)) (Fin (5 # 10)) = true
          /\ m = "Context could be clearer - consider refining requirements").
Proof.
  cbv zeta. unfold getConfidenceRecommendations.
  generalize (calculateConfidenceFactors s) as factors. intros factors.
  rewrite !in_app_iff.
  destruct (Num.ltb (Fin (taskCompletion factors)) (Fin (5 # 10)));
    destruct (Num.ltb (Fin (agentUtilization factors)) (Fin (6 # 10)));
    destruct (Num.gtb (Fin (agentUtilization factors)) (Fin (9 # 10)));
    destruct (Num.gtb (Fin (taskFailureRate factors)) (Fin (2 # 10)));
    destruct (Num.ltb (Fin (phaseIterations factors)) (Fin (6 # 10)));
    destruct (Num.ltb (Fin (contextClarity factors)) (Fin (5 # 10)));
    cbn [In]; intuition congruence.
Qed.

(** X25. The utilisation recommendations of
    [getConfidenceRecommendations], for an aggregate with agents, in
    terms of the share of busy agents (in exact arithmetic): "Agents are
    overloaded" is issued exactly when the share is above 72% and below
    90%, "Assign more tasks to idle agents" exactly when it is below 48%.
    So when every agent is busy neither is issued, while at the share of
    80% that the code calls optimal the overload warning is. *)
Theorem utilization_recommendations (s : SwarmState) :
  agents s <> [] ->
  (In "Agents are overloaded - consider redistributing tasks"
      (getConfidenceRecommendations s)
   <-> (72 # 100 < utilization (agents s) /\ utilization (agents s) < 9 # 10)%Q)
  /\ (In "Assign more tasks to idle agents" (getConfidenceRecommendations s)
      <-> (utilization (agents s) < 48 # 100)%Q)
  /\ (Forall (fun a => agent_status a = busy) (agents s) ->
      ~ In "Agents are overloaded - consider redistributing tasks"
          (getConfidenceRecommendations s)
      /\ ~ In "Assign more tasks to idle agents"
             (getConfidenceRecommendations s)).
Proof.
  intros Hne.
  pose proof (utilization_unit (agents s) Hne) as [U0 U1].
  pose proof (utilizationFactor_cases (agents s) Hne) as Hc.
  assert (Hover :
    In "Agents are overloaded - consider redistributing tasks"
      (getConfidenceRecommendations s)
    <-> (72 # 100 < utilization (agents s)
         /\ utilization (agents s) < 9 # 10)%Q).
  { rewrite recommendations_In. cbv zeta. unfold calculateConfidenceFactors.
    cbn [taskCompletion agentUtilization taskFailureRate phaseIterations
         contextClarity].
    set (f := calculateAgentUtilizationFactor (agents s)) in *.
    set (u := utilization (agents s)) in *.
    split.
    - intros [[_ H]|[[_ H]|[[H1 [H2 _]]|[[_ H]|[[_ H]|[_ H]]]]]];
        try discriminate H.
      apply ltb_Fin_false in H1. unfold Num.gtb in H2. apply ltb_Fin in H2.
      destruct Hc as [[C1 C2]|[C1 C2]]; rewrite C2 in H1, H2.
      + lra.
      + lra.
    - intros [H1 H2]. right; right; left.
      split; [|split; [|reflexivity]].
      + apply ltb_Fin_false.
        destruct Hc as [[C1 C2]|[C1 C2]]; rewrite C2.
        * lra.
        * lra.
      + unfold Num.gtb. apply ltb_Fin.
        destruct Hc as [[C1 C2]|[C1 C2]]; rewrite C2.
        * lra.
        * lra. }
  assert (Hidle :
    In "Assign more tasks to idle agents" (getConfidenceRecommendations s)
    <-> (utilization (agents s) < 48 # 100)%Q).
  { rewrite recommendations_In. cbv zeta. unfold calculateConfidenceFactors.
    cbn [taskCompletion agentUtilization taskFailureRate phaseIterations
         contextClarity].
    set (f := calculateAgentUtilizationFactor (agents s)) in *.
    set (u := utilization (agents s)) in *.
    split.
    - intros [[_ H]|[[H1 _]|[[_ [_ H]]|[[_ H]|[[_ H]|[_ H]]]]]];
        try discriminate H.
      apply ltb_Fin in H1.
      destruct Hc as [[C1 C2]|[C1 C2]]; rewrite C2 in H1.
      + lra.
      + lra.
    - intros H. right; left. split; [|reflexivity].
      apply ltb_Fin.
      destruct Hc as [[C1 C2]|[C1 C2]]; rewrite C2.
      + lra.
      + lra. }
  split; [exact Hover|]. split; [exact Hidle|].
  intros Hall.
  assert (Hu : (utilization (agents s) == 1)%Q).
  { unfold utilization, ratio.
    assert (E : List.filter isBusy (agents s) = agents s).
    { clear -Hall. induction Hall as [|a l Ha _ IH]; [reflexivity|].
      simpl. unfold isBusy at 1. rewrite Ha. rewrite IH. reflexivity. }
    rewrite E. field.
    destruct (agents s); [contradiction|].
    change 0%Q with (inject_Z 0). rewrite inject_Z_injective. simpl length.
    lia. }
  rewrite Hover, Hidle, Hu. split; intros H; lra.
Qed.

End RecommendationRules.

(** ** Levels and thresholds *)

Section Levels.

Import Confidence ConfidenceLevels.

Lemma geb_Fin (x y : Q) : geb (Fin x) (Fin y) = true <-> (y <= x)%Q.
Proof.
  unfold geb. rewrite negb_true_iff. apply ltb_Fin_false.
Qed.

Lemma geb_Fin_false (x y : Q) : geb (Fin x) (Fin y) = false <-> (x < y)%Q.
Proof.
  unfold geb. rewrite negb_false_iff. apply ltb_Fin.
Qed.

(** The level of a finite score, by the interval it lies in. *)
Lemma getConfidenceLevel_Fin (x : Q) :
  match getConfidenceLevel (Fin x) with
  | CRITICAL => (95 # 100 <= x)%Q
  | HIGH => (80 # 100 <= x /\ x < 95 # 100)%Q
  | MEDIUM => (60 # 100 <= x /\ x < 80 # 100)%Q
  | LOW => (40 # 100 <= x /\ x < 60 # 100)%Q
  | MINIMAL => (x < 40 # 100)%Q
  end.
Proof.
  unfold getConfidenceLevel, CONFIDENCE_THRESHOLDS.
  destruct (geb (Fin x) (Fin (95 # 100))) eqn:E1;
    [apply geb_Fin in E1; exact E1|apply geb_Fin_false in E1].
  destruct (geb (Fin x) (Fin (80 # 100))) eqn:E2;
    [apply geb_Fin in E2; auto|apply geb_Fin_false in E2].
  destruct (geb (Fin x) (Fin (60 # 100))) eqn:E3;
    [apply geb_Fin in E3; auto|apply geb_Fin_false in E3].
  destruct (geb (Fin x) (Fin (40 # 100))) eqn:E4;
    [apply geb_Fin in E4; auto|apply geb_Fin_false in E4].
  exact E4.
Qed.

(** X26. Levels and thresholds agree, except at the bottom.  For every
    level other than MINIMAL, a score meets the level's threshold exactly
    when its own level is at least that level.  A finite score fails the
    threshold of its own level exactly when it is below 0.2 (its level is
    then MINIMAL).  The level is monotone in a finite score.  A score
    whose value is [NaN] has the level MINIMAL and meets no threshold,
    numeric or named. *)
Theorem getConfidenceLevel_meetsThreshold (score : ConfidenceScore) :
  (forall level, level <> MINIMAL ->
     (meetsThreshold score (inr level) = true
      <-> (rank level <= rank (getConfidenceLevel (value score)))%nat))
  /\ (forall x, value score = Fin x ->
        (meetsThreshold score (inr (getConfidenceLevel (value score))) = false
         <-> (x < 20 # 100)%Q))
  /\ (forall x y, (x <= y)%Q ->
        (rank (getConfidenceLevel (Fin x))
         <= rank (getConfidenceLevel (Fin y)))%nat)
  /\ (value score = NaN ->
      getConfidenceLevel (value score) = MINIMAL
      /\ forall threshold, meetsThreshold score threshold = false).
Proof.
  split; [|split; [|split]].
  - intros level Hl. unfold meetsThreshold.
    destruct (value score) as [x| | |].
    + pose proof (getConfidenceLevel_Fin x) as L.
      rewrite geb_Fin.
      destruct level, (getConfidenceLevel (Fin x));
        unfold CONFIDENCE_THRESHOLDS; simpl; try contradiction;
        split; intros H; try lia; try lra.
    + destruct level; try contradiction; simpl; split; intros; try lia;
        reflexivity.
    + destruct level; try contradiction; simpl; split; intros; try lia;
        discriminate.
    + destruct level; try contradiction; simpl; split; intros; try lia;
        discriminate.
  - intros x Hx. unfold meetsThreshold. rewrite Hx.
    pose proof (getConfidenceLevel_Fin x) as L.
    rewrite geb_Fin_false.
    destruct (getConfidenceLevel (Fin x)); unfold CONFIDENCE_THRESHOLDS;
      split; intros H; try lra.
  - intros x y Hxy.
    pose proof (getConfidenceLevel_Fin x) as Lx.
    pose proof (getConfidenceLevel_Fin y) as Ly.
    destruct (getConfidenceLevel (Fin x)), (getConfidenceLevel (Fin y));
      simpl; try lia; exfalso; lra.
  - intros Hn. rewrite Hn. split; [reflexivity|].
    intros threshold. unfold meetsThreshold. rewrite Hn. reflexivity.
Qed.

End Levels.

(** ** Combining results *)

Section ResultCombinators.

Import ResultOps.

Local Open Scope list_scope.

Lemma allFrom_ok {A} (rs : list (Result A)) :
  forall acc vs,
  allFrom acc rs = ok vs <-> exists ws, rs = List.map ok ws /\ vs = acc ++ ws.
Proof.
  induction rs as [|[v|e] rs IH]; intros acc vs; simpl.
  - split.
    + intros H; injection H as <-. exists []. rewrite app_nil_r. auto.
    + intros [ws [Hw ->]]. destruct ws; [|discriminate].
      rewrite app_nil_r. reflexivity.
  - rewrite IH. split.
    + intros [ws [-> ->]]. exists (v :: ws). rewrite <- app_assoc. auto.
    + intros [ws [Hw ->]]. destruct ws as [|w ws]; [discriminate|].
      simpl in Hw. injection Hw as -> ->. exists ws.
      rewrite <- app_assoc. auto.
  - split; [discriminate|]. intros [ws [Hw _]].
    destruct ws; discriminate.
Qed.

Lemma allFrom_err {A} (rs : list (Result A)) :
  forall acc e,
  allFrom acc rs = err e
  <-> exists ws rest, rs = List.map ok ws ++ err e :: rest.
Proof.
  induction rs as [|[v|e'] rs IH]; intros acc e; simpl.
  - split; [discriminate|]. intros [ws [rest H]].
    destruct ws; discriminate.
  - rewrite IH. split.
    + intros [ws [rest ->]]. exists (v :: ws), rest. reflexivity.
    + intros [ws [rest H]]. destruct ws as [|w ws]; [discriminate|].
      simpl in H. injection H as -> ->. exists ws, rest. reflexivity.
  - split.
    + intros H; injection H as ->. exists [], rs. reflexivity.
    + intros [ws [rest H]]. destruct ws as [|w ws]; [|discriminate].
      simpl in H. injection H as -> _. reflexivity.
Qed.

Lemma allFrom_acc {A} (rs : list (Result A)) :
  forall acc, allFrom acc rs = map (allFrom [] rs) (fun ws => acc ++ ws).
Proof.
  induction rs as [|[v|e] rs IH]; intros acc; simpl.
  - rewrite app_nil_r. reflexivity.
  - rewrite (IH (acc ++ [v])), (IH [v]).
    destruct (allFrom [] rs); simpl; [|reflexivity].
    rewrite <- app_assoc. reflexivity.
  - reflexivity.
Qed.

Lemma allFrom_app {A} (rs rs' : list (Result A)) :
  forall acc,
  allFrom acc (rs ++ rs') = chain (allFrom acc rs) (fun vs => allFrom vs rs').
Proof.
  induction rs as [|[v|e] rs IH]; intros acc; simpl;
    [reflexivity|apply IH|reflexivity].
Qed.

(** X29. [all] returns the values of a list of successes, in order, and
    otherwise the first error of the list, whatever follows it; and it
    distributes over concatenation: the results of [rs ++ rs'] are those
    of [rs] followed by those of [rs'], with the first error winning. *)
Theorem all_first_error {A} (rs : list (Result A)) :
  (forall vs, all rs = ok vs <-> rs = List.map ok vs)
  /\ (forall e, all rs = err e
                <-> exists vs rest, rs = List.map ok vs ++ err e :: rest)
  /\ forall rs', all (rs ++ rs')
                 = chain (all rs)
                     (fun vs => map (all rs') (fun vs' => vs ++ vs')).
Proof.
  split; [|split].
  - intros vs. unfold all. rewrite allFrom_ok. split.
    + intros [ws [-> ->]]. reflexivity.
    + intros ->. exists vs. auto.
  - intros e. unfold all. apply allFrom_err.
  - intros rs'. unfold all. rewrite allFrom_app.
    destruct (allFrom [] rs); simpl; [apply allFrom_acc|reflexivity].
Qed.

End ResultCombinators.

(** ** Migrations *)

Section Migrations.

Import MigrationRunner MoreSamples.

Local Open Scope list_scope.

Lemma maxOf_spec (l : list Z) :
  match maxOf l with
  | None => l = []
  | Some m => In m l /\ forall v, In v l -> (v <= m)%Z
  end.
Proof.
  induction l as [|x l IH]; [reflexivity|].
  simpl. destruct (maxOf l) as [m|].
  - destruct IH as [Hin Hmax]. split.
    + destruct (Z.max_spec x m) as [[_ ->]|[_ ->]]; auto.
    + intros v [<-|Hv]; [lia|]. specialize (Hmax v Hv). lia.
  - subst l. split; [left; reflexivity|]. intros v [<-|[]]. lia.
Qed.

Context {Schema : Type} (exec : string -> Schema -> Result Schema).

Lemma applyMigration_ok (m : Migration) (db db' : MDB Schema) :
  applyMigration Schema exec m db = (ok tt, db') ->
  applied db' = applied db ++ [entry m].
Proof.
  unfold applyMigration. destruct (exec (up m) (schema db)); [|discriminate].
  destruct (existsb _ _); [discriminate|].
  intros H. injection H as <-. reflexivity.
Qed.

Lemma applyMigration_err (m : Migration) (db db' : MDB Schema) (e : Error) :
  applyMigration Schema exec m db = (err e, db') -> db' = db.
Proof.
  unfold applyMigration. destruct (exec (up m) (schema db)).
  - destruct (existsb _ _); [|discriminate].
    intros H. injection H as _ <-. reflexivity.
  - intros H. injection H as _ <-. reflexivity.
Qed.

Lemma applyEach_ok (todo : list Migration) :
  forall db db',
  applyEach Schema exec todo db = (ok tt, db') ->
  applied db' = applied db ++ List.map entry todo.
Proof.
  induction todo as [|m todo IH]; intros db db'; simpl.
  - intros H. injection H as <-. rewrite app_nil_r. reflexivity.
  - destruct (applyMigration Schema exec m db) as [[[]|e] db1] eqn:E;
      [|discriminate].
    intros H. rewrite (IH _ _ H), (applyMigration_ok _ _ _ E).
    rewrite <- app_assoc. reflexivity.
Qed.

Lemma applyEach_err (todo : list Migration) :
  forall db db' e,
  applyEach Schema exec todo db = (err e, db') ->
  exists done m rest,
    todo = done ++ m :: rest
    /\ applied db' = applied db ++ List.map entry done
    /\ applyMigration Schema exec m db' = (err e, db').
Proof.
  induction todo as [|m todo IH]; intros db db' e; simpl; [discriminate|].
  destruct (applyMigration Schema exec m db) as [[[]|e1] db1] eqn:E.
  - intros H. destruct (IH _ _ _ H) as [done [m' [rest [-> [Ha Hm]]]]].
    exists (m :: done), m', rest. split; [reflexivity|]. split; [|exact Hm].
    rewrite Ha, (applyMigration_ok _ _ _ E). simpl.
    rewrite <- app_assoc. reflexivity.
  - intros H. injection H as <- <-.
    pose proof (applyMigration_err _ _ _ _ E) as ->.
    exists [], m, todo. split; [reflexivity|].
    split; [rewrite app_nil_r; reflexivity|exact E].
Qed.

Lemma pending_In (db : MDB Schema) (ms : list Migration) (m : Migration) :
  In m (pending Schema db ms)
  <-> In m ms /\ (getCurrentVersion Schema db < version m)%Z.
Proof.
  unfold pending. split.
  - intros H. apply orderBy_In in H. apply filter_In in H.
    destruct H as [H1 H2]. apply Z.ltb_lt in H2. auto.
  - intros [H1 H2].
    apply (Permutation_in _ (Permutation_sym (orderBy_Permutation _ _))).
    apply filter_In. split; [exact H1|]. apply Z.ltb_lt. exact H2.
Qed.

(** X30. [migrate] applies each pending migration once.  When it
    succeeds, the migrations recorded are those that were recorded before
    followed by the pending ones in ascending order of version, where
    pending means listed with a version above the current one (a listed
    migration at or below the current version is never run, recorded or
    not); and running [migrate] again with the same list applies nothing
    and succeeds.  When it fails, the migrations before the failing one
    stay applied and recorded, the failing one is rolled back, and the
    later ones are not attempted. *)
Theorem migrate_applies_pending_once (ms : list Migration) (db db' : MDB Schema) :
  (migrate Schema exec ms db = (ok tt, db') ->
   applied db' = applied db ++ List.map entry (pending Schema db ms)
   /\ ascending version (pending Schema db ms)
   /\ (forall m, In m (pending Schema db ms)
                 <-> In m ms /\ (getCurrentVersion Schema db < version m)%Z)
   /\ migrate Schema exec ms db' = (ok tt, db'))
  /\ (forall e, migrate Schema exec ms db = (err e, db') ->
        exists done m rest,
          pending Schema db ms = done ++ m :: rest
          /\ applied db' = applied db ++ List.map entry done
          /\ applyMigration Schema exec m db' = (err e, db')).
Proof.
  unfold migrate. split; [|intros e; apply applyEach_err].
  intros H. pose proof (applyEach_ok _ _ _ H) as Ha.
  split; [exact Ha|]. split; [apply (orderBy_sorted version)|].
  split; [intros m; apply pending_In|].
  assert (Hnone : pending Schema db' ms = []).
  { unfold pending.
    assert (F : List.filter
                  (fun m => (getCurrentVersion Schema db' <? version m)%Z) ms
                = []).
    { assert (G : forall m, In m ms ->
                  (getCurrentVersion Schema db' <? version m)%Z = false).
      { intros m Hm. apply Z.ltb_ge.
        unfold getCurrentVersion at 1. rewrite Ha, List.map_app.
        pose proof (maxOf_spec (List.map fst (applied db)
                                ++ List.map fst
                                     (List.map entry (pending Schema db ms))))
          as S'.
        destruct (Z_lt_le_dec (getCurrentVersion Schema db) (version m))
          as [Hlt|Hle].
        - assert (Hin : In (version m)
                          (List.map fst (applied db)
                           ++ List.map fst
                                (List.map entry (pending Schema db ms)))).
          { apply in_or_app. right. rewrite List.map_map.
            apply in_map_iff. exists m. split; [reflexivity|].
            apply pending_In. auto. }
          destruct (maxOf _) as [M|]; [|rewrite S' in Hin; destruct Hin].
          simpl. exact (proj2 S' _ Hin).
        - unfold getCurrentVersion in Hle.
          pose proof (maxOf_spec (List.map fst (applied db))) as S0.
          destruct (maxOf (List.map fst (applied db))) as [M0|].
          + simpl in Hle. destruct S0 as [Hin0 _].
            assert (Hin : In M0
                            (List.map fst (applied db)
                             ++ List.map fst
                                  (List.map entry (pending Schema db ms))))
              by (apply in_or_app; left; exact Hin0).
            destruct (maxOf _) as [M|]; [|rewrite S' in Hin; destruct Hin].
            simpl. pose proof (proj2 S' _ Hin). lia.
          + simpl in Hle. rewrite S0 in *. simpl app in *.
            destruct (maxOf _) as [M|]; [|simpl; exact Hle].
            simpl. destruct S' as [HinM _].
            rewrite List.map_map in HinM. apply in_map_iff in HinM.
            destruct HinM as [m' [<- Hm']]. apply pending_In in Hm'.
            destruct Hm' as [_ Hm']. unfold getCurrentVersion in Hm'.
            rewrite S0 in Hm'. simpl in Hm'. simpl. lia. }
      clear -G. induction ms as [|m ms IH]; [reflexivity|].
      simpl. rewrite (G m (or_introl eq_refl)).
      apply IH. intros m' Hm'. apply G. right. exact Hm'. }
    rewrite F. reflexivity. }
  rewrite Hnone. reflexivity.
Qed.

End Migrations.

Section MigrationsWitness.

Import MigrationRunner MoreSamples.

Local Open Scope list_scope.

Lemma migrate_applies_pending_once_witness :
  migrate (list string) scriptLog sampleMigrations (mkMDB [] [])
  = (ok tt,
     mkMDB ["CREATE TABLE sessions (id TEXT)";
            "CREATE INDEX i ON sessions(status)"]
       [(1%Z, "initial_schema"); (2%Z, "add_index")])
  /\ migrate (list string) scriptLog sampleMigrations
       (mkMDB ["CREATE TABLE sessions (id TEXT)";
               "CREATE INDEX i ON sessions(status)"]
          [(1%Z, "initial_schema"); (2%Z, "add_index")])
     = (ok tt,
        mkMDB ["CREATE TABLE sessions (id TEXT)";
               "CREATE INDEX i ON sessions(status)"]
          [(1%Z, "initial_schema"); (2%Z, "add_index")])
  /\ exists e done m rest,
       migrate (list string) scriptLog
         (sampleMigrations ++ [mkMigration 3 "broken" ""]) (mkMDB [] [])
       = (err e,
          mkMDB ["CREATE TABLE sessions (id TEXT)";
                 "CREATE INDEX i ON sessions(status)"]
            [(1%Z, "initial_schema"); (2%Z, "add_index")])
       /\ pending (list string) (mkMDB [] [])
            (sampleMigrations ++ [mkMigration 3 "broken" ""])
          = done ++ m :: rest.
Proof.
  assert (H1 : migrate (list string) scriptLog sampleMigrations (mkMDB [] [])
               = (ok tt,
                  mkMDB ["CREATE TABLE sessions (id TEXT)";
                         "CREATE INDEX i ON sessions(status)"]
                    [(1%Z, "initial_schema"); (2%Z, "add_index")]))
    by reflexivity.
  assert (H2 : migrate (list string) scriptLog
                 (sampleMigrations ++ [mkMigration 3 "broken" ""])
                 (mkMDB [] [])
               = (err (mkError "Failed to apply migration broken: SQLiteError: incomplete input"),
                  mkMDB ["CREATE TABLE sessions (id TEXT)";
                         "CREATE INDEX i ON sessions(status)"]
                    [(1%Z, "initial_schema"); (2%Z, "add_index")]))
    by reflexivity.
  split; [exact H1|]. split.
  - destruct (proj1 (migrate_applies_pending_once scriptLog sampleMigrations
                       _ _) H1) as [_ [_ [_ H]]].
    exact H.
  - destruct (proj2 (migrate_applies_pending_once scriptLog
                       (sampleMigrations ++ [mkMigration 3 "broken" ""])
                       _ _) _ H2) as [done [m [rest [P [_ A]]]]].
    exists (mkError "Failed to apply migration broken: SQLiteError: incomplete input"),
      done, m, rest.
    split; [exact H2|exact P].
Defined.

End MigrationsWitness.

Section HandlerWitnesses.

Import SQLiteStateRepository MCPHandlers Scenario SessionHandlers MoreSamples.

Local Open Scope list_scope.

Lemma handleSprint_completed_witness :
  Str.present (sp_session_id (mkSprintParams (Some "session-1") None))
  = Some "session-1"
  /\ getSession db3 "session-1"
     = ok (Some (Session.mk "session-1" "build-api" 0 0 active t0 t0 None
                   initMetadata))
  /\ hasId SprintRow.id (newSprintId exitOneEnv) (sprints db3) = false
  /\ numbered db3 "session-1"
  /\ (forall task options,
        runSwarm exitOneEnv task options
        = ok (mkSwarmResult false "Task completed, success" 1 250))
  /\ exists db' resp row,
       handleSprint db3 (mkSprintParams (Some "session-1") None) exitOneEnv
       = (ok resp, db')
       /\ sprint_number resp = 2%Z
       /\ response_confidence resp = 0%Q
       /\ selectById SprintRow.id "sprint-2" (sprints db') = Some row
       /\ SprintRow.status row = sprint_executing
       /\ SprintRow.completed_at row = None
       /\ SprintRow.result row = None
       /\ getSession db' "session-1"
          = ok (Some (Session.mk "session-1" "build-api" 1 0 active t0 t3 None
                        initMetadata)).
Proof.
  assert (H1 : Str.present (sp_session_id (mkSprintParams (Some "session-1")
                                             None)) = Some "session-1")
    by reflexivity.
  assert (H2 : getSession db3 "session-1"
               = ok (Some (Session.mk "session-1" "build-api" 0 0 active t0 t0
                             None initMetadata))) by reflexivity.
  assert (H3 : hasId SprintRow.id (newSprintId exitOneEnv) (sprints db3)
               = false) by reflexivity.
  assert (H4 : numbered db3 "session-1") by reflexivity.
  assert (H5 : forall task options,
             runSwarm exitOneEnv task options
             = ok (mkSwarmResult false "Task completed, success" 1 250))
    by (intros; reflexivity).
  split; [exact H1|]. split; [exact H2|]. split; [exact H3|].
  split; [exact H4|]. split; [exact H5|].
  destruct (handleSprint_completed db3 _ exitOneEnv "session-1" _ _ _
              H1 H2 eq_refl eq_refl H3 H4 H5)
    as (db' & resp & row & E1 & _ & E3 & _ & _ & E6 & E7 & _ & _ & E10 & _
        & E12 & E13 & E14 & _).
  exists db', resp, row. split; [exact E1|]. split; [exact E3|].
  split; [exact (E6 eq_refl)|]. split; [exact E7|]. split; [exact E10|].
  split; [exact E12|]. split; [exact E13|]. exact E14.
Defined.

Lemma handleSprint_should_continue_witness :
  Str.present (sp_session_id (mkSprintParams (Some "session-1") None))
  = Some "session-1"
  /\ getSession db3 "session-1"
     = ok (Some (Session.mk "session-1" "build-api" 0 0 active t0 t0 None
                   initMetadata))
  /\ fst (handleSprint db3 (mkSprintParams (Some "session-1") None) passingEnv)
     = ok (mkSprintResponse "sprint-2" 2 "completed"
             (calculateConfidence (mkSwarmResult true "Task completed" 0 250))
             250 true)
  /\ JSON.lookup "confidence_threshold"
       [("confidence_threshold", VNum (Fin (8 # 10)));
        ("max_sprints", numZ 10); ("parallel_swarms", numZ 3)]
     = VNum (Fin (8 # 10))
  /\ ~ (8 # 10 == 0)%Q
  /\ (calculateConfidence (mkSwarmResult true "Task completed" 0 250)
      < 8 # 10)%Q.
Proof.
  assert (H1 : Str.present (sp_session_id (mkSprintParams (Some "session-1")
                                             None)) = Some "session-1")
    by reflexivity.
  assert (H2 : getSession db3 "session-1"
               = ok (Some (Session.mk "session-1" "build-api" 0 0 active t0 t0
                             None initMetadata))) by reflexivity.
  assert (H3 : fst (handleSprint db3 (mkSprintParams (Some "session-1") None)
                      passingEnv)
               = ok (mkSprintResponse "sprint-2" 2 "completed"
                       (calculateConfidence
                          (mkSwarmResult true "Task completed" 0 250))
                       250 true)) by reflexivity.
  assert (H4 : JSON.lookup "confidence_threshold"
                 [("confidence_threshold", VNum (Fin (8 # 10)));
                  ("max_sprints", numZ 10); ("parallel_swarms", numZ 3)]
               = VNum (Fin (8 # 10))) by reflexivity.
  assert (H5 : ~ (8 # 10 == 0)%Q) by (unfold Qeq; simpl; lia).
  split; [exact H1|]. split; [exact H2|]. split; [exact H3|].
  split; [exact H4|]. split; [exact H5|].
  destruct (handleSprint_should_continue db3 _ passingEnv "session-1" _ _ _
              H1 H2 eq_refl H3) as [A _].
  exact (proj1 (A _ H4 H5) eq_refl).
Defined.

Lemma cancel_stores_nothing_witness :
  "session-1" <> ""
  /\ handleCancel db3 (Some "session-1") t3 t3
     = (ok (mkCancelResponse "session-1" "Session cancelled successfully"),
        db3)
  /\ getSession (snd (handleCancel db3 (Some "session-1") t3 t3)) "session-1"
     = ok (Some (Session.mk "session-1" "build-api" 0 0 active t0 t0 None
                   initMetadata))
  /\ fst (handleSprint (snd (handleCancel db3 (Some "session-1") t3 t3))
            (mkSprintParams (Some "session-1") None) passingEnv)
     = ok (mkSprintResponse "sprint-2" 2 "completed"
             (calculateConfidence (mkSwarmResult true "Task completed" 0 250))
             250 true).
Proof.
  assert (H1 : "session-1" <> "") by discriminate.
  destruct (cancel_stores_nothing db3 "session-1" t3 t3 H1) as (A & B & C).
  split; [exact H1|]. split; [exact A|].
  split; [rewrite B; reflexivity|].
  rewrite C. reflexivity.
Defined.

Lemma handleCheckpoint_effect_witness :
  handleCheckpoint db3 checkpointParams checkpointEnv
  = (ok (mkCheckpointResponse "checkpoint-1"
           "Checkpoint 'before-refactor' created successfully"), db4)
  /\ exists row,
       db4 = mkDB (sessions db3) (sprints db3) (artifacts db3)
               (checkpoints db3 ++ [row])
       /\ CheckpointRow.id row = "checkpoint-1".
Proof.
  assert (H : handleCheckpoint db3 checkpointParams checkpointEnv
              = (ok (mkCheckpointResponse "checkpoint-1"
                       "Checkpoint 'before-refactor' created successfully"),
                 db4)) by reflexivity.
  split; [exact H|].
  destruct (proj2 (handleCheckpoint_effect db3 checkpointParams
                     checkpointEnv) _ _ H)
    as (sid & nm & session & l & cur & row & _ & _ & _ & _ & _ & _ & _ & Hdb
        & Hrow & _).
  exists row. split; [exact Hdb|]. rewrite Hrow. reflexivity.
Defined.

Lemma restore_writes_memory_back_witness :
  Str.present (cp_session_id checkpointParams) = Some "session-1"
  /\ Str.present (cp_name checkpointParams) = Some "before-refactor"
  /\ getSession db3 "session-1"
     = ok (Some (Session.mk "session-1" "build-api" 0 0 active t0 t0 None
                   initMetadata))
  /\ getSprintsBySession db3 "session-1"
     = ok [Sprint.mk "sprint-1" "session-1" 1 "design" 0 sprint_planning t1
             None None]
  /\ newCheckpointId noMemoryEnv <> ""
  /\ hasId CheckpointRow.id (newCheckpointId noMemoryEnv) (checkpoints db3)
     = false
  /\ memoryState noMemoryEnv = err (mkError "Failed to get swarm state")
  /\ snd (handleRestore
            (applyMutations (snd (handleCheckpoint db3 checkpointParams
                                    noMemoryEnv)) [])
            (Some (newCheckpointId noMemoryEnv)))
     = [("session-1", VObj [])].
Proof.
  assert (H1 : Str.present (cp_session_id checkpointParams)
               = Some "session-1") by reflexivity.
  assert (H2 : Str.present (cp_name checkpointParams)
               = Some "before-refactor") by reflexivity.
  assert (H3 : getSession db3 "session-1"
               = ok (Some (Session.mk "session-1" "build-api" 0 0 active t0 t0
                             None initMetadata))) by reflexivity.
  assert (H4 : getSprintsBySession db3 "session-1"
               = ok [Sprint.mk "sprint-1" "session-1" 1 "design" 0
                       sprint_planning t1 None None]) by reflexivity.
  assert (H5 : [Sprint.mk "sprint-1" "session-1" 1 "design" 0 sprint_planning
                  t1 None None] <> []) by discriminate.
  assert (H6 : newCheckpointId noMemoryEnv <> "") by discriminate.
  assert (H7 : hasId CheckpointRow.id (newCheckpointId noMemoryEnv)
                 (checkpoints db3) = false) by reflexivity.
  split; [exact H1|]. split; [exact H2|]. split; [exact H3|].
  split; [exact H4|]. split; [exact H6|]. split; [exact H7|].
  split; [reflexivity|].
  exact (restore_writes_memory_back db3 checkpointParams noMemoryEnv
           "session-1" "before-refactor" _ _ H1 H2 H3 H4 H5 H6 H7 []).
Defined.

Lemma handleInit_then_status_witness :
  Str.present (ip_task (mkInitParams (Some "build-api") (VNum PosInf)
                          VUndefined VUndefined)) = Some "build-api"
  /\ newSessionId (mkInitEnv "session-1" t0) <> ""
  /\ hasId SessionRow.id (newSessionId (mkInitEnv "session-1" t0))
       (sessions emptyDB) = false
  /\ exists db',
       fst (fst (handleInit emptyDB
                   (mkInitParams (Some "build-api") (VNum PosInf) VUndefined
                      VUndefined) (mkInitEnv "session-1" t0)))
       = ok (mkInitResponse "session-1" "initialized"
               "Session session-1 created for task: build-api")
       /\ snd (fst (handleInit emptyDB
                      (mkInitParams (Some "build-api") (VNum PosInf)
                         VUndefined VUndefined) (mkInitEnv "session-1" t0)))
          = db'
       /\ handleStatus db' (Some "session-1") VUndefined
          = ok (mkStatusResponse "session-1" "build-api" active 0 0 t0 t0 None)
       /\ getSession db' "session-1"
          = ok (Some (Session.mk "session-1" "build-api" 0 0 active t0 t0 None
                        (VObj [("confidence_threshold", VNull);
                               ("max_sprints", numZ 10);
                               ("parallel_swarms", numZ 3)]))).
Proof.
  assert (H1 : Str.present (ip_task (mkInitParams (Some "build-api")
                                       (VNum PosInf) VUndefined VUndefined))
               = Some "build-api") by reflexivity.
  assert (H2 : newSessionId (mkInitEnv "session-1" t0) <> "")
    by discriminate.
  assert (H3 : hasId SessionRow.id (newSessionId (mkInitEnv "session-1" t0))
                 (sessions emptyDB) = false) by reflexivity.
  split; [exact H1|]. split; [exact H2|]. split; [exact H3|].
  destruct (handleInit_then_status emptyDB
              (mkInitParams (Some "build-api") (VNum PosInf) VUndefined
                 VUndefined) (mkInitEnv "session-1" t0) "build-api" H1 H2 H3)
    as (db' & mem & E1 & _ & E3 & _ & E5 & _).
  exists db'. rewrite E1. split; [reflexivity|]. split; [reflexivity|].
  split; [exact E5|exact E3].
Defined.

End HandlerWitnesses.

Section OtherWitnesses.

Import State Scenario CoreConfidence Phases Recommendations Samples MoreSamples.

Local Open Scope list_scope.

Lemma default_criteria_forward_only_witness :
  shouldTransitionPhase testingState noCriteria
  = ok (mkDecision true (Some refactoring) AllCriteriaMet)
  /\ shouldTransition (mkDecision true (Some refactoring) AllCriteriaMet)
     = true
  /\ phase testingState = testing
  /\ nextPhase (mkDecision true (Some refactoring) AllCriteriaMet)
     = Some refactoring.
Proof.
  assert (H1 : shouldTransitionPhase testingState noCriteria
               = ok (mkDecision true (Some refactoring) AllCriteriaMet))
    by reflexivity.
  split; [exact H1|]. split; [reflexivity|]. split; [reflexivity|].
  destruct (default_criteria_forward_only testingState _ H1 eq_refl)
    as (_ & _ & H & _).
  exact (H eq_refl).
Defined.

Lemma utilization_recommendations_witness :
  agents readyState <> []
  /\ (72 # 100 < utilization (agents readyState)
      /\ utilization (agents readyState) < 9 # 10)%Q
  /\ In "Agents are overloaded - consider redistributing tasks"
       (getConfidenceRecommendations readyState).
Proof.
  assert (H1 : agents readyState <> []) by discriminate.
  assert (H2 : (72 # 100 < utilization (agents readyState)
                /\ utilization (agents readyState) < 9 # 10)%Q)
    by (split; reflexivity).
  split; [exact H1|]. split; [exact H2|].
  exact (proj2 (proj1 (utilization_recommendations readyState H1)) H2).
Defined.

End OtherWitnesses.
